(** * Global UFO Sightings Tracker: the cleaning pipeline and the dashboard

    A shallow embedding of [data_processor.py] (the normalizer [clean_data],
    [create_sqlite_db] and the batch run under [__main__]) and of [app.py]
    (the year slider, the selections and the keyword criterion, the counts
    behind the charts, and [create_map]), with the properties the
    specification states about them and further ones read off the code.
    Of [app.py], [load_data] and the calls that draw the page are left out.

    Conventions of the embedding.
    - A Python [str] is a [string]; a character is a code point below 256
      and the character classes ([str.isspace], the [\w] and [\s] of [re],
      [str.lower]) are those of Python on that range.
    - A float is an exact rational or an infinity ([number]); NaN, None and
      NaT are the one missing value [CNull], as pandas treats them.
    - A DataFrame is its column labels, which are strings, and its rows of
      cells; the row index is left out (both writers are called with
      [index=False]).  Where the frame has a label twice, the line that
      reads the column of that label raises.  A label whose column is only
      copied to the result ([city], [state], [country]) or assigned
      ([date]) is looked up by first occurrence, where pandas would copy
      each column of the label; what is stated about results is stated for
      frames that have these labels once ([accepted]).
    - A column has the dtype pandas infers from its values, a missing value
      being NaN: an object column when it has no rows, holds a string, or
      holds numbers as well as timestamps; a float or datetime column
      otherwise.  The [.str] accessor goes by the dtype and by the values
      it finds (it refuses a column of numbers, for one), and its methods
      give a missing value on a cell that is not a string.
    - The parsers of pandas and Python's [str] on non-strings are parameters
      ([Lib]).  [to_numeric] reads cell by cell; [to_datetime] reads a
      column as a whole, since it settles on one format for it.  Timestamps
      are nanoseconds on one clock, without time zones; what becomes of a
      column whose strings carry differing UTC offsets is a parameter too.
    - Of the patterns of [re] the common core is defined ([Re]); what
      [re.compile] does with the rest is a parameter too.
    - [value_counts] orders its entries by falling count; the order among
      entries of equal count is a parameter, as are [str.title], [str.upper]
      and [strftime] in [create_map]. *)

From Stdlib Require Import Bool Arith NArith ZArith QArith Lia List Ascii String.
From Stdlib Require Import Permutation Sorted.
Import ListNotations.

Local Open Scope bool_scope.
Local Open Scope string_scope.
Local Open Scope list_scope.

(** ** Characters and strings, as Python sees them *)

Module Py.

Definition code (c : ascii) : N := N_of_ascii c.

Definition between (lo hi : N) (c : ascii) : bool :=
  ((lo <=? code c) && (code c <=? hi))%N.

(** [str.isspace] on one character; also the class [\s] of [re]. *)
Definition is_space (c : ascii) : bool :=
  between 9 13 c || between 28 32 c || (code c =? 133)%N || (code c =? 160)%N.

Definition is_upper (c : ascii) : bool :=
  between 65 90 c || (between 192 222 c && negb (code c =? 215)%N).

(** Alphabetic, decimal, digit or numeric: [Py_UNICODE_ISALNUM]. *)
Definition is_alnum (c : ascii) : bool :=
  between 48 57 c || between 65 90 c || between 97 122 c
  || (code c =? 170)%N || (code c =? 181)%N || (code c =? 186)%N
  || between 178 179 c || (code c =? 185)%N || between 188 190 c
  || (between 192 255 c && negb (code c =? 215)%N && negb (code c =? 247)%N).

(** The class [\w] of [re] on a [str] pattern. *)
Definition is_word (c : ascii) : bool :=
  is_alnum c || (code c =? 95)%N.

Definition lower_char (c : ascii) : ascii :=
  if is_upper c then ascii_of_N (code c + 32) else c.

(** [str.lower] *)
Fixpoint lower (s : string) : string :=
  match s with
  | EmptyString => EmptyString
  | String c s' => String (lower_char c) (lower s')
  end.

Fixpoint lstrip (s : string) : string :=
  match s with
  | EmptyString => EmptyString
  | String c s' => if is_space c then lstrip s' else s
  end.

Definition is_empty (s : string) : bool :=
  match s with EmptyString => true | _ => false end.

Fixpoint rstrip (s : string) : string :=
  match s with
  | EmptyString => EmptyString
  | String c s' =>
      let r := rstrip s' in
      if is_empty r && is_space c then EmptyString else String c r
  end.

(** [str.strip()] with no argument *)
Definition strip (s : string) : string := lstrip (rstrip s).

Fixpoint filter_chars (keep : ascii -> bool) (s : string) : string :=
  match s with
  | EmptyString => EmptyString
  | String c s' =>
      if keep c then String c (filter_chars keep s') else filter_chars keep s'
  end.

(** [str.replace old new] for a non-empty [old]: the occurrences are taken
    from the left and do not overlap.  [skip] counts the characters of an
    occurrence still to be passed over. *)
Fixpoint replace_from (old new : string) (skip : nat) (s : string) : string :=
  match s with
  | EmptyString => EmptyString
  | String c s' =>
      match skip with
      | S k => replace_from old new k s'
      | O =>
          if prefix old s
          then new ++ replace_from old new (String.length old - 1) s'
          else String c (replace_from old new 0 s')
      end
  end.

Definition replace (old new s : string) : string := replace_from old new 0 s.

(** The string made of one double quote. *)
Definition quote : string := String (ascii_of_N 34) EmptyString.


(** Every character of [s] satisfies [p]. *)
Fixpoint all_chars (p : ascii -> bool) (s : string) : Prop :=
  match s with
  | EmptyString => True
  | String c s' => p c = true /\ all_chars p s'
  end.

End Py.

(** ** Values, cells and frames *)

(** A float64 that is not NaN. *)
Inductive number : Type :=
| NegInf
| Fin (q : Q)
| PosInf.

Definition num_leb (a b : number) : bool :=
  match a, b with
  | NegInf, _ => true
  | _, PosInf => true
  | Fin p, Fin q => Qle_bool p q
  | _, _ => false
  end.

Definition num_eqb (a b : number) : bool :=
  match a, b with
  | NegInf, NegInf => true
  | PosInf, PosInf => true
  | Fin p, Fin q => Qeq_bool p q
  | _, _ => false
  end.

Definition num_of_Z (z : Z) : number := Fin (inject_Z z).

(** A pandas [Timestamp] without time zone: nanoseconds since the epoch. *)
Definition timestamp : Type := Z.

Definition ns_per_day : Z := 86400000000000.

(** [Timestamp.normalize]: midnight of the same day. *)
Definition normalize (t : timestamp) : timestamp := (t - t mod ns_per_day)%Z.

Inductive cell : Type :=
| CNull
| CStr (s : string)
| CNum (x : number)
| CTime (t : timestamp).

Definition isna (c : cell) : bool :=
  match c with CNull => true | _ => false end.

Definition notna (c : cell) : bool := negb (isna c).

(** Equality of cells as [drop_duplicates] sees it (missing equals missing). *)
Definition cell_eqb (a b : cell) : bool :=
  match a, b with
  | CNull, CNull => true
  | CStr s, CStr t => String.eqb s t
  | CNum x, CNum y => num_eqb x y
  | CTime t, CTime u => Z.eqb t u
  | _, _ => false
  end.

(** [Series.fillna v] on one cell *)
Definition fillna (v c : cell) : cell :=
  match c with CNull => v | _ => c end.

(** [series >= x] and [series <= x] on one cell; a missing value compares
    false. *)
Definition cell_ge (c : cell) (x : number) : bool :=
  match c with CNum v => num_leb x v | _ => false end.

Definition cell_le (c : cell) (x : number) : bool :=
  match c with CNum v => num_leb v x | _ => false end.

Definition is_str (c : cell) : bool :=
  match c with CStr _ => true | _ => false end.

Definition is_num (c : cell) : bool :=
  match c with CNum _ => true | _ => false end.

Definition is_time (c : cell) : bool :=
  match c with CTime _ => true | _ => false end.

(** A method of the [.str] accessor on an object column: it applies to the
    strings and gives a missing value elsewhere. *)
Definition str_method (f : string -> string) (c : cell) : cell :=
  match c with CStr s => CStr (f s) | _ => CNull end.

Record Frame : Type := mkFrame {
  columns : list string;
  rows : list (list cell)
}.

(** ** Exceptions *)

Inductive exn : Type :=
| KeyError (labels : list string)
| NameError (name : string)
| AttributeError
| FileNotFoundError
| ReError
| OtherError (msg : string).

Inductive result (A : Type) : Type :=
| Return (a : A)
| Raise (e : exn).

Arguments Return {A} a.
Arguments Raise {A} e.

Definition bind {A B : Type} (m : result A) (k : A -> result B) : result B :=
  match m with
  | Return a => k a
  | Raise e => Raise e
  end.

Notation "x <- m ;; k" := (bind m (fun x => k))
  (at level 61, m at next level, right associativity).

Notation "x |> f" := (f x) (at level 50, left associativity, only parsing).

(** The library functions the program calls and this development does not
    define: the parsers of pandas and [str] of Python on non-strings.
    [pd.to_datetime] is given a column and reads it as a whole (it settles
    on one format, from the first value, and parses every cell with it), so
    the parsers of timestamps take the column beside the cell.
    [repeated_label] is the exception pandas raises at the line that reads
    the column of a label the frame has more than once.  [mixed_offsets]
    tells of a column whether [to_datetime] fails to give it one datetime
    dtype, as when its strings carry UTC offsets that differ, and which
    exception lines 24 and 25 then end in (the [.dt] accessor of line 25
    refuses a column of objects). *)
Record Lib : Type := mkLib {
  parse_datetime : list cell -> string -> option timestamp;
  parse_number : string -> option number;
  datetime_of_number : list cell -> number -> option timestamp;
  number_of_datetime : timestamp -> option number;
  str_of_number : number -> string;
  str_of_datetime : timestamp -> string;
  repeated_label : string -> exn;
  mixed_offsets : list cell -> option exn
}.

Definition is_nil {A : Type} (l : list A) : bool :=
  match l with [] => true | _ :: _ => false end.

(** Whether a column is an object column, going by its values as pandas
    does when it builds a frame or reads a file: a column without rows is,
    and so is one that holds a string or both numbers and timestamps;
    numbers alone, timestamps alone or missing values alone make a float or
    a datetime column. *)
Definition object_dtype (column : list cell) : bool :=
  is_nil column || existsb is_str column
  || (existsb is_num column && existsb is_time column).

(** [series.str]: pandas infers what the values are, the missing ones
    aside, and raises [AttributeError] (Can only use .str accessor with
    string values) when it infers numbers only or timestamps only.  Where
    nothing is left to go by (no rows, or missing values only) an object
    column passes and a float or datetime column does not. *)
Definition str_accessor (object : bool) (series : list cell) : result unit :=
  if existsb is_str series || (existsb is_num series && existsb is_time series)
     || (object && forallb isna series)
  then Return tt
  else Raise AttributeError.

(** ** data_processor.py: clean_data *)

(** Line 19: [.str.strip().str.lower().str.replace(' ', '_')
    .str.replace('(', '').str.replace(')', '')] on one label. *)
Definition canon_label (s : string) : string :=
  Py.replace ")" "" (Py.replace "(" "" (Py.replace " " "_" (Py.lower (Py.strip s)))).

(** Line 20: the [rename] mapping. *)
Definition rename_label (s : string) : string :=
  if String.eqb s "duration_seconds" then "duration_s"
  else if String.eqb s "duration_hours/min" then "duration_h_m"
  else if String.eqb s "comments" then "description"
  else if String.eqb s "date_posted" then "date_posted_str"
  else s.

Definition clean_labels (labels : list string) : list string :=
  map rename_label (map canon_label labels).

Fixpoint position (label : string) (labels : list string) : option nat :=
  match labels with
  | [] => None
  | l :: ls =>
      if String.eqb l label then Some O
      else option_map S (position label ls)
  end.

Definition has_column (labels : list string) (label : string) : bool :=
  match position label labels with Some _ => true | None => false end.

(** The frame has the label more than once. *)
Definition repeated (labels : list string) (label : string) : bool :=
  (1 <? List.length (filter (String.eqb label) labels))%nat.

(** [df[label]] where the line goes on with a column: the position of the
    column, or [KeyError] when the frame has no such label.  When it has
    the label twice, [df[label]] is a frame, not a column, and the line that
    reads it raises. *)
Definition column (lib : Lib) (labels : list string) (label : string)
  : result nat :=
  match position label labels with
  | None => Raise (KeyError [label])
  | Some i =>
      if repeated labels label then Raise (repeated_label lib label)
      else Return i
  end.

Definition cell_at (i : nat) (r : list cell) : cell := nth i r CNull.

(** The columns [clean_data] works on, for one row. *)
Record Row : Type := mkRow {
  datetime : cell;
  date : cell;
  city : cell;
  state : cell;
  country : cell;
  shape : cell;
  duration_s : cell;
  description : cell;
  latitude : cell;
  longitude : cell;
  date_posted_str : cell;
  date_posted : cell
}.

Definition set_datetime (v : cell) (r : Row) : Row :=
  mkRow v (date r) (city r) (state r) (country r) (shape r) (duration_s r)
    (description r) (latitude r) (longitude r) (date_posted_str r) (date_posted r).

Definition set_date (v : cell) (r : Row) : Row :=
  mkRow (datetime r) v (city r) (state r) (country r) (shape r) (duration_s r)
    (description r) (latitude r) (longitude r) (date_posted_str r) (date_posted r).

Definition set_shape (v : cell) (r : Row) : Row :=
  mkRow (datetime r) (date r) (city r) (state r) (country r) v (duration_s r)
    (description r) (latitude r) (longitude r) (date_posted_str r) (date_posted r).

Definition set_duration_s (v : cell) (r : Row) : Row :=
  mkRow (datetime r) (date r) (city r) (state r) (country r) (shape r) v
    (description r) (latitude r) (longitude r) (date_posted_str r) (date_posted r).

Definition set_description (v : cell) (r : Row) : Row :=
  mkRow (datetime r) (date r) (city r) (state r) (country r) (shape r)
    (duration_s r) v (latitude r) (longitude r) (date_posted_str r) (date_posted r).

Definition set_latitude (v : cell) (r : Row) : Row :=
  mkRow (datetime r) (date r) (city r) (state r) (country r) (shape r)
    (duration_s r) (description r) v (longitude r) (date_posted_str r) (date_posted r).

Definition set_longitude (v : cell) (r : Row) : Row :=
  mkRow (datetime r) (date r) (city r) (state r) (country r) (shape r)
    (duration_s r) (description r) (latitude r) v (date_posted_str r) (date_posted r).

Definition set_date_posted (v : cell) (r : Row) : Row :=
  mkRow (datetime r) (date r) (city r) (state r) (country r) (shape r)
    (duration_s r) (description r) (latitude r) (longitude r) (date_posted_str r) v.

Definition of_time (o : option timestamp) : cell :=
  match o with Some t => CTime t | None => CNull end.

Definition of_number (o : option number) : cell :=
  match o with Some x => CNum x | None => CNull end.

Section Normalizer.

Variable lib : Lib.

(** [pd.to_datetime(column, errors='coerce')] at one cell of the column;
    [None] is NaT. *)
Definition to_datetime (column : list cell) (c : cell) : option timestamp :=
  match c with
  | CNull => None
  | CStr s => parse_datetime lib column s
  | CNum x => datetime_of_number lib column x
  | CTime t => Some t
  end.

(** Lines 24 and 25 on the column as a whole: [.dt] needs the datetime
    column that [to_datetime] makes of timestamps and missing values, and of
    anything else unless the library says otherwise. *)
Definition dt_accessor (column : list cell) : result unit :=
  if forallb (fun c => is_time c || isna c) column then Return tt
  else match mixed_offsets lib column with
       | Some e => Raise e
       | None => Return tt
       end.

(** [pd.to_numeric(..., errors='coerce')] on one cell; [None] is NaN. *)
Definition to_numeric (c : cell) : option number :=
  match c with
  | CNull => None
  | CStr s => parse_number lib s
  | CNum x => Some x
  | CTime t => number_of_datetime lib t
  end.

(** [str(x)] *)
Definition py_str (c : cell) : string :=
  match c with
  | CNull => "nan"
  | CStr s => s
  | CNum x => str_of_number lib x
  | CTime t => str_of_datetime lib t
  end.

(** [.dt.normalize()] on one cell *)
Definition dt_normalize (c : cell) : cell :=
  match c with CTime t => CTime (normalize t) | _ => CNull end.

(** The characters [re.sub(r'[^\w\s.,!?]', '', ...)] keeps. *)
Definition kept_char (c : ascii) : bool :=
  Py.is_word c || Py.is_space c
  || Ascii.eqb c "." || Ascii.eqb c "," || Ascii.eqb c "!" || Ascii.eqb c "?".

(** Line 41, the lambda: [re.sub(r'[^\w\s.,!?]', '', str(x).strip())]. *)
Definition scrub (x : cell) : cell :=
  CStr (Py.filter_chars kept_char (Py.strip (py_str x))).

(** Line 42: the three [.str.replace] calls. *)
Definition decode_entities (c : cell) : cell :=
  str_method (Py.replace "&#33;" "!")
    (str_method (Py.replace "&quot;" Py.quote)
       (str_method (Py.replace "&#44" ",") c)).

(** Lines 24 to 51, one statement each, on the rows of the frame. *)
Definition line24 (df : list Row) : list Row :=
  map (fun r =>
         set_datetime (of_time (to_datetime (map datetime df) (datetime r))) r)
      df.

Definition line25 (df : list Row) : list Row :=
  map (fun r => set_date (dt_normalize (datetime r)) r) df.

Definition line26 (df : list Row) : list Row :=
  filter (fun r => notna (datetime r)) df.

Definition line29 (df : list Row) : list Row :=
  map (fun r => set_latitude (of_number (to_numeric (latitude r))) r) df.

Definition line30 (df : list Row) : list Row :=
  map (fun r => set_longitude (of_number (to_numeric (longitude r))) r) df.

Definition line31 (df : list Row) : list Row :=
  filter (fun r => notna (latitude r) && notna (longitude r)) df.

Definition line34 (df : list Row) : list Row :=
  filter (fun r => cell_ge (latitude r) (num_of_Z (-90))
                   && cell_le (latitude r) (num_of_Z 90)) df.

Definition line35 (df : list Row) : list Row :=
  filter (fun r => cell_ge (longitude r) (num_of_Z (-180))
                   && cell_le (longitude r) (num_of_Z 180)) df.

Definition line38 (object : bool) (df : list Row) : result (list Row) :=
  let filled := map (fun r => fillna (CStr "unknown") (shape r)) df in
  a1 <- str_accessor object filled ;;
  let lowered := map (str_method Py.lower) filled in
  a2 <- str_accessor true lowered ;;
  Return
    (map (fun r =>
            set_shape (str_method Py.strip
                         (str_method Py.lower
                            (fillna (CStr "unknown") (shape r)))) r)
       df).

Definition line41 (df : list Row) : list Row :=
  map (fun r => set_description (scrub (fillna (CStr "") (description r))) r) df.

Definition line42 (df : list Row) : list Row :=
  map (fun r => set_description (decode_entities (description r)) r) df.

Definition line45 (df : list Row) : list Row :=
  map (fun r =>
         set_duration_s
           (fillna (CNum (num_of_Z 0)) (of_number (to_numeric (duration_s r)))) r)
      df.

Definition line48 (has_date_posted_str : bool) (df : list Row) : list Row :=
  if has_date_posted_str
  then map (fun r =>
              set_date_posted
                (of_time (to_datetime (map date_posted_str df) (date_posted_str r)))
                r)
         df
  else map (set_date_posted CNull) df.

(** Line 54: [drop_duplicates(subset=[...])], which keeps the first row of
    each key. *)
Definition dedup_key (r : Row) : list cell :=
  [datetime r; latitude r; longitude r; description r].

Fixpoint key_eqb (k1 k2 : list cell) : bool :=
  match k1, k2 with
  | [], [] => true
  | a :: k1', b :: k2' => cell_eqb a b && key_eqb k1' k2'
  | _, _ => false
  end.

Fixpoint drop_duplicates_from (seen : list (list cell)) (df : list Row) : list Row :=
  match df with
  | [] => []
  | r :: rest =>
      if existsb (key_eqb (dedup_key r)) seen
      then drop_duplicates_from seen rest
      else r :: drop_duplicates_from (dedup_key r :: seen) rest
  end.

Definition drop_duplicates (df : list Row) : list Row :=
  drop_duplicates_from [] df.

(** Lines 24 to 38; only the accessors of line 38 can raise.  [object]
    tells whether the shape column of the frame is an object column. *)
Definition lines_24_38 (object : bool) (df : list Row) : result (list Row) :=
  df |> line24 |> line25 |> line26
     |> line29 |> line30 |> line31
     |> line34 |> line35
     |> line38 object.

(** Lines 41 to 54, the accessors of line 42 aside. *)
Definition lines_41_54 (has_date_posted_str : bool) (df : list Row) : list Row :=
  df |> line41 |> line42
     |> line45
     |> line48 has_date_posted_str
     |> drop_duplicates.

End Normalizer.

(** The row [r] has the key of a row of [l]. *)
Definition key_among (r : Row) (l : list Row) : bool :=
  existsb (fun e => key_eqb (dedup_key r) (dedup_key e)) l.

Definition key_seen (r : Row) (seen : list (list cell)) : bool :=
  existsb (key_eqb (dedup_key r)) seen.

(** Lines 57 and 58: the columns of the result, in this order. *)
Definition cleaned_columns : list string :=
  ["datetime"; "date"; "city"; "state"; "country"; "shape";
   "duration_s"; "description"; "latitude"; "longitude"; "date_posted"].

Definition cleaned_cells (r : Row) : list cell :=
  [datetime r; date r; city r; state r; country r; shape r;
   duration_s r; description r; latitude r; longitude r; date_posted r].

Definition to_frame (df : list Row) : Frame :=
  mkFrame cleaned_columns (map cleaned_cells df).

(** Line 57 raises [KeyError] with the labels that are not columns. *)
Definition require (labels wanted : list string) : result unit :=
  match filter (fun l => negb (has_column labels l)) wanted with
  | [] => Return tt
  | missing => Raise (KeyError missing)
  end.

(** The cell of a row under a label; rows are as long as the labels. *)
Definition at_label (labels : list string) (label : string) (cells : list cell)
  : cell :=
  match position label labels with
  | Some i => cell_at i cells
  | None => CNull
  end.

(** One row of the frame as [clean_data] reads it.  The columns [date] and
    [date_posted] are assigned (lines 25 and 49 or 51) before anything reads
    them. *)
Definition row_of (labels : list string) (cells : list cell) : Row :=
  mkRow (at_label labels "datetime" cells) CNull
    (at_label labels "city" cells) (at_label labels "state" cells)
    (at_label labels "country" cells) (at_label labels "shape" cells)
    (at_label labels "duration_s" cells) (at_label labels "description" cells)
    (at_label labels "latitude" cells) (at_label labels "longitude" cells)
    (at_label labels "date_posted_str" cells) CNull.

(** The rows of [df] after lines 19 and 20. *)
Definition input_rows (df : Frame) : list Row :=
  map (row_of (clean_labels (columns df))) (rows df).

(** Line 49 reads the column [date_posted_str] when line 48 finds the
    label. *)
Definition column_if_present (lib : Lib) (labels : list string) (label : string)
  : result unit :=
  if has_column labels label
  then c <- column lib labels label ;; Return tt
  else Return tt.

(** [clean_data(df)] run where the global name [raw_df] is bound to
    [raw_df] ([None]: the name is not defined).  Each [df['label']] that the
    body reads raises at its line when the label is not a column of the
    frame, or is the label of two; line 25 and lines 38 and 42 use
    accessors, which go by the dtype of the column; the report of line 60
    reads [raw_df]. *)
Definition clean_data (lib : Lib) (raw_df : option Frame) (df : Frame)
  : result Frame :=
  let labels := clean_labels (columns df) in
  c24 <- column lib labels "datetime" ;;
  d25 <- dt_accessor lib (map datetime (input_rows df)) ;;
  c29 <- column lib labels "latitude" ;;
  c30 <- column lib labels "longitude" ;;
  c38 <- column lib labels "shape" ;;
  shaped <- lines_24_38 lib (object_dtype (map shape (input_rows df)))
              (input_rows df) ;;
  c41 <- column lib labels "description" ;;
  a42 <- str_accessor (object_dtype (map description (input_rows df)))
           (map description (line41 lib shaped)) ;;
  c45 <- column lib labels "duration_s" ;;
  c49 <- column_if_present lib labels "date_posted_str" ;;
  let cleaned_df :=
    lines_41_54 lib (has_column labels "date_posted_str") shaped in
  c57 <- require labels ["city"; "state"; "country"] ;;
  match raw_df with
  | Some _ => Return (to_frame cleaned_df)
  | None => Raise (NameError "raw_df")
  end.

(** The labels [clean_data] cannot do without. *)
Definition required_columns : list string :=
  ["datetime"; "latitude"; "longitude"; "shape"; "description"; "duration_s";
   "city"; "state"; "country"].

(** The labels whose columns [clean_data] reads and converts;
    [date_posted_str] is what line 20 makes of the posted date. *)
Definition read_columns : list string :=
  ["datetime"; "latitude"; "longitude"; "shape"; "description"; "duration_s";
   "date_posted_str"].

(** The labels whose columns it copies to the result, or assigns. *)
Definition copied_columns : list string := ["city"; "state"; "country"; "date"].

(** The frame has each label [clean_data] cannot do without, and none of
    the labels it reads twice. *)
Definition schema_ok (df : Frame) : bool :=
  forallb (has_column (clean_labels (columns df))) required_columns
  && forallb (fun l => negb (repeated (clean_labels (columns df)) l)) read_columns.

(** *** The normalizer row by row

    What lines 24 to 51 amount to on a single row; [clean_data_accepted]
    below shows that the frame [clean_data] returns is made of these rows,
    less the duplicates. *)

Definition in_range (bound : Z) (x : number) : bool :=
  num_leb (num_of_Z (- bound)) x && num_leb x (num_of_Z bound).

Definition clean_shape (c : cell) : cell :=
  str_method Py.strip (str_method Py.lower (fillna (CStr "unknown") c)).

Definition clean_description (lib : Lib) (c : cell) : cell :=
  decode_entities (scrub lib (fillna (CStr "") c)).

Definition clean_duration (lib : Lib) (c : cell) : cell :=
  fillna (CNum (num_of_Z 0)) (of_number (to_numeric lib c)).

Definition clean_date_posted (lib : Lib) (posted : list cell)
    (has_date_posted_str : bool) (c : cell) : cell :=
  if has_date_posted_str then of_time (to_datetime lib posted c) else CNull.

(** A row gets through lines 26, 31, 34 and 35; [datetimes] is the column
    line 24 converts. *)
Definition row_valid (lib : Lib) (datetimes : list cell) (r : Row) : bool :=
  match to_datetime lib datetimes (datetime r),
        to_numeric lib (latitude r), to_numeric lib (longitude r) with
  | Some _, Some la, Some lo => in_range 90 la && in_range 180 lo
  | _, _, _ => false
  end.

(** Lines 24 to 51 on a single row; [posted] is the column line 49
    converts. *)
Definition normalize_row (lib : Lib) (datetimes posted : list cell)
    (has_date_posted_str : bool) (r : Row) : option Row :=
  match to_datetime lib datetimes (datetime r),
        to_numeric lib (latitude r), to_numeric lib (longitude r) with
  | Some t, Some la, Some lo =>
      if in_range 90 la && in_range 180 lo
      then Some (mkRow (CTime t) (CTime (normalize t))
                   (city r) (state r) (country r)
                   (clean_shape (shape r))
                   (clean_duration lib (duration_s r))
                   (clean_description lib (description r))
                   (CNum la) (CNum lo)
                   (date_posted_str r)
                   (clean_date_posted lib posted has_date_posted_str
                      (date_posted_str r)))
      else None
  | _, _, _ => None
  end.

Fixpoint keep_some {A : Type} (l : list (option A)) : list A :=
  match l with
  | [] => []
  | Some a :: l' => a :: keep_some l'
  | None :: l' => keep_some l'
  end.

(** Lines 24 to 35 on a single row: the row with its timestamp and
    coordinates parsed, when it is valid. *)
Definition parse_row (lib : Lib) (datetimes : list cell) (r : Row) : option Row :=
  match to_datetime lib datetimes (datetime r),
        to_numeric lib (latitude r), to_numeric lib (longitude r) with
  | Some t, Some la, Some lo =>
      if in_range 90 la && in_range 180 lo
      then Some (mkRow (CTime t) (CTime (normalize t))
                   (city r) (state r) (country r) (shape r) (duration_s r)
                   (description r) (CNum la) (CNum lo)
                   (date_posted_str r) (date_posted r))
      else None
  | _, _, _ => None
  end.

(** The valid rows of a frame, after lines 24 to 35. *)
Definition parsed_rows (lib : Lib) (df : list Row) : list Row :=
  keep_some (map (parse_row lib (map datetime df)) df).

(** Lines 38 to 51 on a single row. *)
Definition finish_row (lib : Lib) (posted : list cell)
    (has_date_posted_str : bool) (r : Row) : Row :=
  mkRow (datetime r) (date r) (city r) (state r) (country r)
    (clean_shape (shape r))
    (clean_duration lib (duration_s r))
    (clean_description lib (description r))
    (latitude r) (longitude r) (date_posted_str r)
    (clean_date_posted lib posted has_date_posted_str (date_posted_str r)).

(** The posted dates of the valid rows: the column line 49 converts. *)
Definition posted_column (lib : Lib) (df : list Row) : list cell :=
  map date_posted_str (parsed_rows lib df).

(** The rows of a frame before line 54. *)
Definition normalize_rows (lib : Lib) (has_date_posted_str : bool)
    (df : list Row) : list Row :=
  keep_some
    (map (normalize_row lib (map datetime df) (posted_column lib df)
            has_date_posted_str) df).

(** The accessors of line 38 take the shape column: one of the valid rows
    has a string as its shape or none at all, or the valid rows have numbers
    as well as timestamps; or no row is valid and the column of the frame
    is an object column. *)
Definition shapes_usable (lib : Lib) (df : list Row) : bool :=
  match
    str_accessor (object_dtype (map shape df))
      (map (fun r => fillna (CStr "unknown") (shape r)) (parsed_rows lib df))
  with
  | Return _ => true
  | Raise _ => false
  end.

(** The accessor of line 42 takes the description column.  [apply] at line
    41 makes strings of the descriptions of the valid rows; when no row is
    valid it leaves the column its dtype, and the accessor takes it when it
    is an object column. *)
Definition descriptions_usable (lib : Lib) (df : list Row) : bool :=
  match
    str_accessor (object_dtype (map description df))
      (map (fun r => scrub lib (fillna (CStr "") (description r)))
         (parsed_rows lib df))
  with
  | Return _ => true
  | Raise _ => false
  end.

(** Line 24 gives the timestamps one datetime dtype, which line 25 needs. *)
Definition datetimes_usable (lib : Lib) (df : list Row) : bool :=
  match dt_accessor lib (map datetime df) with
  | Return _ => true
  | Raise _ => false
  end.

(** The rows of the frame [clean_data] returns when nothing is raised. *)
Definition cleaned (lib : Lib) (df : Frame) : list Row :=
  drop_duplicates
    (normalize_rows lib (has_column (clean_labels (columns df)) "date_posted_str")
       (input_rows df)).

(** [clean_data] gets as far as its report on [df]: the columns it reads
    are there, once each, and the accessors of lines 25, 38 and 42 take
    their columns. *)
Definition passes (lib : Lib) (df : Frame) : bool :=
  schema_ok df
  && datetimes_usable lib (input_rows df)
  && shapes_usable lib (input_rows df)
  && descriptions_usable lib (input_rows df).

(** The frames on which the result is stated: those that pass and have
    none of the labels that are copied to the result twice (pandas copies
    both columns of such a label, the embedding the first). *)
Definition accepted (lib : Lib) (df : Frame) : bool :=
  passes lib df
  && forallb (fun l => negb (repeated (clean_labels (columns df)) l))
       copied_columns.

(** One row in the frame it belongs to. *)
Definition valid_in (lib : Lib) (df : Frame) (src : Row) : bool :=
  row_valid lib (map datetime (input_rows df)) src.

Definition normalize_in (lib : Lib) (df : Frame) (src : Row) : option Row :=
  normalize_row lib (map datetime (input_rows df))
    (posted_column lib (input_rows df))
    (has_column (clean_labels (columns df)) "date_posted_str") src.

(** ** data_processor.py: create_sqlite_db and the batch run *)

(** What the run can leave on disk: the cleaned export file and the table
    [sightings] of the database. *)
Record Disk : Type := mkDisk {
  cleaned_csv : option Frame;
  sightings : option Frame
}.

(** How a write ends: it succeeds, or it raises and leaves [residue] at its
    target (what a failed write leaves behind is up to the system). *)
Inductive write_outcome : Type :=
| Written
| WriteFailed (e : exn) (residue : option Frame).

(** The surroundings of one run: what [pd.read_csv] gives and how the two
    writes end. *)
Record Env : Type := mkEnv {
  read_csv : result Frame;
  to_csv_outcome : write_outcome;
  to_sql_outcome : write_outcome
}.

(** Statements that read and write the disk and may raise. *)
Definition io (A : Type) : Type := Disk -> result A * Disk.

Definition io_bind {A B : Type} (m : io A) (k : A -> io B) : io B :=
  fun d =>
    match m d with
    | (Return a, d') => k a d'
    | (Raise e, d') => (Raise e, d')
    end.

Definition io_lift {A : Type} (r : result A) : io A := fun d => (r, d).

Notation "x <~ m ;; k" := (io_bind m (fun x => k))
  (at level 61, m at next level, right associativity).

(** Line 87: [cleaned_df.to_csv(cleaned_csv_path, index=False)]. *)
Definition to_csv (env : Env) (df : Frame) : io unit :=
  fun d =>
    match to_csv_outcome env with
    | Written => (Return tt, mkDisk (Some df) (sightings d))
    | WriteFailed e residue => (Raise e, mkDisk residue (sightings d))
    end.

(** Lines 63 to 71: [df.to_sql('sightings', conn, if_exists='replace',
    index=False)] between [connect] and [close]. *)
Definition create_sqlite_db (env : Env) (df : Frame) : io unit :=
  fun d =>
    match to_sql_outcome env with
    | Written => (Return tt, mkDisk (cleaned_csv d) (Some df))
    | WriteFailed e residue => (Raise e, mkDisk (cleaned_csv d) residue)
    end.

(** Lines 80 to 92: the body of the [try]. *)
Definition preprocess (lib : Lib) (env : Env) : io unit :=
  raw_df <~ io_lift (read_csv env) ;;
  cleaned_df <~ io_lift (clean_data lib (Some raw_df) raw_df) ;;
  u <~ to_csv env cleaned_df ;;
  create_sqlite_db env cleaned_df.

(** How the run ends: the last line of the [try], or one of the two
    [except] clauses, each of which prints and falls through. *)
Inductive ending : Type :=
| Completed
| ReportedNotFound
| ReportedError (e : exn).

(** The two [except] clauses: which one reports the exception. *)
Definition report (e : exn) : ending :=
  match e with
  | FileNotFoundError => ReportedNotFound
  | _ => ReportedError e
  end.

(** Lines 78 to 97. *)
Definition main (lib : Lib) (env : Env) (d : Disk) : ending * Disk :=
  match preprocess lib env d with
  | (Return _, d') => (Completed, d')
  | (Raise e, d') => (report e, d')
  end.

(** ** app.py: the keyword criterion *)

(** The patterns of [re] covered here: literals, [.], the repeats [*], [+]
    and [?] (also in their lazy form), groups, alternation and escaped
    punctuation.  [Never] only arises in derivatives. *)
Inductive regex : Type :=
| Never
| Empty
| Lit (c : ascii)
| Dot
| Cat (r1 r2 : regex)
| Alt (r1 r2 : regex)
| Star (r : regex)
| Plus (r : regex)
| Opt (r : regex)
| Group (r : regex).

Module Re.

Inductive parsed : Type :=
| Pattern (r : regex)
| Error
| Beyond.

(** One nesting level of the parser: the branches closed by [|], last
    first, and the items of the open branch, last first. *)
Record level : Type := mkLevel {
  branches : list regex;
  items : list regex
}.

Definition top : level := mkLevel [] [].

Definition cat_list (rs : list regex) : regex := fold_right Cat Empty rs.

Definition alt_list (rs : list regex) : regex := fold_right Alt Never rs.

Definition close (l : level) : regex :=
  alt_list (rev (cat_list (rev (items l)) :: branches l)).

Definition push (r : regex) (l : level) : level :=
  mkLevel (branches l) (r :: items l).

Definition is_repeat (r : regex) : bool :=
  match r with
  | Star _ | Plus _ | Opt _ => true
  | _ => false
  end.

Definition repeat_of (c : ascii) (r : regex) : regex :=
  if Ascii.eqb c "*" then Star r
  else if Ascii.eqb c "+" then Plus r
  else Opt r.

Definition is_repeat_char (c : ascii) : bool :=
  Ascii.eqb c "*" || Ascii.eqb c "+" || Ascii.eqb c "?".

Definition ascii_alnum (c : ascii) : bool :=
  Py.between 48 57 c || Py.between 65 90 c || Py.between 97 122 c.


(** The parser of [re.compile], one character (or one escape, or one repeat
    with its lazy mark) at a time.  [Error] is [re.error]: a repeat with
    nothing before it or after another repeat, an unbalanced parenthesis,
    a pattern ending in a backslash.  [Beyond] marks syntax this
    development does not cover. *)
Fixpoint parse_from (stack : list level) (cur : level) (s : string) : parsed :=
  match s with
  | EmptyString =>
      match stack with
      | [] => Pattern (close cur)
      | _ :: _ => Error
      end
  | String c s' =>
      if Ascii.eqb c "(" then
        match s' with
        | String "?" _ => Beyond
        | _ => parse_from (cur :: stack) top s'
        end
      else if Ascii.eqb c ")" then
        match stack with
        | [] => Error
        | outer :: stack' => parse_from stack' (push (Group (close cur)) outer) s'
        end
      else if Ascii.eqb c "|" then
        parse_from stack (mkLevel (cat_list (rev (items cur)) :: branches cur) []) s'
      else if is_repeat_char c then
        match items cur with
        | [] => Error
        | r :: before =>
            if is_repeat r then Error
            else
              let cur' := mkLevel (branches cur) (repeat_of c r :: before) in
              match s' with
              | String "?" s'' => parse_from stack cur' s''
              | String "+" _ => Beyond
              | _ => parse_from stack cur' s'
              end
        end
      else if Ascii.eqb c "\" then
        match s' with
        | EmptyString => Error
        | String e s'' =>
            if ascii_alnum e then Beyond
            else parse_from stack (push (Lit e) cur) s''
        end
      else if Ascii.eqb c "." then parse_from stack (push Dot cur) s'
      else if Ascii.eqb c "^" || Ascii.eqb c "$" || Ascii.eqb c "{" || Ascii.eqb c "["
      then Beyond
      else parse_from stack (push (Lit c) cur) s'
  end.

Definition parse (pattern : string) : parsed := parse_from [] top pattern.

(** A literal under [re.IGNORECASE]. *)
Definition same_letter (a b : ascii) : bool :=
  Ascii.eqb (Py.lower_char a) (Py.lower_char b).

Definition is_newline (c : ascii) : bool := (Py.code c =? 10)%N.

Fixpoint nullable (r : regex) : bool :=
  match r with
  | Never => false
  | Empty => true
  | Lit _ => false
  | Dot => false
  | Cat r1 r2 => nullable r1 && nullable r2
  | Alt r1 r2 => nullable r1 || nullable r2
  | Star _ => true
  | Plus r1 => nullable r1
  | Opt _ => true
  | Group r1 => nullable r1
  end.

(** What is left of [r] after the character [c]. *)
Fixpoint deriv (c : ascii) (r : regex) : regex :=
  match r with
  | Never => Never
  | Empty => Never
  | Lit a => if same_letter a c then Empty else Never
  | Dot => if is_newline c then Never else Empty
  | Cat r1 r2 =>
      if nullable r1
      then Alt (Cat (deriv c r1) r2) (deriv c r2)
      else Cat (deriv c r1) r2
  | Alt r1 r2 => Alt (deriv c r1) (deriv c r2)
  | Star r1 => Cat (deriv c r1) (Star r1)
  | Plus r1 => Cat (deriv c r1) (Star r1)
  | Opt r1 => deriv c r1
  | Group r1 => deriv c r1
  end.

(** [pattern.match(s) is not None]: some prefix of [s] matches. *)
Fixpoint match_prefix (r : regex) (s : string) : bool :=
  nullable r ||
  match s with
  | EmptyString => false
  | String c s' => match_prefix (deriv c r) s'
  end.

(** [pattern.search(s) is not None]: a match starts somewhere in [s]. *)
Fixpoint search (r : regex) (s : string) : bool :=
  match_prefix r s ||
  match s with
  | EmptyString => false
  | String _ s' => search r s'
  end.

End Re.

(** [re.compile(pat, flags=re.IGNORECASE)] followed by [search]: the
    patterns outside the syntax above are left to [beyond]; [None] is
    [re.error]. *)
Definition re_compile (beyond : string -> option (string -> bool)) (pat : string)
  : option (string -> bool) :=
  match Re.parse pat with
  | Re.Pattern r => Some (Re.search r)
  | Re.Error => None
  | Re.Beyond => beyond pat
  end.

(** A row of the table [sightings] as [load_data] reads it: the text
    columns hold strings or NULL, which makes a column the [.str] accessor
    takes. *)
Record Sighting : Type := mkSighting {
  s_year : Z;
  s_city : option string;
  s_state : option string;
  s_country : option string;
  s_shape : option string;
  s_description : option string
}.

(** [series.str.contains(pat, case=False, na=False)]: the pattern is
    compiled first, as a regular expression ([regex=True] is the default);
    a missing value gives [na]. *)
Definition str_contains (beyond : string -> option (string -> bool))
    (pat : string) (series : list (option string)) : result (list bool) :=
  match re_compile beyond pat with
  | None => Raise ReError
  | Some found =>
      Return (map (fun c => match c with Some s => found s | None => false end)
                series)
  end.

(** [df[mask]] *)
Fixpoint select_mask {A : Type} (df : list A) (mask : list bool) : list A :=
  match df, mask with
  | r :: df', b :: mask' =>
      if b then r :: select_mask df' mask' else select_mask df' mask'
  | _, _ => []
  end.

(** app.py, lines 90 to 92; [keyword] is what the text input returns, the
    empty string when nothing was typed. *)
Definition keyword_filter (beyond : string -> option (string -> bool))
    (keyword : string) (filtered_df : list Sighting) : result (list Sighting) :=
  if Py.is_empty keyword then Return filtered_df
  else
    mask <- str_contains beyond keyword (map s_description filtered_df) ;;
    Return (select_mask filtered_df mask).

(** ** A reference instance of the library functions

    Parsers for the notations of the dataset: decimal numbers such as
    [-97.94] and times such as [10/10/1949 20:30] (month first), on which
    they give what pandas gives.  Other strings count as unparseable, which
    the examples below do not rely on. *)

Module Plain.

Definition digit (c : ascii) : option N :=
  if Py.between 48 57 c then Some (Py.code c - 48)%N else None.

Fixpoint digits_from (acc : N) (s : string) : option (N * nat) :=
  match s with
  | EmptyString => Some (acc, O)
  | String c s' =>
      match digit c with
      | Some d =>
          match digits_from (10 * acc + d)%N s' with
          | Some (n, k) => Some (n, S k)
          | None => None
          end
      | None => None
      end
  end.

(** The value of a non-empty run of digits. *)
Definition natural (s : string) : option N :=
  match s with
  | EmptyString => None
  | _ => option_map fst (digits_from 0 s)
  end.

(** [s] cut at the first [sep]. *)
Fixpoint cut (sep : ascii) (s : string) : string * option string :=
  match s with
  | EmptyString => (EmptyString, None)
  | String c s' =>
      if Ascii.eqb c sep then (EmptyString, Some s')
      else let (before, after) := cut sep s' in (String c before, after)
  end.

Definition unsigned (s : string) : option Q :=
  let (whole, frac) := cut "." s in
  match natural whole, frac with
  | Some w, None => Some (inject_Z (Z.of_N w))
  | Some w, Some f =>
      match digits_from w f with
      | Some (n, k) => Some (Qmake (Z.of_N n) (Z.to_pos (10 ^ Z.of_nat k)))
      | None => None
      end
  | None, _ => None
  end.

Definition number_of_string (s : string) : option number :=
  match s with
  | String "-" s' => option_map (fun q => Fin (Qopp q)) (unsigned s')
  | _ => option_map Fin (unsigned s)
  end.

Definition leap (y : Z) : bool :=
  ((y mod 4 =? 0) && (negb (y mod 100 =? 0) || (y mod 400 =? 0)))%Z.

Definition days_in_month (y m : Z) : Z :=
  if (m =? 2)%Z then (if leap y then 29 else 28)
  else if ((m =? 4) || (m =? 6) || (m =? 9) || (m =? 11))%Z then 30
  else 31.

(** Days from 1970-01-01 to the given day of the proleptic Gregorian
    calendar. *)
Definition days_from_civil (y m d : Z) : Z :=
  let y' := (if m <=? 2 then y - 1 else y)%Z in
  let era := (y' / 400)%Z in
  let yoe := (y' - era * 400)%Z in
  let mp := (if m <=? 2 then m + 9 else m - 3)%Z in
  let doy := ((153 * mp + 2) / 5 + d - 1)%Z in
  let doe := (yoe * 365 + yoe / 4 - yoe / 100 + doy)%Z in
  (era * 146097 + doe - 719468)%Z.

Definition field (s : string) : option Z := option_map Z.of_N (natural s).

Definition date_of_fields (month day year : string) : option Z :=
  match field month, field day, field year with
  | Some mo, Some d, Some y =>
      if ((1 <=? mo) && (mo <=? 12) && (1 <=? d) && (d <=? days_in_month y mo)
          && (1678 <=? y) && (y <=? 2261))%Z
      then Some (days_from_civil y mo d)
      else None
  | _, _, _ => None
  end.

Definition minutes_of_fields (hour minute : string) : option Z :=
  match field hour, field minute with
  | Some h, Some mi =>
      if ((h <? 24) && (mi <? 60))%Z then Some (h * 60 + mi)%Z else None
  | _, _ => None
  end.

(** [M/D/YYYY] or [M/D/YYYY HH:MM]: the time, and whether the string has
    the hour and the minute. *)
Definition read_datetime (s : string) : option (timestamp * bool) :=
  let (month, rest1) := cut "/" s in
  match rest1 with
  | None => None
  | Some rest1 =>
      let (day, rest2) := cut "/" rest1 in
      match rest2 with
      | None => None
      | Some rest2 =>
          let (year, time) := cut " " rest2 in
          match date_of_fields month day year, time with
          | Some days, None => Some ((days * ns_per_day)%Z, false)
          | Some days, Some time =>
              let (hour, rest3) := cut ":" time in
              match rest3 with
              | None => None
              | Some minute =>
                  match minutes_of_fields hour minute with
                  | Some m =>
                      Some ((days * ns_per_day + m * 60000000000)%Z, true)
                  | None => None
                  end
              end
          | None, _ => None
          end
      end
  end.

(** The first value of a column that is not missing. *)
Fixpoint first_value (column : list cell) : option cell :=
  match column with
  | [] => None
  | CNull :: rest => first_value rest
  | c :: _ => Some c
  end.

(** The format pandas settles on for a column: that of its first value,
    with or without the time of day; none when the first value is not a
    string it can read, and then each cell is read by itself. *)
Definition format_of (column : list cell) : option bool :=
  match first_value column with
  | Some (CStr s) => option_map snd (read_datetime s)
  | _ => None
  end.

Definition datetime_of_string (column : list cell) (s : string)
  : option timestamp :=
  match read_datetime s with
  | Some (t, with_time) =>
      match format_of column with
      | Some wanted => if Bool.eqb wanted with_time then Some t else None
      | None => Some t
      end
  | None => None
  end.

(** What pandas raises on a frame with a label twice, where [df[label]] is
    a frame: at lines 24 and 49 [to_datetime] does not assemble times from
    columns of one name (a [ValueError]); at line 38 a frame has no [.str];
    at line 41 what [apply] makes of a frame cannot be assigned to the
    column (a [ValueError]); and [to_numeric] refuses a frame (a
    [TypeError]). *)
Definition on_repeated (label : string) : exn :=
  if String.eqb label "datetime" || String.eqb label "date_posted_str"
  then OtherError "cannot assemble with duplicate keys"
  else if String.eqb label "shape" then AttributeError
  else if String.eqb label "description"
  then OtherError "cannot reindex on an axis with duplicate labels"
  else OtherError "arg must be a list, tuple, 1-d array, or Series".

(** The conversions between typed cells, which no example below reaches;
    the strings read above carry no offset. *)
Definition lib : Lib :=
  mkLib datetime_of_string number_of_string
    (fun _ _ => None) (fun _ => None) (fun _ => "") (fun _ => "") on_repeated
    (fun _ => None).

Definition beyond : string -> option (string -> bool) := fun _ => None.

End Plain.

(** ** Sample data

    The header of the dataset (the last label ends in a blank) and a few
    raw rows in its notation. *)

Definition header : list string :=
  ["datetime"; "city"; "state"; "country"; "shape"; "duration (seconds)";
   "duration (hours/min)"; "comments"; "date posted"; "latitude"; "longitude "].

(** A raw row of strings; an empty field of the file is read as missing. *)
Definition csv_field (s : string) : cell :=
  if Py.is_empty s then CNull else CStr s.

Definition raw (datetime city state country shape seconds hours_min comments
                posted latitude longitude : string) : list cell :=
  map csv_field [datetime; city; state; country; shape; seconds; hours_min;
             comments; posted; latitude; longitude].

(** One good row, one with a latitude out of range, one with a time that
    does not parse (hour 24), one with a malformed longitude. *)
Definition mixed_frame : Frame :=
  mkFrame header
    [raw "10/10/1949 20:30" "san marcos" "tx" "us" "cylinder" "2700"
         "45 minutes" "This event took place in early fall." "4/27/2004"
         "29.8830556" "-97.9411111";
     raw "1/1/2000 20:00" "nowhere" "" "" "light" "10" "10 seconds" "Bright"
         "1/2/2000" "91.0" "0";
     raw "10/11/2006 24:00" "rome" "ny" "us" "oval" "120" "2 min" "An oval"
         "2/1/2007" "43.2127778" "-75.4561111";
     raw "5/5/1995 21:00" "mesa" "az" "us" "disk" "60" "1 min" "A disk"
         "6/1/1995" "33.42" "33q.200088"].

Definition mixed_cleaned : Frame :=
  mkFrame cleaned_columns
    [[CTime (-638249400000000000)%Z; CTime (-638323200000000000)%Z;
      CStr "san marcos"; CStr "tx"; CStr "us"; CStr "cylinder";
      CNum (Fin 2700); CStr "This event took place in early fall.";
      CNum (Fin 29.8830556); CNum (Fin (-97.9411111));
      CTime 1083024000000000000%Z]].

(** A description with an HTML entity in it. *)
Definition entity_frame : Frame :=
  mkFrame header
    [raw "1/1/2000 20:00" "austin" "tx" "us" "light" "30" "30 sec"
         "Saw a light&#44; bright!" "1/2/2000" "30.25" "-97.75"].

Definition entity_cleaned : Frame :=
  mkFrame cleaned_columns
    [[CTime 946756800000000000%Z; CTime 946684800000000000%Z;
      CStr "austin"; CStr "tx"; CStr "us"; CStr "light";
      CNum (Fin 30); CStr "Saw a light44 bright!";
      CNum (Fin 30.25); CNum (Fin (-97.75)); CTime 946771200000000000%Z]].

(** A negative duration. *)
Definition negative_duration_frame : Frame :=
  mkFrame header
    [raw "1/1/2000 20:00" "austin" "tx" "us" "light" "-5" "?"
         "Brief" "1/2/2000" "30.25" "-97.75"].

Definition negative_duration_row : Row :=
  mkRow (CTime 946756800000000000%Z) (CTime 946684800000000000%Z)
    (CStr "austin") (CStr "tx") (CStr "us") (CStr "light")
    (CNum (Fin (-5))) (CStr "Brief") (CNum (Fin 30.25)) (CNum (Fin (-97.75)))
    (CStr "1/2/2000") (CTime 946771200000000000%Z).

(** A shape field of blanks, one that is empty in the file (and so read as
    missing), and an empty string put in a frame built in memory. *)
Definition blank_shape_frame : Frame :=
  mkFrame header
    [raw "1/1/2000 20:00" "austin" "tx" "us" "  " "30" "30 sec"
         "First" "1/2/2000" "30.25" "-97.75"].

Definition blank_shape_row : Row :=
  mkRow (CTime 946756800000000000%Z) (CTime 946684800000000000%Z)
    (CStr "austin") (CStr "tx") (CStr "us") (CStr EmptyString)
    (CNum (Fin 30)) (CStr "First") (CNum (Fin 30.25)) (CNum (Fin (-97.75)))
    (CStr "1/2/2000") (CTime 946771200000000000%Z).

Definition empty_field_frame : Frame :=
  mkFrame header
    [raw "1/1/2000 20:00" "austin" "tx" "us" "" "30" "30 sec"
         "First" "1/2/2000" "30.25" "-97.75"].

Definition empty_string_frame : Frame :=
  mkFrame header
    [[CStr "1/1/2000 20:00"; CStr "austin"; CStr "tx"; CStr "us";
      CStr EmptyString; CStr "30"; CStr "30 sec"; CStr "First";
      CStr "1/2/2000"; CStr "30.25"; CStr "-97.75"]].

(** Two reports of one sighting that differ in city, shape and duration. *)
Definition twice_frame : Frame :=
  mkFrame header
    [raw "1/1/2000 20:00" "austin" "tx" "us" "light" "30" "30 sec"
         "Bright light" "1/2/2000" "30.25" "-97.75";
     raw "1/1/2000 20:00" "round rock" "tx" "us" "circle" "45" "45 sec"
         "Bright light" "1/9/2000" "30.25" "-97.75"].

Definition twice_first : Row :=
  mkRow (CTime 946756800000000000%Z) (CTime 946684800000000000%Z)
    (CStr "austin") (CStr "tx") (CStr "us") (CStr "light")
    (CNum (Fin 30)) (CStr "Bright light") (CNum (Fin 30.25))
    (CNum (Fin (-97.75))) (CStr "1/2/2000") (CTime 946771200000000000%Z).

(** Two rows that differ only in a character of the description that line
    41 removes. *)
Definition hash_frame : Frame :=
  mkFrame header
    [raw "1/1/2000 20:00" "austin" "tx" "us" "light" "30" "30 sec"
         "# lights" "1/2/2000" "30.25" "-97.75";
     raw "1/1/2000 20:00" "austin" "tx" "us" "light" "30" "30 sec"
         "lights" "1/2/2000" "30.25" "-97.75"].

Definition hash_once : Frame :=
  mkFrame cleaned_columns
    [[CTime 946756800000000000%Z; CTime 946684800000000000%Z;
      CStr "austin"; CStr "tx"; CStr "us"; CStr "light";
      CNum (Fin 30); CStr " lights";
      CNum (Fin 30.25); CNum (Fin (-97.75)); CTime 946771200000000000%Z];
     [CTime 946756800000000000%Z; CTime 946684800000000000%Z;
      CStr "austin"; CStr "tx"; CStr "us"; CStr "light";
      CNum (Fin 30); CStr "lights";
      CNum (Fin 30.25); CNum (Fin (-97.75)); CTime 946771200000000000%Z]].

Definition hash_twice : Frame :=
  mkFrame cleaned_columns
    [[CTime 946756800000000000%Z; CTime 946684800000000000%Z;
      CStr "austin"; CStr "tx"; CStr "us"; CStr "light";
      CNum (Fin 30); CStr "lights";
      CNum (Fin 30.25); CNum (Fin (-97.75)); CTime 946771200000000000%Z]].

(** A frame built in memory whose shape column holds a number beside a
    string. *)
Definition numeric_shape_frame : Frame :=
  mkFrame header
    [[CStr "1/1/2000 20:00"; CStr "austin"; CStr "tx"; CStr "us";
      CNum (Fin 5); CStr "30"; CStr "30 sec"; CStr "Brief"; CStr "1/2/2000";
      CStr "30.25"; CStr "-97.75"];
     [CStr "1/1/2000 21:00"; CStr "austin"; CStr "tx"; CStr "us";
      CStr "Light"; CStr "30"; CStr "30 sec"; CStr "Short"; CStr "1/2/2000";
      CStr "30.25"; CStr "-97.75"]].

Definition numeric_shape_once : Frame :=
  mkFrame cleaned_columns
    [[CTime 946756800000000000%Z; CTime 946684800000000000%Z;
      CStr "austin"; CStr "tx"; CStr "us"; CNull;
      CNum (Fin 30); CStr "Brief";
      CNum (Fin 30.25); CNum (Fin (-97.75)); CTime 946771200000000000%Z];
     [CTime 946760400000000000%Z; CTime 946684800000000000%Z;
      CStr "austin"; CStr "tx"; CStr "us"; CStr "light";
      CNum (Fin 30); CStr "Short";
      CNum (Fin 30.25); CNum (Fin (-97.75)); CTime 946771200000000000%Z]].

Definition numeric_shape_twice : Frame :=
  mkFrame cleaned_columns
    [[CTime 946756800000000000%Z; CTime 946684800000000000%Z;
      CStr "austin"; CStr "tx"; CStr "us"; CStr "unknown";
      CNum (Fin 30); CStr "Brief";
      CNum (Fin 30.25); CNum (Fin (-97.75)); CTime 946771200000000000%Z];
     [CTime 946760400000000000%Z; CTime 946684800000000000%Z;
      CStr "austin"; CStr "tx"; CStr "us"; CStr "light";
      CNum (Fin 30); CStr "Short";
      CNum (Fin 30.25); CNum (Fin (-97.75)); CTime 946771200000000000%Z]].

(** A frame whose shape column holds numbers only. *)
Definition numbers_for_shapes : Frame :=
  mkFrame header
    [[CStr "1/1/2000 20:00"; CStr "austin"; CStr "tx"; CStr "us";
      CNum (Fin 5); CStr "30"; CStr "30 sec"; CStr "Brief"; CStr "1/2/2000";
      CStr "30.25"; CStr "-97.75"]].

(** A disk that holds the result of an earlier run. *)
Definition earlier_disk : Disk :=
  mkDisk (Some entity_cleaned) (Some entity_cleaned).

(** The input is read and cleaned and the export is written; then the write
    to the database fails and leaves the table as it was. *)
Definition locked_database : Env :=
  mkEnv (Return mixed_frame) Written
    (WriteFailed (OtherError "database is locked") (Some entity_cleaned)).

Definition missing_input : Env :=
  mkEnv (Raise FileNotFoundError) Written Written.

(** The input has no [datetime] column. *)
Definition wrong_input : Env :=
  mkEnv (Return (mkFrame ["when"; "where"] [])) Written Written.

(** The export cannot be written in full. *)
Definition full_disk : Env :=
  mkEnv (Return mixed_frame)
    (WriteFailed (OtherError "No space left on device")
       (Some (mkFrame cleaned_columns [])))
    Written.

(** A stored sighting with the given description. *)
Definition sighting (description : option string) : Sighting :=
  mkSighting 2000 (Some "austin") (Some "tx") (Some "us") (Some "light")
    description.

(** ** The claims that the program does not meet, as predicates *)

(** A second pass over the output of the first gives that output again. *)
Definition second_pass_same (lib : Lib) (df : Frame) : Prop :=
  forall raw_df once,
    clean_data lib raw_df df = Return once ->
    clean_data lib raw_df once = Return once.

(** Durations are clamped: no emitted record has a negative duration. *)
Definition durations_clamped (lib : Lib) (df : Frame) : Prop :=
  forall raw_df out,
    clean_data lib raw_df df = Return (to_frame out) ->
    forall r, In r out -> cell_ge (duration_s r) (num_of_Z 0) = true.

(** A run that does not complete leaves the disk as it found it. *)
Definition no_partial_output (lib : Lib) (env : Env) (d : Disk) : Prop :=
  fst (main lib env d) <> Completed -> snd (main lib env d) = d.

(** A shape that is empty once trimmed comes out as [unknown]. *)
Definition blank_shapes_unknown (lib : Lib) (df : Frame) : Prop :=
  (forall src, In src (input_rows df) ->
     exists s, shape src = CStr s /\ Py.strip s = EmptyString) ->
  forall raw_df out,
    clean_data lib raw_df df = Return (to_frame out) ->
    forall r, In r out -> shape r = CStr "unknown".

(** ** The output of a pass as the input of the next *)

(** The descriptions of a frame are trimmed and its shapes are present. *)
Definition settled (f : Frame) : Prop :=
  forall cells, In cells (rows f) ->
    (exists s, at_label (columns f) "description" cells = CStr s
               /\ Py.strip s = s)
    /\ at_label (columns f) "shape" cells <> CNull.

(** A row of the output read back as a row of input: the label
    [date_posted] becomes [date_posted_str] at line 20, and [date] and
    [date_posted] are assigned anew. *)
Definition refeed (r : Row) : Row :=
  row_of (clean_labels cleaned_columns) (cleaned_cells r).

Definition restamp (r : Row) : Row :=
  mkRow (datetime r) (date r) (city r) (state r) (country r) (shape r)
    (duration_s r) (description r) (latitude r) (longitude r)
    (date_posted r) (date_posted r).

(** ** The keyword criterion as the specification words it *)


Fixpoint prefix_ci (keyword s : string) : bool :=
  match keyword, s with
  | EmptyString, _ => true
  | String a keyword', String c s' => Re.same_letter a c && prefix_ci keyword' s'
  | String _ _, EmptyString => false
  end.

(** The keyword occurs in [s] as a substring, letter case aside. *)
Fixpoint contains_ci (keyword s : string) : bool :=
  prefix_ci keyword s ||
  match s with
  | EmptyString => false
  | String _ s' => contains_ci keyword s'
  end.

(** The records whose description contains the keyword as a literal
    substring, letter case aside; all of them when the keyword is empty. *)
Definition literal_keyword_filter (keyword : string) (df : list Sighting)
  : list Sighting :=
  if Py.is_empty keyword then df
  else filter (fun r => match s_description r with
                        | Some s => contains_ci keyword s
                        | None => false
                        end) df.


(** Runs the lines of [clean_data] on a row without opening the
    comparisons and the parsers. *)
Ltac step_lines :=
  cbn -[num_leb num_of_Z to_datetime to_numeric normalize].

(** ** Notions of the statements about valid rows and the report *)

(** A number within [bound] of zero. *)
Definition within (bound : Q) (x : number) : Prop :=
  match x with
  | Fin q => (- bound <= q <= bound)%Q
  | _ => False
  end.

(** The timestamp of the row does not parse in its column, or its latitude
    or longitude does not parse or is out of range. *)
Definition fails_to_parse (lib : Lib) (datetimes : list cell) (r : Row) : Prop :=
  to_datetime lib datetimes (datetime r) = None
  \/ (forall la, to_numeric lib (latitude r) = Some la -> ~ within 90 la)
  \/ (forall lo, to_numeric lib (longitude r) = Some lo -> ~ within 180 lo).


(** The first row has a latitude out of range and a date without the time
    of day; the second row is in order. *)
Definition first_sets_format : Frame :=
  mkFrame header
    [raw "1/1/2000" "nowhere" "" "" "light" "10" "10 seconds" "Bright"
         "1/2/2000" "91.0" "0";
     raw "10/10/1949 20:30" "san marcos" "tx" "us" "cylinder" "2700"
         "45 minutes" "This event took place in early fall." "4/27/2004"
         "29.8830556" "-97.9411111"].

(** The shape field is empty in every row, so that the column is a float
    column, and no row is valid. *)
Definition no_shape_no_row : Frame :=
  mkFrame header
    [raw "1/1/2000 20:00" "nowhere" "" "" "" "10" "10 seconds" "Bright"
         "1/2/2000" "91.0" "0"].

(** No description in any row, so that this column is a float column, and
    no row is valid; the shapes are strings. *)
Definition no_text_no_row : Frame :=
  mkFrame header
    [raw "1/1/2000 20:00" "nowhere" "" "" "light" "10" "10 seconds" ""
         "1/2/2000" "91.0" "0"].

(** The rows of [mixed_frame] with a second column of latitudes. *)
Definition twice_labelled : Frame :=
  mkFrame (header ++ ["Latitude"])
    (map (fun cells => cells ++ [CStr "0"]) (rows mixed_frame)).

(** ** Deduplication as the specification words it *)

(** Two cells hold the same value: both are missing, or the same string,
    the same number, the same time. *)
Definition same_value (a b : cell) : bool :=
  match a, b with
  | CNull, CNull => true
  | CStr s, CStr t => String.eqb s t
  | CNum (Fin p), CNum (Fin q) => Qeq_bool p q
  | CNum NegInf, CNum NegInf => true
  | CNum PosInf, CNum PosInf => true
  | CTime t, CTime u => Z.eqb t u
  | _, _ => false
  end.

(** Two records have the same (timestamp, latitude, longitude,
    description). *)
Definition same_tuple (r1 r2 : Row) : bool :=
  same_value (datetime r1) (datetime r2)
  && same_value (latitude r1) (latitude r2)
  && same_value (longitude r1) (longitude r2)
  && same_value (description r1) (description r2).

(** The records whose tuple is not that of an earlier record, in input
    order; [earlier] holds the records gone through. *)
Fixpoint first_occurrences_from (earlier l : list Row) : list Row :=
  match l with
  | [] => []
  | r :: rest =>
      if existsb (same_tuple r) earlier
      then first_occurrences_from (earlier ++ [r]) rest
      else r :: first_occurrences_from (earlier ++ [r]) rest
  end.

Definition first_occurrences (l : list Row) : list Row :=
  first_occurrences_from [] l.

(** Four sightings, each different from the one before in one field of
    the tuple: the time, the longitude, the description. *)
Definition four_sightings : Frame :=
  mkFrame header
    [raw "1/1/2000 20:00" "austin" "tx" "us" "light" "30" "30 sec"
         "Bright light" "1/2/2000" "30.25" "-97.75";
     raw "1/1/2000 21:00" "austin" "tx" "us" "light" "30" "30 sec"
         "Bright light" "1/2/2000" "30.25" "-97.75";
     raw "1/1/2000 21:00" "austin" "tx" "us" "light" "30" "30 sec"
         "Bright light" "1/2/2000" "30.25" "-97.5";
     raw "1/1/2000 21:00" "austin" "tx" "us" "light" "30" "30 sec"
         "Dim light" "1/2/2000" "30.25" "-97.5"].

(** ** Further notions for the statements about [clean_data] *)

(** What line 19 leaves in a label: no blank, no parenthesis, no capital. *)
Definition label_char (c : ascii) : bool :=
  negb (Ascii.eqb c " ") && negb (Ascii.eqb c "(") && negb (Ascii.eqb c ")")
  && negb (Py.is_upper c).

(** [l1] is [l2] with some elements left out, the order kept. *)
Inductive subseq {A : Type} : list A -> list A -> Prop :=
| subseq_nil : subseq [] []
| subseq_skip (a : A) (l1 l2 : list A) : subseq l1 l2 -> subseq l1 (a :: l2)
| subseq_keep (a : A) (l1 l2 : list A) : subseq l1 l2 -> subseq (a :: l1) (a :: l2).

(** Two labels of a real header that differ in letter case. *)
Definition shouting_header : list string :=
  ["DATETIME"; "City"; "State"; "Country"; "Shape"; "Duration (Seconds)";
   "Duration (Hours/Min)"; "Comments"; "Date Posted"; "Latitude"; " Longitude"].

(** The frame [mixed_frame] without its posted dates. *)
Definition no_posted_frame : Frame :=
  mkFrame ["datetime"; "city"; "state"; "country"; "shape";
           "duration (seconds)"; "comments"; "latitude"; "longitude"]
    [[CStr "10/10/1949 20:30"; CStr "san marcos"; CStr "tx"; CStr "us";
      CStr "cylinder"; CStr "2700"; CStr "This event took place in early fall.";
      CStr "29.8830556"; CStr "-97.9411111"]].

(** Nothing fails: the input is read and both writes succeed. *)
Definition fair_weather : Env := mkEnv (Return mixed_frame) Written Written.

(** A frame without rows that lacks the columns [state] and [country]. *)
Definition places_missing : Frame :=
  mkFrame ["datetime"; "latitude"; "longitude"; "shape"; "comments";
           "duration (seconds)"; "city"] [].

(** ** app.py: the controls of the sidebar *)

(** Lines 52 and 53: [int(df['year'].min())] and [int(df['year'].max())].
    The minimum of a column without rows is NaN, which [int] refuses with a
    [ValueError]. *)
Definition year_bounds (df : list Sighting) : result (Z * Z) :=
  match map s_year df with
  | [] => Raise (OtherError "cannot convert float NaN to integer")
  | y :: ys => Return (fold_right Z.min y ys, fold_right Z.max y ys)
  end.

Definition in_years (year_range : Z * Z) (r : Sighting) : bool :=
  (fst year_range <=? s_year r)%Z && (s_year r <=? snd year_range)%Z.

(** Line 68 *)
Definition year_filter (year_range : Z * Z) (df : list Sighting) : list Sighting :=
  select_mask df (map (in_years year_range) df).

(** [series.isin(values)] on one cell, for a list of strings: a missing
    value is in none. *)
Definition isin (values : list string) (c : option string) : bool :=
  match c with
  | Some s => existsb (String.eqb s) values
  | None => false
  end.

(** Lines 73 and 74, 80 and 81, 86 and 87: [if selected: filtered_df =
    filtered_df[filtered_df[col].isin(selected)]]. *)
Definition multiselect_filter (col : Sighting -> option string)
    (selected : list string) (filtered_df : list Sighting) : list Sighting :=
  if is_nil selected then filtered_df
  else select_mask filtered_df (map (fun r => isin selected (col r)) filtered_df).

(** [unique()]: the values in the order of their first occurrence. *)
Fixpoint unique_from {A : Type} (eqb : A -> A -> bool) (seen l : list A) : list A :=
  match l with
  | [] => []
  | a :: l' =>
      if existsb (eqb a) seen then unique_from eqb seen l'
      else a :: unique_from eqb (a :: seen) l'
  end.

Definition unique {A : Type} (eqb : A -> A -> bool) (l : list A) : list A :=
  unique_from eqb [] l.

Definition value_eqb (a b : option string) : bool :=
  match a, b with
  | Some s, Some t => String.eqb s t
  | None, None => true
  | _, _ => false
  end.

(** [v in array] *)
Definition py_in (v : string) (array : list (option string)) : bool :=
  existsb (value_eqb (Some v)) array.

(** Line 77: whether the selection of states is offered. *)
Definition state_filter_offered (selected_countries : list string)
    (filtered_df : list Sighting) : bool :=
  let lowered :=
    unique value_eqb (map (option_map Py.lower) (map s_country filtered_df)) in
  py_in "us" lowered || py_in "ca" lowered || negb (is_nil selected_countries).

(** [sorted]: a stable sort. *)
Fixpoint insort {A : Type} (leb : A -> A -> bool) (a : A) (l : list A) : list A :=
  match l with
  | [] => [a]
  | b :: l' => if leb a b then a :: l else b :: insort leb a l'
  end.

Definition sorted {A : Type} (leb : A -> A -> bool) (l : list A) : list A :=
  fold_right (insort leb) [] l.

(** Lines 71, 78 and 84: [sorted(filtered_df[col].dropna().unique())], what
    a selection offers. *)
Definition options (col : Sighting -> option string) (filtered_df : list Sighting)
  : list string :=
  sorted String.leb (unique String.eqb (keep_some (map col filtered_df))).

(** What the visitor has set: the slider and the four inputs. *)
Record Choices : Type := mkChoices {
  year_range : Z * Z;
  selected_countries : list string;
  selected_states : list string;
  selected_shapes : list string;
  keyword : string
}.

(** Lines 68 to 92: the table narrowed down step by step. *)
Definition filtered_df (beyond : string -> option (string -> bool))
    (ch : Choices) (df : list Sighting) : result (list Sighting) :=
  let by_year := year_filter (year_range ch) df in
  let by_country := multiselect_filter s_country (selected_countries ch) by_year in
  let by_state :=
    if state_filter_offered (selected_countries ch) by_country
    then multiselect_filter s_state (selected_states ch) by_country
    else by_country in
  let by_shape := multiselect_filter s_shape (selected_shapes ch) by_state in
  keyword_filter beyond (keyword ch) by_shape.

(** A selection lets a value through: nothing is selected, or the value is
    among the selected ones. *)
Definition chosen (selected : list string) (c : option string) : bool :=
  is_nil selected || isin selected c.

(** All the criteria of lines 68 to 87 on one record; [offered] tells
    whether the states could be selected. *)
Definition meets (ch : Choices) (offered : bool) (r : Sighting) : bool :=
  in_years (year_range ch) r
  && chosen (selected_countries ch) (s_country r)
  && (negb offered || chosen (selected_states ch) (s_state r))
  && chosen (selected_shapes ch) (s_shape r).

(** ** app.py: the statistics *)

Section ValueCounts.

Context {A : Type}.
Variable eqb : A -> A -> bool.

(** The order [value_counts] gives its entries: by falling count, with
    entries of equal count in an order pandas does not promise. *)
Variable by_count : list (A * nat) -> list (A * nat).

Definition count_of (v : A) (l : list A) : nat :=
  List.length (filter (eqb v) l).

Definition tally (l : list A) : list (A * nat) :=
  map (fun v => (v, count_of v l)) (unique eqb l).

(** [series.value_counts()]: missing values are not counted. *)
Definition value_counts (series : list (option A)) : list (A * nat) :=
  by_count (tally (keep_some series)).

End ValueCounts.

(** Lines 113 and 147: [filtered_df[col].value_counts().head(10)]. *)
Definition top_counts (by_count : list (string * nat) -> list (string * nat))
    (col : Sighting -> option string) (filtered_df : list Sighting)
  : list (string * nat) :=
  firstn 10 (value_counts String.eqb by_count (map col filtered_df)).

(** Lines 131 and 132:
    [filtered_df['year'].value_counts().sort_index().reset_index()], the
    rows (Year, Count). *)
Definition yearly_counts (by_count : list (Z * nat) -> list (Z * nat))
    (filtered_df : list Sighting) : list (Z * nat) :=
  sorted (fun a b => (fst a <=? fst b)%Z)
    (value_counts Z.eqb by_count (map (fun r => Some (s_year r)) filtered_df)).

(** An order by falling count: a stable sort. *)
Definition by_count_stable {A : Type} (l : list (A * nat)) : list (A * nat) :=
  sorted (fun a b => (snd b <=? snd a)%nat) l.

(** ** app.py: create_map *)

(** A row of the filtered table as [create_map] reads it: the sighting,
    its day and its coordinates ([None]: NaN). *)
Record Located : Type := mkLocated {
  l_sighting : Sighting;
  l_date : timestamp;
  l_latitude : option number;
  l_longitude : option number
}.

Record Marker : Type := mkMarker {
  location : number * number;
  popup : string;
  tooltip : string
}.

(** The map: its marker cluster, if one was made, with the markers in the
    order they were added. *)
Record Map : Type := mkMap {
  marker_cluster : option (list Marker)
}.

Definition newline : string := String (ascii_of_N 10) EmptyString.

(** The indentation of the lines of the popup in the source. *)
Definition indent : string := "                ".

Section CreateMap.

(** [str.title], [str.upper] and [strftime('%Y-%m-%d')], which this
    development does not define. *)
Variables (title upper : string -> string) (strftime : timestamp -> string).

(** [x.method() if pd.notna(x) else 'N/A'] *)
Definition or_na (method : string -> string) (x : option string) : string :=
  match x with Some s => method s | None => "N/A" end.

(** [x.method()]: [None] has no methods. *)
Definition call (method : string -> string) (x : option string) : result string :=
  match x with
  | Some s => Return (method s)
  | None => Raise AttributeError
  end.

(** [x[:200]]: [None] cannot be sliced (a [TypeError]). *)
Definition slice_200 (x : option string) : result string :=
  match x with
  | Some s => Return (substring 0 200 s)
  | None => Raise (OtherError "'NoneType' object is not subscriptable")
  end.

(** Lines 35 to 40: the f-string, its fields evaluated from left to right. *)
Definition popup_html (row : Located) : result string :=
  let s := l_sighting row in
  shape_title <- call title (s_shape s) ;;
  text <- slice_200 (s_description s) ;;
  Return
    (newline ++ indent ++ "<b>Date:</b> " ++ strftime (l_date row) ++ "<br>"
     ++ newline ++ indent ++ "<b>Location:</b> " ++ or_na title (s_city s)
     ++ ", " ++ or_na upper (s_state s) ++ ", " ++ or_na upper (s_country s)
     ++ "<br>"
     ++ newline ++ indent ++ "<b>Shape:</b> " ++ shape_title ++ "<br>"
     ++ newline ++ indent ++ "<b>Description:</b> " ++ text ++ "..."
     ++ newline ++ indent)%string.

(** Line 44: the tooltip. *)
Definition tooltip_text (row : Located) : result string :=
  let s := l_sighting row in
  city_title <- call title (s_city s) ;;
  shape_title <- call title (s_shape s) ;;
  Return (city_title ++ ", " ++ shape_title)%string.

(** Lines 34 to 45: the marker of one row, if the row has both coordinates. *)
Definition marker_of (row : Located) : result (option Marker) :=
  match l_latitude row, l_longitude row with
  | Some la, Some lo =>
      html <- popup_html row ;;
      tip <- tooltip_text row ;;
      Return (Some (mkMarker (la, lo) html tip))
  | _, _ => Return None
  end.

(** Lines 33 to 45: the loop; it stops at the first row that raises. *)
Fixpoint add_markers (rows : list Located) : result (list Marker) :=
  match rows with
  | [] => Return []
  | row :: rest =>
      m <- marker_of row ;;
      ms <- add_markers rest ;;
      Return (match m with Some mk => mk :: ms | None => ms end)
  end.

(** Lines 27 to 46. *)
Definition create_map (filtered_df : list Located) : result Map :=
  match filtered_df with
  | [] => Return (mkMap None)
  | _ :: _ =>
      ms <- add_markers filtered_df ;;
      Return (mkMap (Some ms))
  end.

End CreateMap.

(** A row has what the popup and the tooltip call methods on. *)
Definition labelled (row : Located) : bool :=
  match s_city (l_sighting row), s_shape (l_sighting row),
        s_description (l_sighting row) with
  | Some _, Some _, Some _ => true
  | _, _, _ => false
  end.

Definition has_coordinates (row : Located) : bool :=
  match l_latitude row, l_longitude row with
  | Some _, Some _ => true
  | _, _ => false
  end.

Definition coordinates (row : Located) : option (number * number) :=
  match l_latitude row, l_longitude row with
  | Some la, Some lo => Some (la, lo)
  | _, _ => None
  end.

(** The two exceptions of a method call or a slice on [None]. *)
Definition none_error (e : exn) : Prop :=
  e = AttributeError \/ e = OtherError "'NoneType' object is not subscriptable".

(** A table of three sightings; the second has no place, the third no
    description. *)
Definition table : list Sighting :=
  [mkSighting 2004 (Some "austin") (Some "tx") (Some "us") (Some "light")
     (Some "A bright LIGHT");
   mkSighting 1999 None None None (Some "disk") (Some "dark");
   mkSighting 2004 (Some "toronto") (Some "on") (Some "CA") (Some "light") None].

(** Rows for the map: one complete, and one without a latitude and without
    a city. *)
Definition located_rows : list Located :=
  [mkLocated (mkSighting 2004 (Some "austin") (Some "tx") (Some "us")
                (Some "light") (Some "A bright LIGHT"))
     1083024000000000000%Z (Some (Fin 30.25)) (Some (Fin (-97.75)));
   mkLocated (mkSighting 1999 None None None (Some "disk") (Some "dark"))
     946684800000000000%Z None (Some (Fin 1))].

(** A row with both coordinates and without a city. *)
Definition unnamed_place : Located :=
  mkLocated (mkSighting 1999 None None None (Some "disk") (Some "dark"))
    946684800000000000%Z (Some (Fin 2)) (Some (Fin 1)).

(** A stand-in for the string methods of the popup in the examples: the
    text as it is. *)
Definition plain_text (s : string) : string := s.

(** * Properties *)

(** ** Strings *)

Lemma all_chars_filter p s : Py.all_chars p (Py.filter_chars p s).
Proof.
  induction s as [|c s IH]; simpl; [exact I|].
  destruct (p c) eqn:E; simpl; auto.
Qed.

Lemma filter_chars_all p s : Py.all_chars p s -> Py.filter_chars p s = s.
Proof.
  induction s as [|c s IH]; simpl; [reflexivity|].
  intros [Hc Hs]. rewrite Hc, IH; auto.
Qed.

Lemma all_chars_lstrip p s : Py.all_chars p s -> Py.all_chars p (Py.lstrip s).
Proof.
  induction s as [|c s IH]; simpl; [auto|].
  intros [Hc Hs]. destruct (Py.is_space c); simpl; auto.
Qed.

Lemma all_chars_rstrip p s : Py.all_chars p s -> Py.all_chars p (Py.rstrip s).
Proof.
  induction s as [|c s IH]; simpl; [auto|].
  intros [Hc Hs].
  destruct (Py.is_empty (Py.rstrip s) && Py.is_space c); simpl; auto.
Qed.

Lemma all_chars_strip p s : Py.all_chars p s -> Py.all_chars p (Py.strip s).
Proof. intros H. apply all_chars_lstrip, all_chars_rstrip, H. Qed.

(** A pattern whose first character does not occur is never found. *)
Lemma replace_from_absent p c old new s :
  p c = false -> Py.all_chars p s ->
  Py.replace_from (String c old) new 0 s = s.
Proof.
  intros Hc. induction s as [|d s IH]; simpl; [reflexivity|].
  intros [Hd Hs].
  destruct (Ascii.ascii_dec c d) as [->|Hne]; [congruence|].
  rewrite IH by assumption. reflexivity.
Qed.

Lemma replace_absent p c old new s :
  p c = false -> Py.all_chars p s -> Py.replace (String c old) new s = s.
Proof. apply replace_from_absent. Qed.

Lemma lstrip_not_space s :
  match Py.lstrip s with
  | EmptyString => True
  | String c _ => Py.is_space c = false
  end.
Proof.
  induction s as [|c s IH]; simpl; [exact I|].
  destruct (Py.is_space c) eqn:E; simpl; auto.
Qed.

Lemma lstrip_idem s : Py.lstrip (Py.lstrip s) = Py.lstrip s.
Proof.
  pose proof (lstrip_not_space s) as H.
  destruct (Py.lstrip s) as [|c t]; simpl; [reflexivity|].
  rewrite H. reflexivity.
Qed.

Lemma rstrip_idem s : Py.rstrip (Py.rstrip s) = Py.rstrip s.
Proof.
  induction s as [|c s IH]; simpl; [reflexivity|].
  destruct (Py.is_empty (Py.rstrip s) && Py.is_space c) eqn:E; simpl.
  - reflexivity.
  - rewrite IH, E. reflexivity.
Qed.

(** Dropping leading blanks leaves the right end as it is. *)
Lemma rstrip_lstrip s :
  Py.rstrip (Py.lstrip (Py.rstrip s)) = Py.lstrip (Py.rstrip s).
Proof.
  induction s as [|c s IH]; simpl; [reflexivity|].
  destruct (Py.is_empty (Py.rstrip s) && Py.is_space c) eqn:E; simpl.
  - reflexivity.
  - destruct (Py.is_space c) eqn:Ec.
    + exact IH.
    + simpl. rewrite rstrip_idem, Ec, andb_false_r. reflexivity.
Qed.

Lemma strip_idem s : Py.strip (Py.strip s) = Py.strip s.
Proof.
  unfold Py.strip. rewrite rstrip_lstrip. apply lstrip_idem.
Qed.

Lemma lower_char_idem c : Py.lower_char (Py.lower_char c) = Py.lower_char c.
Proof.
  destruct c as [[] [] [] [] [] [] [] []]; reflexivity.
Qed.

Lemma lower_char_space c : Py.is_space (Py.lower_char c) = Py.is_space c.
Proof.
  destruct c as [[] [] [] [] [] [] [] []]; reflexivity.
Qed.

Lemma lower_idem s : Py.lower (Py.lower s) = Py.lower s.
Proof.
  induction s as [|c s IH]; simpl; [reflexivity|].
  rewrite lower_char_idem, IH. reflexivity.
Qed.

Lemma lower_lstrip s : Py.lower (Py.lstrip s) = Py.lstrip (Py.lower s).
Proof.
  induction s as [|c s IH]; simpl; [reflexivity|].
  rewrite lower_char_space. destruct (Py.is_space c); auto.
Qed.

Lemma lower_is_empty s : Py.is_empty (Py.lower s) = Py.is_empty s.
Proof. destruct s; reflexivity. Qed.

Lemma lower_rstrip s : Py.lower (Py.rstrip s) = Py.rstrip (Py.lower s).
Proof.
  induction s as [|c s IH]; simpl; [reflexivity|].
  rewrite <- IH, lower_is_empty, lower_char_space.
  destruct (Py.is_empty (Py.rstrip s) && Py.is_space c); reflexivity.
Qed.

Lemma lower_strip s : Py.lower (Py.strip s) = Py.strip (Py.lower s).
Proof. unfold Py.strip. rewrite lower_lstrip, lower_rstrip. reflexivity. Qed.

(** ** The lines of [clean_data] and the row-by-row normalizer *)

Lemma lines_24_35_in lib column df :
  line35 (line34 (line31 (line30 lib (line29 lib (line26 (line25
    (map (fun r => set_datetime (of_time (to_datetime lib column (datetime r))) r)
       df)))))))
  = keep_some (map (parse_row lib column) df).
Proof.
  unfold line35, line34, line31, line30, line29, line26, line25.
  induction df as [|r df IH]; [reflexivity|].
  cbn [map keep_some]; unfold parse_row at 1, in_range.
  destruct (to_datetime lib column (datetime r)) as [t|]; step_lines; [|exact IH].
  destruct (to_numeric lib (latitude r)) as [la|]; step_lines; [|exact IH].
  destruct (to_numeric lib (longitude r)) as [lo|]; step_lines; [|exact IH].
  destruct (num_leb (num_of_Z (-90)) la), (num_leb la (num_of_Z 90));
    step_lines; try exact IH.
  destruct (num_leb (num_of_Z (-180)) lo), (num_leb lo (num_of_Z 180));
    step_lines; try exact IH.
  apply f_equal2; [reflexivity | exact IH].
Qed.

Lemma lines_24_35 lib df :
  line35 (line34 (line31 (line30 lib (line29 lib (line26 (line25
    (line24 lib df)))))))
  = parsed_rows lib df.
Proof. unfold line24, parsed_rows. apply lines_24_35_in. Qed.

(** A test on the images is a test on the elements. *)
Lemma existsb_on_images {X Y : Type} (test : Y -> bool) (g : X -> Y) (xs : list X) :
  existsb test (map g xs) = existsb (fun x => test (g x)) xs.
Proof.
  induction xs as [|x xs IH]; cbn; [reflexivity|]. rewrite IH. reflexivity.
Qed.

Lemma existsb_same {A : Type} (p q : A -> bool) (l : list A) :
  (forall a, p a = q a) -> existsb p l = existsb q l.
Proof.
  intros H. induction l as [|a l IH]; cbn; [reflexivity|]. rewrite H, IH.
  reflexivity.
Qed.

Lemma existsb_never {A : Type} (p : A -> bool) (l : list A) :
  (forall a, p a = false) -> existsb p l = false.
Proof.
  intros H. induction l as [|a l IH]; cbn; [reflexivity|]. rewrite H, IH.
  reflexivity.
Qed.

(** What a method of the accessor returns is a column the accessor takes:
    its cells are strings or missing. *)
Lemma str_accessor_again f series :
  str_accessor true (map (str_method f) series) = Return tt.
Proof.
  unfold str_accessor.
  destruct (existsb is_str (map (str_method f) series)) eqn:E; [reflexivity|].
  assert (H : forallb isna (map (str_method f) series) = true).
  { clear -E. induction series as [|c series IH]; [reflexivity|].
    cbn [map existsb forallb] in *. apply orb_false_iff in E as [Ec E].
    rewrite (IH E), andb_true_r. destruct c; try reflexivity; discriminate. }
  rewrite H. cbn [andb]. rewrite orb_true_r. reflexivity.
Qed.

(** Of the two accessors of line 38 the first decides. *)
Lemma line38_usable object df :
  line38 object df =
  match str_accessor object (map (fun r => fillna (CStr "unknown") (shape r)) df) with
  | Return _ => Return (map (fun r => set_shape (clean_shape (shape r)) r) df)
  | Raise e => Raise e
  end.
Proof.
  unfold line38.
  destruct (str_accessor object
              (map (fun r => fillna (CStr "unknown") (shape r)) df));
    cbn [bind]; [|reflexivity].
  rewrite str_accessor_again. reflexivity.
Qed.

Lemma str_accessor_raises object series e :
  str_accessor object series = Raise e -> e = AttributeError.
Proof.
  unfold str_accessor.
  destruct (existsb is_str series || existsb is_num series && existsb is_time series
            || object && forallb isna series); [discriminate|].
  intros H. injection H as <-. reflexivity.
Qed.

Lemma lines_24_38_usable lib df :
  lines_24_38 lib (object_dtype (map shape df)) df =
  if shapes_usable lib df
  then Return (map (fun r => set_shape (clean_shape (shape r)) r)
                 (parsed_rows lib df))
  else Raise AttributeError.
Proof.
  unfold lines_24_38. rewrite lines_24_35, line38_usable.
  unfold shapes_usable.
  destruct (str_accessor (object_dtype (map shape df))
              (map (fun r => fillna (CStr "unknown") (shape r))
                 (parsed_rows lib df))) as [u|e] eqn:E; [reflexivity|].
  rewrite (str_accessor_raises _ _ _ E). reflexivity.
Qed.

Lemma line42_usable lib df :
  str_accessor (object_dtype (map description df))
    (map description
       (line41 lib
          (map (fun r => set_shape (clean_shape (shape r)) r) (parsed_rows lib df))))
  = if descriptions_usable lib df then Return tt else Raise AttributeError.
Proof.
  unfold descriptions_usable, line41. rewrite !map_map. cbn [description set_description set_shape].
  destruct (str_accessor (object_dtype (map description df))
              (map (fun r => scrub lib (fillna (CStr "") (description r)))
                 (parsed_rows lib df))) as [[]|e] eqn:E; [reflexivity|].
  rewrite (str_accessor_raises _ _ _ E). reflexivity.
Qed.

Lemma dt_accessor_usable lib df :
  dt_accessor lib (map datetime df) =
  if datetimes_usable lib df then Return tt
  else match mixed_offsets lib (map datetime df) with
       | Some e => Raise e
       | None => Return tt
       end.
Proof.
  unfold datetimes_usable, dt_accessor.
  destruct (forallb (fun c => is_time c || isna c) (map datetime df));
    [reflexivity|].
  destruct (mixed_offsets lib (map datetime df)); reflexivity.
Qed.

Lemma lines_41_48 lib b l :
  line48 lib b (line45 lib (line42 (line41 lib
    (map (fun r => set_shape (clean_shape (shape r)) r) l))))
  = map (finish_row lib (map date_posted_str l) b) l.
Proof.
  unfold line48, line45, line42, line41.
  destruct b; rewrite !map_map; apply map_ext; intros r; reflexivity.
Qed.

Lemma normalize_row_parse lib datetimes posted b r :
  normalize_row lib datetimes posted b r
  = option_map (finish_row lib posted b) (parse_row lib datetimes r).
Proof.
  unfold normalize_row, parse_row.
  destruct (to_datetime lib datetimes (datetime r)); [|reflexivity].
  destruct (to_numeric lib (latitude r)); [|reflexivity].
  destruct (to_numeric lib (longitude r)); [|reflexivity].
  destruct (in_range 90 n && in_range 180 n0); reflexivity.
Qed.

Lemma keep_some_option_map {A B : Type} (f : A -> B) (l : list (option A)) :
  keep_some (map (option_map f) l) = map f (keep_some l).
Proof.
  induction l as [|[a|] l IH]; cbn [map keep_some option_map];
    rewrite ?IH; reflexivity.
Qed.

Lemma normalize_rows_parsed lib b df :
  normalize_rows lib b df
  = map (finish_row lib (posted_column lib df) b) (parsed_rows lib df).
Proof.
  unfold normalize_rows, parsed_rows.
  rewrite <- keep_some_option_map, map_map. f_equal.
  apply map_ext. intros r. apply normalize_row_parse.
Qed.

Lemma column_present lib labels l :
  has_column labels l = true -> repeated labels l = false ->
  exists i, column lib labels l = Return i.
Proof.
  unfold has_column, column. destruct (position l labels) as [i|]; [|discriminate].
  intros _ ->. exists i. reflexivity.
Qed.

Lemma column_absent lib labels l :
  has_column labels l = false -> column lib labels l = Raise (KeyError [l]).
Proof.
  unfold has_column, column. destruct (position l labels); [discriminate|].
  reflexivity.
Qed.

Lemma column_repeated lib labels l :
  has_column labels l = true -> repeated labels l = true ->
  column lib labels l = Raise (repeated_label lib l).
Proof.
  unfold has_column, column. destruct (position l labels); [|discriminate].
  intros _ ->. reflexivity.
Qed.

(** How reading a column ends. *)
Lemma column_cases lib labels l :
  (has_column labels l = true /\ repeated labels l = false /\
   exists i, column lib labels l = Return i) \/
  (has_column labels l = false /\ column lib labels l = Raise (KeyError [l])) \/
  (has_column labels l = true /\ repeated labels l = true /\
   column lib labels l = Raise (repeated_label lib l)).
Proof.
  destruct (has_column labels l) eqn:Hc.
  - destruct (repeated labels l) eqn:Hr.
    + right. right. repeat split. apply column_repeated; assumption.
    + left. repeat split. apply column_present; assumption.
  - right. left. split; [reflexivity|]. apply column_absent, Hc.
Qed.

Lemma column_if_present_cases lib labels l :
  column_if_present lib labels l =
  if has_column labels l && repeated labels l
  then Raise (repeated_label lib l)
  else Return tt.
Proof.
  unfold column_if_present.
  destruct (column_cases lib labels l)
    as [(-> & -> & i & ->)|[(-> & _)|(-> & -> & ->)]]; reflexivity.
Qed.

Ltac read_column lib H H' :=
  match type of H with
  | has_column ?labels ?l = true =>
      let i := fresh "i" in destruct (column_present lib labels l H H') as [i ->]
  end; cbn [bind].

(** On a frame that passes [clean_data] gets to its report; what it then
    returns is made of the normalized rows, less the duplicates. *)
Lemma clean_data_passes lib raw_df df :
  passes lib df = true ->
  clean_data lib raw_df df =
    match raw_df with
    | Some _ => Return (to_frame (cleaned lib df))
    | None => Raise (NameError "raw_df")
    end.
Proof.
  unfold passes, schema_ok, required_columns, read_columns. cbn [forallb].
  rewrite !andb_true_iff, !negb_true_iff.
  intros (((((H1 & H2 & H3 & H4 & H5 & H6 & H7 & H8 & H9 & _)
             & (R1 & R2 & R3 & R4 & R5 & R6 & R7 & _)) & Hd) & Hu) & Hw).
  unfold clean_data, require. cbn [filter].
  read_column lib H1 R1.
  rewrite dt_accessor_usable, Hd. cbn [bind].
  read_column lib H2 R2. read_column lib H3 R3.
  read_column lib H4 R4.
  rewrite lines_24_38_usable, Hu. cbn [bind].
  read_column lib H5 R5.
  rewrite line42_usable, Hw. cbn [bind].
  read_column lib H6 R6.
  rewrite column_if_present_cases, R7, andb_false_r. cbn [bind].
  rewrite H7, H8, H9. cbn [negb bind].
  unfold lines_41_54, cleaned. rewrite lines_41_48, normalize_rows_parsed.
  reflexivity.
Qed.

(** On any other frame it raises before the report. *)
Lemma clean_data_stopped lib raw_df df :
  passes lib df = false -> exists e, clean_data lib raw_df df = Raise e.
Proof.
  unfold passes, schema_ok, required_columns, read_columns, clean_data, require.
  cbn [forallb filter].
  set (labels := clean_labels (columns df)).
  destruct (column_cases lib labels "datetime")
    as [(-> & -> & i1 & ->)|[(_ & ->)|(_ & _ & ->)]];
    cbn [bind]; try (intros _; eexists; reflexivity).
  rewrite dt_accessor_usable.
  destruct (datetimes_usable lib (input_rows df)) eqn:Hd; cbn [bind];
    [|unfold datetimes_usable, dt_accessor in Hd;
      destruct (forallb (fun c => is_time c || isna c)
                  (map datetime (input_rows df))); [discriminate|];
      destruct (mixed_offsets lib (map datetime (input_rows df)));
      [intros _; eexists; reflexivity|discriminate]].
  destruct (column_cases lib labels "latitude")
    as [(-> & -> & i2 & ->)|[(_ & ->)|(_ & _ & ->)]];
    cbn [bind]; try (intros _; eexists; reflexivity).
  destruct (column_cases lib labels "longitude")
    as [(-> & -> & i3 & ->)|[(_ & ->)|(_ & _ & ->)]];
    cbn [bind]; try (intros _; eexists; reflexivity).
  destruct (column_cases lib labels "shape")
    as [(-> & -> & i4 & ->)|[(_ & ->)|(_ & _ & ->)]];
    cbn [bind]; try (intros _; eexists; reflexivity).
  rewrite lines_24_38_usable.
  destruct (shapes_usable lib (input_rows df)); cbn [bind];
    [|intros _; eexists; reflexivity].
  destruct (column_cases lib labels "description")
    as [(-> & -> & i5 & ->)|[(_ & ->)|(_ & _ & ->)]];
    cbn [bind]; try (intros _; eexists; reflexivity).
  rewrite line42_usable.
  destruct (descriptions_usable lib (input_rows df)); cbn [bind];
    [|intros _; eexists; reflexivity].
  destruct (column_cases lib labels "duration_s")
    as [(-> & -> & i6 & ->)|[(_ & ->)|(_ & _ & ->)]];
    cbn [bind]; try (intros _; eexists; reflexivity).
  rewrite column_if_present_cases.
  destruct (has_column labels "date_posted_str" && repeated labels "date_posted_str")
    eqn:R7; cbn [bind]; [intros _; eexists; reflexivity|].
  destruct (has_column labels "city"), (has_column labels "state"),
    (has_column labels "country"); cbn [negb andb bind];
    try (intros _; eexists; reflexivity).
  cbn [andb negb]. rewrite andb_true_r.
  assert (R : repeated labels "date_posted_str" = false).
  { destruct (repeated labels "date_posted_str") eqn:Hr; [|reflexivity].
    unfold repeated, has_column in *.
    destruct (position "date_posted_str" labels) eqn:Hp; [discriminate|].
    exfalso. clear -Hr Hp.
    induction labels as [|l labels IH]; [discriminate|].
    cbn [position] in Hp. cbn [filter] in Hr. rewrite String.eqb_sym in Hr.
    destruct (String.eqb l "date_posted_str"); [discriminate|].
    destruct (position "date_posted_str" labels); [discriminate|].
    apply IH; [exact Hr|reflexivity]. }
  rewrite R. discriminate.
Qed.

Lemma clean_data_returns lib raw_df df out :
  clean_data lib raw_df df = Return out ->
  passes lib df = true /\ raw_df <> None /\ out = to_frame (cleaned lib df).
Proof.
  intros H. destruct (passes lib df) eqn:Hs.
  - rewrite (clean_data_passes _ _ _ Hs) in H.
    destruct raw_df; [|discriminate].
    injection H as <-. repeat split. discriminate.
  - destruct (clean_data_stopped lib raw_df df Hs) as [e He]. congruence.
Qed.

Lemma accepted_passes lib df : accepted lib df = true -> passes lib df = true.
Proof. unfold accepted. intros H. apply andb_true_iff in H. apply H. Qed.

(** On an accepted frame [clean_data] gets to its report. *)
Lemma clean_data_accepted lib raw_df df :
  accepted lib df = true ->
  clean_data lib raw_df df =
    match raw_df with
    | Some _ => Return (to_frame (cleaned lib df))
    | None => Raise (NameError "raw_df")
    end.
Proof. intros H. apply clean_data_passes, accepted_passes, H. Qed.

(** ** Keys and [drop_duplicates] *)

Lemma num_eqb_refl x : num_eqb x x = true.
Proof. destruct x; simpl; auto. apply Qeq_bool_iff. reflexivity. Qed.

Lemma num_eqb_sym x y : num_eqb x y = num_eqb y x.
Proof.
  destruct x, y; simpl; auto.
  apply eq_true_iff_eq. rewrite !Qeq_bool_iff. split; intros H; symmetry; exact H.
Qed.

Lemma num_eqb_trans x y z :
  num_eqb x y = true -> num_eqb y z = true -> num_eqb x z = true.
Proof.
  destruct x, y, z; simpl; try discriminate; auto.
  rewrite !Qeq_bool_iff. intros H1 H2. rewrite H1. exact H2.
Qed.

Lemma cell_eqb_refl c : cell_eqb c c = true.
Proof.
  destruct c; simpl; auto using String.eqb_refl, num_eqb_refl, Z.eqb_refl.
Qed.

Lemma cell_eqb_sym a b : cell_eqb a b = cell_eqb b a.
Proof.
  destruct a, b; simpl; auto using String.eqb_sym, num_eqb_sym, Z.eqb_sym.
Qed.

Lemma cell_eqb_trans a b c :
  cell_eqb a b = true -> cell_eqb b c = true -> cell_eqb a c = true.
Proof.
  destruct a, b, c; simpl; try discriminate; auto.
  - rewrite !String.eqb_eq. congruence.
  - apply num_eqb_trans.
  - rewrite !Z.eqb_eq. congruence.
Qed.

Lemma key_eqb_refl k : key_eqb k k = true.
Proof. induction k; simpl; [reflexivity|]. rewrite cell_eqb_refl. exact IHk. Qed.

Lemma key_eqb_sym k1 k2 : key_eqb k1 k2 = key_eqb k2 k1.
Proof.
  revert k2. induction k1 as [|a k1 IH]; intros [|b k2]; simpl; auto.
  rewrite cell_eqb_sym, IH. reflexivity.
Qed.

Lemma key_eqb_trans k1 k2 k3 :
  key_eqb k1 k2 = true -> key_eqb k2 k3 = true -> key_eqb k1 k3 = true.
Proof.
  revert k2 k3. induction k1 as [|a k1 IH]; intros [|b k2] [|c k3]; simpl;
    try discriminate; auto.
  rewrite !andb_true_iff. intros [H1 H2] [H3 H4]. split.
  - eapply cell_eqb_trans; eassumption.
  - eapply IH; eassumption.
Qed.

(** Two keys that are equal are equal to the same keys. *)
Lemma key_eqb_cong k1 k2 k :
  key_eqb k1 k2 = true -> key_eqb k1 k = key_eqb k2 k.
Proof.
  intros H. apply eq_true_iff_eq. split; intros H'.
  - eapply key_eqb_trans; [|exact H']. rewrite key_eqb_sym. exact H.
  - eapply key_eqb_trans; eassumption.
Qed.

Lemma key_seen_cong r1 r2 seen :
  key_eqb (dedup_key r1) (dedup_key r2) = true ->
  key_seen r1 seen = key_seen r2 seen.
Proof.
  intros H. unfold key_seen.
  induction seen as [|k seen IH]; cbn [existsb]; [reflexivity|].
  rewrite IH, (key_eqb_cong _ _ _ H). reflexivity.
Qed.

Lemma drop_duplicates_from_snoc seen l r :
  drop_duplicates_from seen (l ++ [r]) =
  drop_duplicates_from seen l
    ++ (if key_seen r seen || key_among r l then [] else [r]).
Proof.
  revert seen.
  induction l as [|a l IH]; intros seen;
    cbn [app drop_duplicates_from key_among existsb].
  - fold (key_seen r seen). rewrite orb_false_r.
    destruct (key_seen r seen); reflexivity.
  - fold (key_seen a seen). fold (key_among r l).
    destruct (key_seen a seen) eqn:Ha.
    + rewrite IH. f_equal.
      destruct (key_eqb (dedup_key r) (dedup_key a)) eqn:E; cbn [orb];
        [|reflexivity].
      rewrite (key_seen_cong _ _ _ E), Ha. reflexivity.
    + cbn [app]. rewrite IH. f_equal. unfold key_seen at 1. cbn [existsb].
      fold (key_seen r seen).
      rewrite (key_eqb_sym (dedup_key r) (dedup_key a)).
      destruct (key_eqb (dedup_key a) (dedup_key r)), (key_seen r seen);
        reflexivity.
Qed.

Lemma drop_duplicates_snoc l r :
  drop_duplicates (l ++ [r]) =
  drop_duplicates l ++ (if key_among r l then [] else [r]).
Proof. unfold drop_duplicates. rewrite drop_duplicates_from_snoc. reflexivity. Qed.

Lemma drop_duplicates_from_In seen l r :
  In r (drop_duplicates_from seen l) -> In r l.
Proof.
  revert seen.
  induction l as [|a l IH]; intros seen; cbn [drop_duplicates_from In]; [auto|].
  destruct (existsb (key_eqb (dedup_key a)) seen).
  - intros H. right. eapply IH, H.
  - intros [H|H]; [left; exact H | right; eapply IH, H].
Qed.

Lemma drop_duplicates_In l r : In r (drop_duplicates l) -> In r l.
Proof. apply drop_duplicates_from_In. Qed.

Lemma drop_duplicates_from_idem seen l :
  drop_duplicates_from seen (drop_duplicates_from seen l)
  = drop_duplicates_from seen l.
Proof.
  revert seen.
  induction l as [|a l IH]; intros seen; cbn [drop_duplicates_from];
    [reflexivity|].
  destruct (existsb (key_eqb (dedup_key a)) seen) eqn:E.
  - apply IH.
  - cbn [drop_duplicates_from]. rewrite E, IH. reflexivity.
Qed.

Lemma drop_duplicates_idem l :
  drop_duplicates (drop_duplicates l) = drop_duplicates l.
Proof. apply drop_duplicates_from_idem. Qed.

(** A change of rows that keeps their keys goes through [drop_duplicates]. *)
Lemma drop_duplicates_from_map f seen l :
  (forall r, dedup_key (f r) = dedup_key r) ->
  drop_duplicates_from seen (map f l) = map f (drop_duplicates_from seen l).
Proof.
  intros Hf. revert seen.
  induction l as [|a l IH]; intros seen; cbn [map drop_duplicates_from];
    [reflexivity|].
  rewrite Hf. destruct (existsb (key_eqb (dedup_key a)) seen).
  - apply IH.
  - cbn [map]. rewrite IH. reflexivity.
Qed.

(** ** Valid rows *)

Lemma in_range_finite bound x :
  in_range bound x = true ->
  exists q, x = Fin q /\ (inject_Z (- bound) <= q <= inject_Z bound)%Q.
Proof.
  unfold in_range, num_of_Z. destruct x as [|q|]; simpl.
  - discriminate.
  - rewrite andb_true_iff, !Qle_bool_iff. intros [H1 H2]. exists q. auto.
  - discriminate.
Qed.

Lemma within_in_range bound x :
  in_range bound x = true -> within (inject_Z bound) x.
Proof.
  intros H. apply in_range_finite in H as (q & -> & H1 & H2). cbn [within].
  rewrite inject_Z_opp in H1. split; assumption.
Qed.

Lemma normalize_row_invalid lib datetimes posted b r :
  row_valid lib datetimes r = false -> normalize_row lib datetimes posted b r = None.
Proof.
  unfold row_valid, normalize_row.
  destruct (to_datetime lib datetimes (datetime r)); [|reflexivity].
  destruct (to_numeric lib (latitude r)); [|reflexivity].
  destruct (to_numeric lib (longitude r)); [|reflexivity].
  intros ->. reflexivity.
Qed.

Lemma normalize_row_valid lib datetimes posted b r :
  row_valid lib datetimes r = true ->
  exists r', normalize_row lib datetimes posted b r = Some r'.
Proof.
  unfold row_valid, normalize_row.
  destruct (to_datetime lib datetimes (datetime r)); [|discriminate].
  destruct (to_numeric lib (latitude r)); [|discriminate].
  destruct (to_numeric lib (longitude r)); [|discriminate].
  intros ->. eexists. reflexivity.
Qed.

Lemma normalize_row_some_valid lib datetimes posted b r r' :
  normalize_row lib datetimes posted b r = Some r' ->
  row_valid lib datetimes r = true.
Proof.
  intros H. destruct (row_valid lib datetimes r) eqn:E; [reflexivity|].
  rewrite (normalize_row_invalid _ _ posted b _ E) in H. discriminate.
Qed.

Lemma keep_some_app {A : Type} (l1 l2 : list (option A)) :
  keep_some (l1 ++ l2) = keep_some l1 ++ keep_some l2.
Proof.
  induction l1 as [|[a|] l1 IH]; simpl; [reflexivity| |exact IH].
  rewrite IH. reflexivity.
Qed.

Lemma keep_some_map_In {A B : Type} (f : A -> option B) (l : list A) (b : B) :
  In b (keep_some (map f l)) <-> exists a, In a l /\ f a = Some b.
Proof.
  induction l as [|a l IH]; cbn [map keep_some In].
  - split; [intros []|intros (a & [] & _)].
  - destruct (f a) as [b'|] eqn:E; cbn [In]; rewrite IH; split.
    + intros [<-|(a' & Ha & Hf)]; [exists a; auto|exists a'; auto].
    + intros (a' & [<-|Ha] & Hf); [left; congruence|right; exists a'; auto].
    + intros (a' & Ha & Hf). exists a'. auto.
    + intros (a' & [<-|Ha] & Hf); [congruence|exists a'; auto].
Qed.

Lemma normalize_rows_In lib b l r :
  In r (normalize_rows lib b l) <->
  exists src,
    In src l /\
    normalize_row lib (map datetime l) (posted_column lib l) b src = Some r.
Proof. unfold normalize_rows. apply keep_some_map_In. Qed.

Lemma normalize_rows_in lib df :
  normalize_rows lib (has_column (clean_labels (columns df)) "date_posted_str")
    (input_rows df)
  = keep_some (map (normalize_in lib df) (input_rows df)).
Proof. reflexivity. Qed.

(** Every cleaned row is the normalization of a row of the input. *)
Lemma cleaned_source lib df r :
  In r (cleaned lib df) ->
  exists src, In src (input_rows df) /\ normalize_in lib df src = Some r.
Proof.
  unfold cleaned.
  intros H. apply drop_duplicates_In in H. apply normalize_rows_In, H.
Qed.

Lemma parse_row_invalid lib datetimes r :
  row_valid lib datetimes r = false -> parse_row lib datetimes r = None.
Proof.
  unfold row_valid, parse_row.
  destruct (to_datetime lib datetimes (datetime r)); [|reflexivity].
  destruct (to_numeric lib (latitude r)); [|reflexivity].
  destruct (to_numeric lib (longitude r)); [|reflexivity].
  intros ->. reflexivity.
Qed.

(** What the valid rows of a frame are read from. *)
Lemma normalize_row_parsed lib datetimes posted b src r :
  normalize_row lib datetimes posted b src = Some r ->
  exists t la lo,
    to_datetime lib datetimes (datetime src) = Some t /\ datetime r = CTime t /\
    date r = CTime (normalize t) /\
    to_numeric lib (latitude src) = Some la /\ latitude r = CNum la /\
    to_numeric lib (longitude src) = Some lo /\ longitude r = CNum lo /\
    in_range 90 la = true /\ in_range 180 lo = true.
Proof.
  unfold normalize_row.
  destruct (to_datetime lib datetimes (datetime src)) as [t|]; [|discriminate].
  destruct (to_numeric lib (latitude src)) as [la|]; [|discriminate].
  destruct (to_numeric lib (longitude src)) as [lo|]; [|discriminate].
  destruct (in_range 90 la) eqn:Hla; [|discriminate].
  destruct (in_range 180 lo) eqn:Hlo; [|discriminate].
  intros H. injection H as <-. exists t, la, lo.
  repeat split; solve [reflexivity | assumption].
Qed.

Lemma keep_some_sources {A B : Type} (f : A -> option B) (l : list A) :
  exists srcs,
    subseq srcs l /\ Forall2 (fun a b => f a = Some b) srcs (keep_some (map f l)).
Proof.
  induction l as [|a l (srcs & Hs & Hf)]; cbn [map keep_some].
  - exists []. split; constructor.
  - destruct (f a) as [b|] eqn:E.
    + exists (a :: srcs). split; [apply subseq_keep, Hs|].
      constructor; assumption.
    + exists srcs. split; [apply subseq_skip, Hs|exact Hf].
Qed.

Lemma drop_duplicates_from_sources {A : Type} (P : A -> Row -> Prop) seen srcs l :
  Forall2 P srcs l ->
  exists srcs',
    subseq srcs' srcs /\ Forall2 P srcs' (drop_duplicates_from seen l).
Proof.
  intros H. revert seen.
  induction H as [|a r srcs l Har _ IH]; intros seen; cbn [drop_duplicates_from].
  - exists []. split; constructor.
  - destruct (existsb (key_eqb (dedup_key r)) seen).
    + destruct (IH seen) as (srcs' & Hs & Hf).
      exists srcs'. split; [apply subseq_skip, Hs|exact Hf].
    + destruct (IH (dedup_key r :: seen)) as (srcs' & Hs & Hf).
      exists (a :: srcs'). split; [apply subseq_keep, Hs|].
      constructor; assumption.
Qed.

Lemma subseq_trans {A : Type} (l1 l2 l3 : list A) :
  subseq l1 l2 -> subseq l2 l3 -> subseq l1 l3.
Proof.
  intros H12 H23. revert l1 H12.
  induction H23 as [|a l2 l3 _ IH|a l2 l3 _ IH]; intros l1 H12.
  - exact H12.
  - apply subseq_skip, IH, H12.
  - inversion H12; subst.
    + apply subseq_skip, IH. assumption.
    + apply subseq_keep, IH. assumption.
Qed.

Lemma subseq_length {A : Type} (l1 l2 : list A) :
  subseq l1 l2 -> (List.length l1 <= List.length l2)%nat.
Proof. induction 1; cbn [List.length]; lia. Qed.

Lemma subseq_map {A B : Type} (f : A -> B) (l1 l2 : list A) :
  subseq l1 l2 -> subseq (map f l1) (map f l2).
Proof. induction 1; cbn [map]; constructor; assumption. Qed.

(** The cleaned rows and the rows they come from, side by side. *)
Lemma cleaned_sources lib df :
  exists srcs,
    subseq srcs (input_rows df) /\
    Forall2 (fun src r => normalize_in lib df src = Some r) srcs (cleaned lib df).
Proof.
  destruct (keep_some_sources (normalize_in lib df) (input_rows df))
    as (srcs & Hs & Hf).
  rewrite <- normalize_rows_in in Hf.
  destruct (drop_duplicates_from_sources _ [] _ _ Hf) as (srcs' & Hs' & Hf').
  exists srcs'. split; [eapply subseq_trans; eassumption|exact Hf'].
Qed.

Lemma Forall2_In_l {A B : Type} (P : A -> B -> Prop) (l1 : list A) (l2 : list B) a :
  Forall2 P l1 l2 -> In a l1 -> exists b, In b l2 /\ P a b.
Proof.
  induction 1 as [|x y l1 l2 Hxy _ IH]; [intros []|].
  intros [<-|Ha].
  - exists y. split; [left; reflexivity|exact Hxy].
  - destruct (IH Ha) as (b & Hb & Hp). exists b. split; [right|]; assumption.
Qed.

(** C1: every record that [clean_data] emits carries a timestamp that
    parsed, a latitude in [-90, 90] and a longitude in [-180, 180], each the
    parse of the corresponding field of a raw row, the records in the order
    of their rows; and a raw row whose timestamp, latitude or longitude does
    not parse or is out of range is the source of no record.  A timestamp
    parses as a cell of its column: [pd.to_datetime] is given the column. *)
Theorem clean_data_valid_rows lib raw_df df out :
  clean_data lib raw_df df = Return out ->
  exists srcs recs,
    out = to_frame recs /\
    subseq srcs (input_rows df) /\
    Forall2
      (fun src r =>
         exists t la lo,
           to_datetime lib (map datetime (input_rows df)) (datetime src) = Some t /\
           datetime r = CTime t /\
           to_numeric lib (latitude src) = Some la /\ latitude r = CNum la /\
           to_numeric lib (longitude src) = Some lo /\ longitude r = CNum lo /\
           within 90 la /\ within 180 lo)
      srcs recs /\
    (forall bad,
       fails_to_parse lib (map datetime (input_rows df)) bad -> ~ In bad srcs).
Proof.
  intros H. apply clean_data_returns in H as (_ & _ & ->).
  destruct (cleaned_sources lib df) as (srcs & Hsub & Hf).
  assert (Hparsed :
    Forall2
      (fun src r =>
         exists t la lo,
           to_datetime lib (map datetime (input_rows df)) (datetime src) = Some t /\
           datetime r = CTime t /\
           to_numeric lib (latitude src) = Some la /\ latitude r = CNum la /\
           to_numeric lib (longitude src) = Some lo /\ longitude r = CNum lo /\
           within 90 la /\ within 180 lo)
      srcs (cleaned lib df)).
  { eapply Forall2_impl; [|exact Hf]. intros src r Hn.
    apply normalize_row_parsed in Hn
      as (t & la & lo & Ht & Hrt & _ & Hla & Hrla & Hlo & Hrlo & Ha & Ho).
    exists t, la, lo. repeat split; try assumption.
    - apply (within_in_range 90), Ha.
    - apply (within_in_range 180), Ho. }
  exists srcs, (cleaned lib df). split; [reflexivity|]. split; [exact Hsub|].
  split; [exact Hparsed|].
  intros bad Hbad Hin.
  destruct (Forall2_In_l _ _ _ _ Hparsed Hin)
    as (r & _ & t & la & lo & Ht & _ & Hla & _ & Hlo & _ & Ha & Ho).
  destruct Hbad as [Hb|[Hb|Hb]].
  - congruence.
  - apply (Hb la Hla), Ha.
  - apply (Hb lo Hlo), Ho.
Qed.

Lemma clean_data_valid_rows_witness :
  clean_data Plain.lib (Some mixed_frame) mixed_frame = Return mixed_cleaned /\
  exists srcs recs,
    mixed_cleaned = to_frame recs /\
    subseq srcs (input_rows mixed_frame) /\
    Forall2
      (fun src r =>
         exists t la lo,
           to_datetime Plain.lib (map datetime (input_rows mixed_frame))
             (datetime src) = Some t /\
           datetime r = CTime t /\
           to_numeric Plain.lib (latitude src) = Some la /\ latitude r = CNum la /\
           to_numeric Plain.lib (longitude src) = Some lo /\
           longitude r = CNum lo /\
           within 90 la /\ within 180 lo)
      srcs recs /\
    (forall bad,
       fails_to_parse Plain.lib (map datetime (input_rows mixed_frame)) bad ->
       ~ In bad srcs).
Proof.
  assert (H : clean_data Plain.lib (Some mixed_frame) mixed_frame
              = Return mixed_cleaned) by (vm_compute; reflexivity).
  split; [exact H|].
  exact (clean_data_valid_rows Plain.lib (Some mixed_frame) mixed_frame
           mixed_cleaned H).
Defined.

(** The format of the column is that of its first value: a row that would
    do in another column is dropped in this one, and comes back when the
    first row is taken out. *)
Example format_of_first_value :
  clean_data Plain.lib (Some first_sets_format) first_sets_format
  = Return (to_frame []) /\
  clean_data Plain.lib (Some first_sets_format)
    (mkFrame header (tl (rows first_sets_format)))
  = Return mixed_cleaned.
Proof. split; vm_compute; reflexivity. Qed.

Lemma parsed_rows_In lib l r :
  In r (parsed_rows lib l) <->
  exists src, In src l /\ parse_row lib (map datetime l) src = Some r.
Proof. unfold parsed_rows. apply keep_some_map_In. Qed.

Lemma parse_row_shape lib datetimes src r :
  parse_row lib datetimes src = Some r -> shape r = shape src.
Proof.
  unfold parse_row.
  destruct (to_datetime lib datetimes (datetime src)); [|discriminate].
  destruct (to_numeric lib (latitude src)); [|discriminate].
  destruct (to_numeric lib (longitude src)); [|discriminate].
  destruct (in_range 90 n && in_range 180 n0); [|discriminate].
  intros H. injection H as <-. reflexivity.
Qed.

(** ** The report of line 60 *)





(** What stops the call before the report: a label that is missing, a
    label that two columns have, a shape column of numbers, or a shape or
    description column that is empty in the file where no row is valid. *)
Example clean_data_stopped_earlier :
  clean_data Plain.lib None (mkFrame ["when"; "where"] [])
  = Raise (KeyError ["datetime"]) /\
  clean_data Plain.lib None (mkFrame ("Datetime" :: header) (rows mixed_frame))
  = Raise (Plain.on_repeated "datetime") /\
  clean_data Plain.lib None numbers_for_shapes = Raise AttributeError /\
  clean_data Plain.lib None no_shape_no_row = Raise AttributeError /\
  clean_data Plain.lib None no_text_no_row = Raise AttributeError.
Proof. repeat split; vm_compute; reflexivity. Qed.

(** ** Fields of the emitted records *)

(** What [clean_data] returns is made of normalized input rows. *)
Lemma clean_data_rows lib raw_df df out :
  clean_data lib raw_df df = Return out ->
  exists recs,
    out = to_frame recs /\
    forall r, In r recs ->
      exists src, In src (input_rows df) /\ normalize_in lib df src = Some r.
Proof.
  intros H. apply clean_data_returns in H as (_ & _ & ->).
  exists (cleaned lib df). split; [reflexivity|].
  intros r Hr. apply cleaned_source, Hr.
Qed.

Lemma normalize_row_fields lib datetimes posted b src r :
  normalize_row lib datetimes posted b src = Some r ->
  shape r = clean_shape (shape src) /\
  description r = clean_description lib (description src) /\
  duration_s r = clean_duration lib (duration_s src) /\
  date_posted r = clean_date_posted lib posted b (date_posted_str src) /\
  city r = city src /\ state r = state src /\ country r = country src.
Proof.
  unfold normalize_row.
  destruct (to_datetime lib datetimes (datetime src)); [|discriminate].
  destruct (to_numeric lib (latitude src)); [|discriminate].
  destruct (to_numeric lib (longitude src)); [|discriminate].
  destruct (in_range 90 n && in_range 180 n0); [|discriminate].
  intros H. injection H as <-. cbn. repeat split.
Qed.


(** *** Duration *)

Lemma negative_duration_cleaned :
  cleaned Plain.lib negative_duration_frame = [negative_duration_row].
Proof. vm_compute. reflexivity. Qed.

(** C4, as stated, fails: a duration of -5 seconds is emitted as -5. *)
Lemma durations_not_clamped :
  ~ durations_clamped Plain.lib negative_duration_frame.
Proof.
  intros H.
  specialize (H (Some negative_duration_frame) [negative_duration_row]).
  rewrite (clean_data_accepted Plain.lib _ negative_duration_frame) in H
    by (vm_compute; reflexivity).
  rewrite negative_duration_cleaned in H.
  specialize (H eq_refl negative_duration_row (or_introl eq_refl)).
  vm_compute in H. discriminate.
Qed.

(** C4, amended: the duration of every emitted record is the numeric parse of
    the duration field of its raw row, and 0 when that field is missing or
    does not parse; the parsed value is kept as it is, negative or not. *)
Theorem duration_parsed_or_zero lib raw_df df out :
  clean_data lib raw_df df = Return out ->
  exists recs,
    out = to_frame recs /\
    forall r, In r recs ->
      exists src,
        In src (input_rows df) /\ normalize_in lib df src = Some r /\
        duration_s r =
          match to_numeric lib (duration_s src) with
          | Some x => CNum x
          | None => CNum (num_of_Z 0)
          end.
Proof.
  intros H. apply clean_data_rows in H as (recs & -> & Hrecs).
  exists recs. split; [reflexivity|].
  intros r Hr. destruct (Hrecs r Hr) as (src & Hin & Hn).
  exists src. repeat split; try assumption.
  apply normalize_row_fields in Hn as (_ & _ & -> & _).
  unfold clean_duration. destruct (to_numeric lib (duration_s src)); reflexivity.
Qed.

Lemma duration_parsed_or_zero_witness :
  clean_data Plain.lib (Some negative_duration_frame) negative_duration_frame
  = Return (to_frame [negative_duration_row]) /\
  exists recs,
    to_frame [negative_duration_row] = to_frame recs /\
    forall r, In r recs ->
      exists src,
        In src (input_rows negative_duration_frame) /\
        normalize_in Plain.lib negative_duration_frame src = Some r /\
        duration_s r =
          match to_numeric Plain.lib (duration_s src) with
          | Some x => CNum x
          | None => CNum (num_of_Z 0)
          end.
Proof.
  split; [vm_compute; reflexivity|].
  apply (duration_parsed_or_zero Plain.lib (Some negative_duration_frame)
           negative_duration_frame).
  vm_compute. reflexivity.
Defined.

(** *** Shape *)

Lemma blank_shape_cleaned :
  cleaned Plain.lib blank_shape_frame = [blank_shape_row].
Proof. vm_compute. reflexivity. Qed.

(** C8, as stated, fails: a shape field of blanks is trimmed to the empty
    string and stays so; nothing is substituted for it. *)
Lemma blank_shape_stays_empty :
  ~ blank_shapes_unknown Plain.lib blank_shape_frame.
Proof.
  intros H.
  assert (Hin : forall src, In src (input_rows blank_shape_frame) ->
                  exists s, shape src = CStr s /\ Py.strip s = EmptyString).
  { intros src [<-|[]]; eexists; split; reflexivity. }
  specialize (H Hin (Some blank_shape_frame) [blank_shape_row]).
  rewrite (clean_data_accepted Plain.lib _ blank_shape_frame) in H
    by (vm_compute; reflexivity).
  rewrite blank_shape_cleaned in H.
  specialize (H eq_refl _ (or_introl eq_refl)).
  discriminate.
Qed.

(** An empty field of the file is read as missing and comes out as
    [unknown]; an empty string in a frame built in memory comes out
    empty. *)
Example empty_shapes :
  map shape (cleaned Plain.lib empty_field_frame) = [CStr "unknown"] /\
  map shape (cleaned Plain.lib empty_string_frame) = [CStr EmptyString].
Proof. split; vm_compute; reflexivity. Qed.

(** C8, amended: the shape of every emitted record is [unknown] when the
    shape field of its raw row is missing (as an empty field of the file is);
    when the field is a string it is that string lower-cased and trimmed, so
    the empty string for a field of blanks or an empty string. *)
Theorem shape_filled_lowered_trimmed lib raw_df df out :
  clean_data lib raw_df df = Return out ->
  exists recs,
    out = to_frame recs /\
    forall r, In r recs ->
      exists src,
        In src (input_rows df) /\ normalize_in lib df src = Some r /\
        (shape src = CNull -> shape r = CStr "unknown") /\
        (forall s, shape src = CStr s ->
           shape r = CStr (Py.strip (Py.lower s))) /\
        (forall s, shape src = CStr s -> Py.strip s = EmptyString ->
           shape r = CStr EmptyString).
Proof.
  intros H. apply clean_data_rows in H as (recs & -> & Hrecs).
  exists recs. split; [reflexivity|].
  intros r Hr. destruct (Hrecs r Hr) as (src & Hin & Hn).
  exists src. split; [assumption|]. split; [assumption|].
  apply normalize_row_fields in Hn as (-> & _).
  repeat split.
  - intros ->. reflexivity.
  - intros s ->. reflexivity.
  - intros s -> Hs. cbn. rewrite <- lower_strip, Hs. reflexivity.
Qed.

Lemma shape_filled_lowered_trimmed_witness :
  clean_data Plain.lib (Some blank_shape_frame) blank_shape_frame
  = Return (to_frame [blank_shape_row]) /\
  exists recs,
    to_frame [blank_shape_row] = to_frame recs /\
    forall r, In r recs ->
      exists src,
        In src (input_rows blank_shape_frame) /\
        normalize_in Plain.lib blank_shape_frame src = Some r /\
        (shape src = CNull -> shape r = CStr "unknown") /\
        (forall s, shape src = CStr s ->
           shape r = CStr (Py.strip (Py.lower s))) /\
        (forall s, shape src = CStr s -> Py.strip s = EmptyString ->
           shape r = CStr EmptyString).
Proof.
  split; [vm_compute; reflexivity|].
  apply (shape_filled_lowered_trimmed Plain.lib (Some blank_shape_frame)
           blank_shape_frame).
  vm_compute. reflexivity.
Defined.

(** *** Description *)

(** After line 41 no [&] is left, so the three replacements of line 42 find
    nothing to replace. *)
Lemma decode_entities_after_scrub lib c :
  decode_entities (scrub lib c) = scrub lib c.
Proof.
  unfold decode_entities, scrub, str_method. f_equal.
  set (s := Py.filter_chars kept_char _).
  assert (Hs : Py.all_chars kept_char s) by apply all_chars_filter.
  rewrite (replace_absent kept_char _ _ _ s) by (reflexivity || assumption).
  rewrite (replace_absent kept_char _ _ _ s) by (reflexivity || assumption).
  apply (replace_absent kept_char); [reflexivity | assumption].
Qed.

Lemma clean_description_scrub lib c :
  clean_description lib c = scrub lib (fillna (CStr EmptyString) c).
Proof. apply decode_entities_after_scrub. Qed.

(** The class [\w] holds the underscore, so line 41 keeps it. *)
Example scrub_keeps_underscore :
  scrub Plain.lib (CStr " red_light <b>#1</b> ") = CStr "red_light b1b".
Proof. reflexivity. Qed.

(** C3: on the raw description of the specification's scenario the program
    gives [Saw a light44 bright!], not [Saw a light, bright!]: line 41 has
    removed [&], [#] and [;] before line 42 looks for the entities. *)
Theorem entity_not_decoded :
  clean_data Plain.lib (Some entity_frame) entity_frame = Return entity_cleaned.
Proof. vm_compute. reflexivity. Qed.

(** ** Deduplication *)

Lemma same_value_cell_eqb a b : cell_eqb a b = same_value a b.
Proof.
  destruct a as [| |x|], b as [| |y|]; try reflexivity;
    try (destruct x; reflexivity); destruct x, y; reflexivity.
Qed.

(** The key of line 54 is the tuple of the specification. *)
Lemma key_eqb_same_tuple r1 r2 :
  key_eqb (dedup_key r1) (dedup_key r2) = same_tuple r1 r2.
Proof.
  unfold dedup_key, same_tuple. cbn [key_eqb].
  rewrite !same_value_cell_eqb, andb_true_r, !andb_assoc. reflexivity.
Qed.

Lemma same_tuple_refl r : same_tuple r r = true.
Proof. rewrite <- key_eqb_same_tuple. apply key_eqb_refl. Qed.

Lemma same_tuple_sym r1 r2 : same_tuple r1 r2 = same_tuple r2 r1.
Proof. rewrite <- !key_eqb_same_tuple. apply key_eqb_sym. Qed.

Lemma same_tuple_trans r1 r2 r3 :
  same_tuple r1 r2 = true -> same_tuple r2 r3 = true -> same_tuple r1 r3 = true.
Proof. rewrite <- !key_eqb_same_tuple. apply key_eqb_trans. Qed.

Lemma existsb_snoc {A : Type} (p : A -> bool) (l : list A) (a : A) :
  existsb p (l ++ [a]) = existsb p l || p a.
Proof. rewrite existsb_app. cbn [existsb]. rewrite orb_false_r. reflexivity. Qed.

(** Keeping track of the keys of the rows kept, as [drop_duplicates] does,
    comes to the same as looking back at all the earlier rows. *)
Lemma drop_duplicates_from_first seen earlier l :
  (forall r, existsb (key_eqb (dedup_key r)) seen = existsb (same_tuple r) earlier) ->
  drop_duplicates_from seen l = first_occurrences_from earlier l.
Proof.
  revert seen earlier. induction l as [|a l IH]; intros seen earlier Hse;
    [reflexivity|].
  cbn [drop_duplicates_from first_occurrences_from]. rewrite Hse.
  destruct (existsb (same_tuple a) earlier) eqn:E.
  - apply IH. intros r. rewrite Hse, existsb_snoc.
    destruct (same_tuple r a) eqn:Era; [|rewrite orb_false_r; reflexivity].
    rewrite orb_true_r.
    apply existsb_exists in E as (e & He & Hae).
    apply existsb_exists. exists e. split; [exact He|].
    eapply same_tuple_trans; eassumption.
  - f_equal. apply IH. intros r. cbn [existsb].
    rewrite Hse, existsb_snoc, key_eqb_same_tuple. apply orb_comm.
Qed.

Lemma drop_duplicates_first l : drop_duplicates l = first_occurrences l.
Proof. apply drop_duplicates_from_first. reflexivity. Qed.

Lemma in_range_within bound x :
  within (inject_Z bound) x -> in_range bound x = true.
Proof.
  unfold in_range, num_of_Z. destruct x as [|q|]; cbn [within num_leb];
    try contradiction.
  intros [H1 H2]. rewrite inject_Z_opp.
  apply andb_true_iff. split; apply Qle_bool_iff; assumption.
Qed.

(** C6: deduplication comes last and goes by the cleaned values: the frame
    returned is made of the normalized rows, in the order of the input,
    less every row whose timestamp, latitude, longitude and description are
    those of an earlier normalized row.  And of two raw rows that agree on
    these four fields, whatever their other fields, exactly one record
    survives, the first (the rows being valid, so that there is a record to
    survive). *)
Theorem dedup_keeps_first lib :
  (forall raw_df df,
     accepted lib df = true ->
     clean_data lib (Some raw_df) df
     = Return (to_frame
                 (first_occurrences
                    (normalize_rows lib
                       (has_column (clean_labels (columns df)) "date_posted_str")
                       (input_rows df))))) /\
  (forall raw_df df c1 c2,
     accepted lib df = true ->
     rows df = [c1; c2] ->
     let s1 := row_of (clean_labels (columns df)) c1 in
     let s2 := row_of (clean_labels (columns df)) c2 in
     datetime s1 = datetime s2 -> latitude s1 = latitude s2 ->
     longitude s1 = longitude s2 -> description s1 = description s2 ->
     forall t la lo,
       to_datetime lib [datetime s1; datetime s2] (datetime s1) = Some t ->
       to_numeric lib (latitude s1) = Some la -> within 90 la ->
       to_numeric lib (longitude s1) = Some lo -> within 180 lo ->
       exists r1,
         normalize_in lib df s1 = Some r1 /\
         city r1 = city s1 /\ state r1 = state s1 /\ country r1 = country s1 /\
         clean_data lib (Some raw_df) df = Return (to_frame [r1])).
Proof.
  split.
  - intros raw_df df Hs. rewrite (clean_data_accepted lib (Some raw_df) df Hs).
    unfold cleaned. rewrite drop_duplicates_first. reflexivity.
  - intros raw_df df c1 c2 Hs Hrows s1 s2 Hd Hla Hlo Hde t la lo Ht Ela Wla Elo Wlo.
    assert (Hcol : map datetime (input_rows df) = [datetime s1; datetime s2]).
    { unfold input_rows. rewrite Hrows. reflexivity. }
    assert (Hv1 : row_valid lib (map datetime (input_rows df)) s1 = true).
    { unfold row_valid. rewrite Hcol, Ht, Ela, Elo.
      rewrite (in_range_within 90 _ Wla), (in_range_within 180 _ Wlo).
      reflexivity. }
    assert (Hv2 : row_valid lib (map datetime (input_rows df)) s2 = true).
    { unfold row_valid in *. rewrite <- Hd, <- Hla, <- Hlo. exact Hv1. }
    destruct (normalize_row_valid lib _ (posted_column lib (input_rows df))
                (has_column (clean_labels (columns df)) "date_posted_str") s1 Hv1)
      as [r1 Hr1].
    destruct (normalize_row_valid lib _ (posted_column lib (input_rows df))
                (has_column (clean_labels (columns df)) "date_posted_str") s2 Hv2)
      as [r2 Hr2].
    exists r1. split; [exact Hr1|].
    pose proof (normalize_row_fields _ _ _ _ _ _ Hr1) as (_ & Hd1 & _ & _ & C1 & C2 & C3).
    pose proof (normalize_row_fields _ _ _ _ _ _ Hr2) as (_ & Hd2 & _).
    split; [exact C1|]. split; [exact C2|]. split; [exact C3|].
    rewrite (clean_data_accepted lib _ df Hs). f_equal. f_equal.
    unfold cleaned. rewrite normalize_rows_in.
    assert (Hin : input_rows df = [s1; s2]).
    { unfold input_rows. rewrite Hrows. reflexivity. }
    rewrite Hin. cbn [map keep_some].
    unfold normalize_in. rewrite Hr1, Hr2. cbn [keep_some].
    assert (Hk : key_eqb (dedup_key r2) (dedup_key r1) = true).
    { apply normalize_row_parsed in Hr1
        as (t1 & la1 & lo1 & Ht1 & Hrt1 & _ & Hla1 & Hrla1 & Hlo1 & Hrlo1 & _).
      apply normalize_row_parsed in Hr2
        as (t2 & la2 & lo2 & Ht2 & Hrt2 & _ & Hla2 & Hrla2 & Hlo2 & Hrlo2 & _).
      unfold dedup_key.
      rewrite Hrt1, Hrt2, Hrla1, Hrla2, Hrlo1, Hrlo2, Hd1, Hd2.
      rewrite <- Hd in Ht2. rewrite <- Hla in Hla2. rewrite <- Hlo in Hlo2.
      rewrite <- Hde.
      assert (t2 = t1) by congruence. assert (la2 = la1) by congruence.
      assert (lo2 = lo1) by congruence. subst. apply key_eqb_refl. }
    unfold drop_duplicates. cbn [drop_duplicates_from existsb].
    rewrite Hk. reflexivity.
Qed.

Lemma dedup_keeps_first_witness :
  accepted Plain.lib twice_frame = true /\
  exists r1,
    normalize_in Plain.lib twice_frame
      (row_of (clean_labels (columns twice_frame))
         (raw "1/1/2000 20:00" "austin" "tx" "us" "light" "30" "30 sec"
              "Bright light" "1/2/2000" "30.25" "-97.75")) = Some r1 /\
    city r1 = CStr "austin" /\ state r1 = CStr "tx" /\ country r1 = CStr "us" /\
    clean_data Plain.lib (Some twice_frame) twice_frame = Return (to_frame [r1]).
Proof.
  assert (H : accepted Plain.lib twice_frame = true) by (vm_compute; reflexivity).
  split; [exact H|].
  apply (proj2 (dedup_keeps_first Plain.lib)
           twice_frame twice_frame
           (raw "1/1/2000 20:00" "austin" "tx" "us" "light" "30" "30 sec"
                "Bright light" "1/2/2000" "30.25" "-97.75")
           (raw "1/1/2000 20:00" "round rock" "tx" "us" "circle" "45" "45 sec"
                "Bright light" "1/9/2000" "30.25" "-97.75")
           H eq_refl eq_refl eq_refl eq_refl eq_refl
           946756800000000000%Z (Fin 30.25) (Fin (-97.75)));
    vm_compute; try reflexivity; split; discriminate.
Defined.

(** Rows that differ in one of the four fields are all kept. *)
Example four_sightings_kept :
  option_map (fun f => List.length (rows f))
    (match clean_data Plain.lib (Some four_sightings) four_sightings with
     | Return out => Some out
     | Raise _ => None
     end) = Some 4%nat.
Proof. vm_compute. reflexivity. Qed.

Example twice_cleaned :
  clean_data Plain.lib (Some twice_frame) twice_frame
  = Return (to_frame [twice_first]).
Proof. vm_compute. reflexivity. Qed.

(** ** A second pass *)

Lemma hash_frame_once :
  clean_data Plain.lib (Some hash_frame) hash_frame = Return hash_once.
Proof. vm_compute. reflexivity. Qed.

Lemma hash_frame_twice :
  clean_data Plain.lib (Some hash_frame) hash_once = Return hash_twice.
Proof. vm_compute. reflexivity. Qed.

(** C2, as stated, fails: line 41 trims before it removes characters, so a
    description such as [# lights] comes out with a leading blank; the second
    pass trims it, and here the row then duplicates the other one and is
    dropped. *)
Lemma second_pass_differs : ~ second_pass_same Plain.lib hash_frame.
Proof.
  intros H. specialize (H (Some hash_frame) hash_once hash_frame_once).
  rewrite hash_frame_twice in H. discriminate.
Qed.

(** The other way a second pass changes a value: a shape cell that is not a
    string comes out missing, and the second pass fills it. *)
Example second_pass_fills_shape :
  clean_data Plain.lib (Some numeric_shape_frame) numeric_shape_frame
  = Return numeric_shape_once /\
  clean_data Plain.lib (Some numeric_shape_frame) numeric_shape_once
  = Return numeric_shape_twice.
Proof. split; vm_compute; reflexivity. Qed.

Lemma refeed_fields r :
  refeed r =
  mkRow (datetime r) CNull (city r) (state r) (country r) (shape r)
    (duration_s r) (description r) (latitude r) (longitude r)
    (date_posted r) CNull.
Proof. reflexivity. Qed.

Lemma input_rows_to_frame recs : input_rows (to_frame recs) = map refeed recs.
Proof. unfold input_rows, to_frame. cbn [columns rows]. apply map_map. Qed.

Lemma clean_shape_again c :
  clean_shape c <> CNull -> clean_shape (clean_shape c) = clean_shape c.
Proof.
  destruct c as [|s| |]; cbn; try congruence.
  intros _. rewrite lower_strip, lower_idem, strip_idem. reflexivity.
Qed.

Lemma clean_duration_again lib c :
  clean_duration lib (clean_duration lib c) = clean_duration lib c.
Proof.
  unfold clean_duration. destruct (to_numeric lib c); reflexivity.
Qed.

Lemma clean_date_posted_again lib posted posted' b c :
  clean_date_posted lib posted' true (clean_date_posted lib posted b c)
  = clean_date_posted lib posted b c.
Proof.
  unfold clean_date_posted. destruct b; [|reflexivity].
  destruct (to_datetime lib posted c); reflexivity.
Qed.

(** A second scrub only trims. *)
Lemma clean_description_again lib c s :
  clean_description lib c = CStr s ->
  clean_description lib (CStr s) = CStr (Py.strip s).
Proof.
  rewrite !clean_description_scrub. unfold scrub. intros H. injection H as <-.
  cbn [fillna py_str]. f_equal.
  apply filter_chars_all, all_chars_strip, all_chars_filter.
Qed.

(** The second pass over a record of the first, when its description is
    trimmed and its shape is present, gives the record again. *)
Lemma normalize_row_again lib datetimes posted datetimes' posted' b src r s :
  normalize_row lib datetimes posted b src = Some r ->
  description r = CStr s -> Py.strip s = s -> shape r <> CNull ->
  normalize_row lib datetimes' posted' true (refeed r) = Some (restamp r).
Proof.
  unfold normalize_row at 1.
  destruct (to_datetime lib datetimes (datetime src)) as [t|]; [|discriminate].
  destruct (to_numeric lib (latitude src)) as [la|]; [|discriminate].
  destruct (to_numeric lib (longitude src)) as [lo|]; [|discriminate].
  destruct (in_range 90 la && in_range 180 lo) eqn:Hr; [|discriminate].
  intros H. injection H as <-. cbn [description shape].
  intros Hd Hs Hsh.
  rewrite refeed_fields. unfold normalize_row, restamp.
  cbn [datetime latitude longitude to_datetime to_numeric date city state
       country shape duration_s description date_posted_str date_posted].
  rewrite Hr. f_equal. f_equal.
  - apply clean_shape_again, Hsh.
  - apply clean_duration_again.
  - rewrite Hd, (clean_description_again lib _ s Hd), Hs. reflexivity.
  - apply clean_date_posted_again.
Qed.

Lemma keep_some_all_some {A B : Type} (f : A -> option B) (g : A -> B)
    (l : list A) :
  (forall a, In a l -> f a = Some (g a)) -> keep_some (map f l) = map g l.
Proof.
  induction l as [|a l IH]; intros H; [reflexivity|].
  cbn [map keep_some]. rewrite (H a (or_introl eq_refl)).
  rewrite IH; [reflexivity|]. intros a' Ha'. apply H. right. exact Ha'.
Qed.

Lemma normalize_rows_again lib l :
  (forall datetimes posted r,
     In r l ->
     normalize_row lib datetimes posted true (refeed r) = Some (restamp r)) ->
  normalize_rows lib true (map refeed l) = map restamp l.
Proof.
  intros H. unfold normalize_rows. rewrite map_map.
  apply (keep_some_all_some _ restamp). intros r Hr. apply H, Hr.
Qed.

Lemma to_frame_restamp l : to_frame (map restamp l) = to_frame l.
Proof. unfold to_frame. rewrite map_map. reflexivity. Qed.

Lemma cleaned_idem lib df :
  drop_duplicates (cleaned lib df) = cleaned lib df.
Proof. unfold cleaned. apply drop_duplicates_idem. Qed.

(** A row of the result is valid in any column. *)
Lemma normalize_row_refeed lib datetimes posted b src r datetimes' :
  normalize_row lib datetimes posted b src = Some r ->
  exists r', parse_row lib datetimes' (refeed r) = Some r'
             /\ shape r' = shape r.
Proof.
  unfold normalize_row.
  destruct (to_datetime lib datetimes (datetime src)) as [t|]; [|discriminate].
  destruct (to_numeric lib (latitude src)) as [la|]; [|discriminate].
  destruct (to_numeric lib (longitude src)) as [lo|]; [|discriminate].
  destruct (in_range 90 la && in_range 180 lo) eqn:Hr; [|discriminate].
  intros H. injection H as <-.
  rewrite refeed_fields. unfold parse_row.
  cbn [datetime latitude longitude to_datetime to_numeric].
  rewrite Hr. eexists. split; reflexivity.
Qed.

Lemma clean_shape_filled c : is_str (fillna (CStr "unknown") (clean_shape c)) = true.
Proof. destruct c; reflexivity. Qed.

Lemma str_accessor_strings object series :
  series <> [] -> (forall c, In c series -> is_str c = true) ->
  str_accessor object series = Return tt.
Proof.
  intros Hne Hs. unfold str_accessor.
  destruct series as [|c series]; [congruence|]. cbn [existsb].
  rewrite (Hs c (or_introl eq_refl)). reflexivity.
Qed.

Lemma cleaned_refed_parsed lib df :
  cleaned lib df <> [] -> parsed_rows lib (map refeed (cleaned lib df)) <> [].
Proof.
  destruct (cleaned lib df) as [|r0 l0] eqn:E; [congruence|]. intros _.
  rewrite <- E.
  assert (Hr : In r0 (cleaned lib df)) by (rewrite E; left; reflexivity).
  apply cleaned_source in Hr as (src & _ & Hn).
  destruct (normalize_row_refeed _ _ _ _ _ _
              (map datetime (map refeed (cleaned lib df))) Hn) as (r' & Hp & _).
  intros Hnil.
  assert (Hin : In r' (parsed_rows lib (map refeed (cleaned lib df)))).
  { apply parsed_rows_In. exists (refeed r0). split; [|exact Hp].
    apply in_map. rewrite E. left. reflexivity. }
  rewrite Hnil in Hin. destruct Hin.
Qed.

Lemma cleaned_datetimes lib df :
  datetimes_usable lib (map refeed (cleaned lib df)) = true.
Proof.
  unfold datetimes_usable, dt_accessor.
  assert (H : forallb (fun c => is_time c || isna c)
                (map datetime (map refeed (cleaned lib df))) = true).
  { apply forallb_forall. intros c Hc.
    apply in_map_iff in Hc as (r' & <- & Hr').
    apply in_map_iff in Hr' as (r & <- & Hr).
    change (datetime (refeed r)) with (datetime r).
    apply cleaned_source in Hr as (src & _ & Hn).
    apply normalize_row_parsed in Hn as (t & la & lo & _ & -> & _).
    reflexivity. }
  rewrite H. reflexivity.
Qed.

Lemma cleaned_shapes lib df :
  shapes_usable lib (map refeed (cleaned lib df)) = true.
Proof.
  unfold shapes_usable.
  destruct (cleaned lib df) as [|r0 l0] eqn:E; [reflexivity|].
  rewrite <- E.
  rewrite str_accessor_strings; [reflexivity| |].
  - intros Hnil. apply map_eq_nil in Hnil.
    apply (cleaned_refed_parsed lib df); [rewrite E; discriminate|exact Hnil].
  - intros c Hc. apply in_map_iff in Hc as (r' & <- & Hr').
    apply parsed_rows_In in Hr' as (src' & Hsrc' & Hp).
    apply in_map_iff in Hsrc' as (r & <- & Hr).
    rewrite (parse_row_shape _ _ _ _ Hp).
    change (shape (refeed r)) with (shape r).
    apply cleaned_source in Hr as (src & _ & Hn).
    apply normalize_row_fields in Hn as (-> & _).
    apply clean_shape_filled.
Qed.

Lemma cleaned_descriptions lib df :
  descriptions_usable lib (map refeed (cleaned lib df)) = true.
Proof.
  unfold descriptions_usable.
  destruct (cleaned lib df) as [|r0 l0] eqn:E; [reflexivity|].
  rewrite <- E.
  rewrite str_accessor_strings; [reflexivity| |].
  - intros Hnil. apply map_eq_nil in Hnil.
    apply (cleaned_refed_parsed lib df); [rewrite E; discriminate|exact Hnil].
  - intros c Hc. apply in_map_iff in Hc as (r' & <- & _). reflexivity.
Qed.

(** The frame of a pass is accepted by the next one. *)
Lemma cleaned_accepted lib df : accepted lib (to_frame (cleaned lib df)) = true.
Proof.
  unfold accepted, passes.
  change (schema_ok (to_frame (cleaned lib df))) with true.
  rewrite andb_true_r. cbn [andb].
  rewrite input_rows_to_frame.
  rewrite cleaned_datetimes, cleaned_shapes, cleaned_descriptions. reflexivity.
Qed.

(** The rows of a frame whose descriptions are trimmed and whose shapes are
    present come out of a pass as they went in. *)
Lemma cleaned_fixed lib df :
  (forall r, In r (cleaned lib df) ->
     (exists s, description r = CStr s /\ Py.strip s = s) /\ shape r <> CNull) ->
  cleaned lib (to_frame (cleaned lib df)) = map restamp (cleaned lib df).
Proof.
  intros Hset.
  unfold cleaned at 1. rewrite input_rows_to_frame.
  change (has_column (clean_labels (columns (to_frame (cleaned lib df))))
            "date_posted_str") with true.
  rewrite normalize_rows_again.
  - unfold drop_duplicates.
    rewrite drop_duplicates_from_map by reflexivity.
    fold (drop_duplicates (cleaned lib df)). rewrite cleaned_idem. reflexivity.
  - intros datetimes posted r Hr. destruct (Hset r Hr) as [(s & Hd & Hs) Hsh].
    apply cleaned_source in Hr as (src & _ & Hn).
    eapply normalize_row_again; eassumption.
Qed.

(** C2, amended: when the descriptions of the first pass's output carry no
    leading or trailing whitespace and its shapes are present, feeding that
    output back gives it again: no row dropped, no value changed, the posted
    date included. *)
Theorem second_pass_settled lib raw_df df once :
  clean_data lib raw_df df = Return once ->
  settled once ->
  clean_data lib raw_df once = Return once.
Proof.
  intros H Hset. apply clean_data_returns in H as (_ & Hraw & ->).
  rewrite clean_data_accepted by apply cleaned_accepted.
  destruct raw_df; [|congruence]. f_equal.
  rewrite cleaned_fixed; [apply to_frame_restamp|].
  intros r Hr.
  destruct (Hset (cleaned_cells r)) as [Hd Hsh].
  { cbn [rows to_frame]. apply in_map, Hr. }
  split; [exact Hd|exact Hsh].
Qed.

Lemma second_pass_settled_witness :
  clean_data Plain.lib (Some mixed_frame) mixed_frame = Return mixed_cleaned /\
  settled mixed_cleaned /\
  clean_data Plain.lib (Some mixed_frame) mixed_cleaned = Return mixed_cleaned.
Proof.
  assert (H1 : clean_data Plain.lib (Some mixed_frame) mixed_frame
               = Return mixed_cleaned) by (vm_compute; reflexivity).
  assert (H2 : settled mixed_cleaned).
  { intros cells [<-|[]]. split; [|discriminate].
    eexists. split; reflexivity. }
  split; [exact H1|]. split; [exact H2|].
  exact (second_pass_settled Plain.lib (Some mixed_frame) mixed_frame
           mixed_cleaned H1 H2).
Defined.

(** ** The batch run *)

(** C7, as stated, fails: when the write to the database fails, the export
    file has been rewritten already and stays so. *)
Lemma export_written_before_failure :
  ~ no_partial_output Plain.lib locked_database earlier_disk.
Proof.
  unfold no_partial_output. intros H.
  assert (Hne : fst (main Plain.lib locked_database earlier_disk) <> Completed)
    by (vm_compute; discriminate).
  specialize (H Hne). vm_compute in H. discriminate.
Qed.

Lemma preprocess_read_fails lib env d e :
  read_csv env = Raise e -> preprocess lib env d = (Raise e, d).
Proof. unfold preprocess, io_bind, io_lift. intros ->. reflexivity. Qed.

Lemma preprocess_clean_fails lib env d raw_df e :
  read_csv env = Return raw_df ->
  clean_data lib (Some raw_df) raw_df = Raise e ->
  preprocess lib env d = (Raise e, d).
Proof. unfold preprocess, io_bind, io_lift. intros -> ->. reflexivity. Qed.

Lemma preprocess_writes lib env d raw_df out :
  read_csv env = Return raw_df ->
  clean_data lib (Some raw_df) raw_df = Return out ->
  preprocess lib env d =
    match to_csv_outcome env, to_sql_outcome env with
    | WriteFailed e residue, _ => (Raise e, mkDisk residue (sightings d))
    | Written, WriteFailed e residue => (Raise e, mkDisk (Some out) residue)
    | Written, Written => (Return tt, mkDisk (Some out) (Some out))
    end.
Proof.
  unfold preprocess, io_bind, io_lift, to_csv, create_sqlite_db.
  intros -> ->.
  destruct (to_csv_outcome env), (to_sql_outcome env); reflexivity.
Qed.

(** C7, amended: when the input cannot be read or the cleaning raises, the
    run ends with the disk as it was.  When the export cannot be written, the
    table is untouched and the export file holds what the failed write left.
    When the table cannot be written, the export file has been written in
    full before and stays, and the table holds what the failed write left. *)
Theorem failure_leaves lib env d :
  (forall e, read_csv env = Raise e -> main lib env d = (report e, d)) /\
  (forall raw_df e,
     read_csv env = Return raw_df ->
     clean_data lib (Some raw_df) raw_df = Raise e ->
     main lib env d = (report e, d)) /\
  (forall raw_df out e residue,
     read_csv env = Return raw_df ->
     clean_data lib (Some raw_df) raw_df = Return out ->
     to_csv_outcome env = WriteFailed e residue ->
     main lib env d = (report e, mkDisk residue (sightings d))) /\
  (forall raw_df out e residue,
     read_csv env = Return raw_df ->
     clean_data lib (Some raw_df) raw_df = Return out ->
     to_csv_outcome env = Written ->
     to_sql_outcome env = WriteFailed e residue ->
     main lib env d = (report e, mkDisk (Some out) residue)).
Proof.
  unfold main. repeat split.
  - intros e H. rewrite (preprocess_read_fails lib env d e H). reflexivity.
  - intros raw_df e H1 H2.
    rewrite (preprocess_clean_fails lib env d raw_df e H1 H2). reflexivity.
  - intros raw_df out e residue H1 H2 H3.
    rewrite (preprocess_writes lib env d raw_df out H1 H2), H3. reflexivity.
  - intros raw_df out e residue H1 H2 H3 H4.
    rewrite (preprocess_writes lib env d raw_df out H1 H2), H3, H4. reflexivity.
Qed.

Lemma failure_leaves_witness :
  (read_csv missing_input = Raise FileNotFoundError /\
   main Plain.lib missing_input earlier_disk = (ReportedNotFound, earlier_disk)) /\
  (clean_data Plain.lib (Some (mkFrame ["when"; "where"] []))
     (mkFrame ["when"; "where"] []) = Raise (KeyError ["datetime"]) /\
   main Plain.lib wrong_input earlier_disk
   = (ReportedError (KeyError ["datetime"]), earlier_disk)) /\
  (to_csv_outcome full_disk
   = WriteFailed (OtherError "No space left on device")
       (Some (mkFrame cleaned_columns [])) /\
   main Plain.lib full_disk earlier_disk
   = (ReportedError (OtherError "No space left on device"),
      mkDisk (Some (mkFrame cleaned_columns [])) (Some entity_cleaned))) /\
  (to_sql_outcome locked_database
   = WriteFailed (OtherError "database is locked") (Some entity_cleaned) /\
   main Plain.lib locked_database earlier_disk
   = (ReportedError (OtherError "database is locked"),
      mkDisk (Some mixed_cleaned) (Some entity_cleaned))).
Proof.
  pose proof (failure_leaves Plain.lib missing_input earlier_disk)
    as (Hread & _).
  pose proof (failure_leaves Plain.lib wrong_input earlier_disk)
    as (_ & Hclean & _).
  pose proof (failure_leaves Plain.lib full_disk earlier_disk)
    as (_ & _ & Hcsv & _).
  pose proof (failure_leaves Plain.lib locked_database earlier_disk)
    as (_ & _ & _ & Hsql).
  assert (Hmixed : clean_data Plain.lib (Some mixed_frame) mixed_frame
                   = Return mixed_cleaned) by (vm_compute; reflexivity).
  split; [|split; [|split]]; (split; [reflexivity|]).
  - exact (Hread FileNotFoundError eq_refl).
  - exact (Hclean (mkFrame ["when"; "where"] []) (KeyError ["datetime"])
             eq_refl eq_refl).
  - exact (Hcsv mixed_frame mixed_cleaned _ _ eq_refl Hmixed eq_refl).
  - exact (Hsql mixed_frame mixed_cleaned _ _ eq_refl Hmixed eq_refl eq_refl).
Defined.

(** A run in which nothing fails writes the cleaned frame to both places. *)
Lemma main_completes lib env d raw_df out :
  read_csv env = Return raw_df ->
  clean_data lib (Some raw_df) raw_df = Return out ->
  to_csv_outcome env = Written -> to_sql_outcome env = Written ->
  main lib env d = (Completed, mkDisk (Some out) (Some out)).
Proof.
  intros H1 H2 H3 H4. unfold main.
  rewrite (preprocess_writes lib env d raw_df out H1 H2), H3, H4. reflexivity.
Qed.

(** ** The keyword criterion *)

Lemma select_mask_map {A : Type} (p : A -> bool) (l : list A) :
  select_mask l (map p l) = filter p l.
Proof.
  induction l as [|a l IH]; cbn; [reflexivity|].
  rewrite IH. reflexivity.
Qed.

(** What [keyword_filter] does with a keyword that compiles. *)
Lemma keyword_filter_compiled beyond keyword found df :
  Py.is_empty keyword = false ->
  re_compile beyond keyword = Some found ->
  keyword_filter beyond keyword df =
  Return (filter (fun r => match s_description r with
                           | Some s => found s
                           | None => false
                           end) df).
Proof.
  intros He Hc. unfold keyword_filter, str_contains. rewrite He, Hc.
  cbn [bind]. rewrite map_map, select_mask_map. reflexivity.
Qed.

(** A keyword that does not compile raises whatever the records are. *)
Lemma keyword_filter_error beyond keyword df :
  Py.is_empty keyword = false ->
  re_compile beyond keyword = None ->
  keyword_filter beyond keyword df = Raise ReError.
Proof.
  intros He Hc. unfold keyword_filter, str_contains. rewrite He, Hc.
  reflexivity.
Qed.

Lemma filter_filter_implied {A : Type} (p q : A -> bool) (l : list A) :
  (forall a, p a = true -> q a = true) ->
  filter p (filter q l) = filter p l.
Proof.
  intros H. induction l as [|a l IH]; cbn; [reflexivity|].
  destruct (q a) eqn:Eq; cbn.
  - rewrite IH. reflexivity.
  - destruct (p a) eqn:Ep; [|exact IH].
    rewrite (H a Ep) in Eq. discriminate.
Qed.

(** C10: under a keyword that is not empty, a record whose description is
    missing takes no part in the outcome: the filter does on the record set
    what it does on the record set without such records (it raises on both
    or returns the same records), and no record it returns has a missing
    description.  The missing value counts as a non-match and is never what
    raises. *)
Theorem keyword_filter_skips_missing beyond keyword df :
  Py.is_empty keyword = false ->
  keyword_filter beyond keyword df
  = keyword_filter beyond keyword
      (filter (fun r => match s_description r with
                        | Some _ => true
                        | None => false
                        end) df)
  /\ forall out,
       keyword_filter beyond keyword df = Return out ->
       forall r, In r out -> s_description r <> None.
Proof.
  intros He. destruct (re_compile beyond keyword) as [found|] eqn:Hc.
  - rewrite !(keyword_filter_compiled beyond keyword found) by assumption.
    split.
    + f_equal. symmetry. apply filter_filter_implied.
      intros r. destruct (s_description r); [reflexivity | discriminate].
    + intros out H r Hr. injection H as <-.
      apply filter_In in Hr as [_ Hr]. intros E. rewrite E in Hr. discriminate.
  - rewrite !(keyword_filter_error beyond keyword) by assumption.
    split; [reflexivity|]. intros out H. discriminate.
Qed.

Lemma keyword_filter_skips_missing_witness :
  Py.is_empty "light" = false /\
  keyword_filter Plain.beyond "light"
    [sighting None; sighting (Some "A bright LIGHT"); sighting (Some "dark")]
  = keyword_filter Plain.beyond "light"
      (filter (fun r => match s_description r with
                        | Some _ => true
                        | None => false
                        end)
         [sighting None; sighting (Some "A bright LIGHT"); sighting (Some "dark")])
  /\ forall out,
       keyword_filter Plain.beyond "light"
         [sighting None; sighting (Some "A bright LIGHT"); sighting (Some "dark")]
       = Return out ->
       forall r, In r out -> s_description r <> None.
Proof.
  split; [reflexivity|].
  apply (keyword_filter_skips_missing Plain.beyond "light"). reflexivity.
Defined.

Example keyword_filter_light :
  keyword_filter Plain.beyond "light"
    [sighting None; sighting (Some "A bright LIGHT"); sighting (Some "dark")]
  = Return [sighting (Some "A bright LIGHT")].
Proof. vm_compute. reflexivity. Qed.

(** C5: the keyword is compiled as a regular expression.  A lone [(] or [*]
    raises [re.error] where the literal reading keeps the records that
    contain the character; [.] keeps a description without a full stop, and
    [a*] one without an [a]. *)
Theorem keyword_is_a_pattern beyond :
  keyword_filter beyond "(" [sighting (Some "two lights (close)")]
    = Raise ReError /\
  literal_keyword_filter "(" [sighting (Some "two lights (close)")]
    = [sighting (Some "two lights (close)")] /\
  keyword_filter beyond "*" [sighting (Some "a star * in the sky")]
    = Raise ReError /\
  keyword_filter beyond "." [sighting (Some "no full stop")]
    = Return [sighting (Some "no full stop")] /\
  literal_keyword_filter "." [sighting (Some "no full stop")] = [] /\
  keyword_filter beyond "a*" [sighting (Some "light")]
    = Return [sighting (Some "light")] /\
  literal_keyword_filter "a*" [sighting (Some "light")] = [].
Proof. repeat split. Qed.

(** *** Keywords without metacharacters *)













(** * Further properties of the code *)

(** ** Lines 19 and 20: the column labels *)

Lemma all_chars_weaken (p q : ascii -> bool) s :
  (forall c, p c = true -> q c = true) ->
  Py.all_chars p s -> Py.all_chars q s.
Proof.
  intros Hpq. induction s as [|c s IH]; cbn; [auto|].
  intros [Hc Hs]. split; auto.
Qed.

Lemma all_chars_app (p : ascii -> bool) s t :
  Py.all_chars p s -> Py.all_chars p t -> Py.all_chars p (s ++ t).
Proof.
  intros Hs Ht. induction s as [|c s IH]; cbn; [exact Ht|].
  destruct Hs as [Hc Hs]. split; auto.
Qed.

Lemma lower_char_not_upper c : Py.is_upper (Py.lower_char c) = false.
Proof. destruct c as [[] [] [] [] [] [] [] []]; reflexivity. Qed.

Lemma all_chars_lower s :
  Py.all_chars (fun c => negb (Py.is_upper c)) (Py.lower s).
Proof.
  induction s as [|c s IH]; cbn; [exact I|].
  rewrite lower_char_not_upper. split; [reflexivity | exact IH].
Qed.

Lemma prefix_empty s : prefix EmptyString s = true.
Proof. destruct s; reflexivity. Qed.

(** Replacing one character: what holds of the other characters and of the
    replacement holds of the result. *)
Lemma replace_char_all (q : ascii -> bool) a new s :
  Py.all_chars (fun c => Ascii.eqb c a || q c) s ->
  Py.all_chars q new ->
  Py.all_chars q (Py.replace (String a EmptyString) new s).
Proof.
  intros Hs Hnew. unfold Py.replace.
  induction s as [|c s IH]; cbn; [exact I|].
  destruct Hs as [Hc Hs]. specialize (IH Hs).
  destruct (ascii_dec a c) as [->|Hne].
  - rewrite prefix_empty. apply all_chars_app; assumption.
  - cbn. split; [|exact IH].
    apply not_eq_sym, Ascii.eqb_neq in Hne. rewrite Hne in Hc. exact Hc.
Qed.

Lemma canon_label_chars s : Py.all_chars label_char (canon_label s).
Proof.
  unfold canon_label.
  apply replace_char_all; [|exact I].
  apply replace_char_all; [|exact I].
  apply replace_char_all; [|repeat split].
  eapply all_chars_weaken; [|apply all_chars_lower].
  intros c Hc. unfold label_char. cbn beta. rewrite Hc.
  destruct (Ascii.eqb c ")"), (Ascii.eqb c "("), (Ascii.eqb c " "); reflexivity.
Qed.

(** X1: after lines 19 and 20 no column label holds a blank, a parenthesis or
    a capital letter, whatever the header of the input was. *)
Theorem clean_labels_chars labels :
  Forall (Py.all_chars label_char) (clean_labels labels).
Proof.
  unfold clean_labels. rewrite map_map. apply Forall_map, Forall_forall.
  intros s _. pose proof (canon_label_chars s) as H. unfold rename_label.
  destruct (String.eqb (canon_label s) "duration_seconds"); [repeat split|].
  destruct (String.eqb (canon_label s) "duration_hours/min"); [repeat split|].
  destruct (String.eqb (canon_label s) "comments"); [repeat split|].
  destruct (String.eqb (canon_label s) "date_posted"); [repeat split|].
  exact H.
Qed.

Lemma canon_label_insensitive s1 s2 :
  Py.strip (Py.lower s1) = Py.strip (Py.lower s2) ->
  canon_label s1 = canon_label s2.
Proof. unfold canon_label. rewrite !lower_strip. intros ->. reflexivity. Qed.

(** X2: the letter case of the header and the whitespace around its labels
    do not matter: two frames with the same cells whose labels agree once
    lower-cased and trimmed are cleaned alike, error or result. *)
Theorem clean_data_header_insensitive lib raw_df labels1 labels2 cells :
  Forall2 (fun s1 s2 => Py.strip (Py.lower s1) = Py.strip (Py.lower s2))
    labels1 labels2 ->
  clean_data lib raw_df (mkFrame labels1 cells)
  = clean_data lib raw_df (mkFrame labels2 cells).
Proof.
  intros H.
  assert (E : clean_labels labels1 = clean_labels labels2).
  { unfold clean_labels. induction H as [|s1 s2 l1 l2 Hs _ IH]; [reflexivity|].
    cbn [map]. rewrite (canon_label_insensitive s1 s2 Hs), IH. reflexivity. }
  unfold clean_data, input_rows. cbn [columns rows]. rewrite E. reflexivity.
Qed.

Lemma clean_data_header_insensitive_witness :
  Forall2 (fun s1 s2 => Py.strip (Py.lower s1) = Py.strip (Py.lower s2))
    shouting_header header /\
  clean_data Plain.lib (Some mixed_frame) (mkFrame shouting_header (rows mixed_frame))
  = clean_data Plain.lib (Some mixed_frame) (mkFrame header (rows mixed_frame)).
Proof.
  assert (H : Forall2 (fun s1 s2 => Py.strip (Py.lower s1) = Py.strip (Py.lower s2))
                shouting_header header).
  { unfold shouting_header, header.
    repeat (apply Forall2_cons; [vm_compute; reflexivity|]). apply Forall2_nil. }
  split; [exact H|].
  exact (clean_data_header_insensitive Plain.lib (Some mixed_frame)
           shouting_header header (rows mixed_frame) H).
Defined.

(** A header in capitals names the columns [clean_data] reads. *)
Example shouting_header_read :
  clean_labels shouting_header = clean_labels header.
Proof. vm_compute. reflexivity. Qed.

(** ** Line 54: what [drop_duplicates] keeps *)

Lemma key_among_false r l :
  key_among r l = false <->
  forall e, In e l -> key_eqb (dedup_key r) (dedup_key e) = false.
Proof.
  unfold key_among. induction l as [|a l IH]; cbn [existsb In].
  - split; [intros _ e []|reflexivity].
  - rewrite orb_false_iff, IH. split.
    + intros [Ha Hl] e [<-|He]; [exact Ha|apply Hl, He].
    + intros H. split; [apply H; left; reflexivity|].
      intros e He. apply H. right. exact He.
Qed.

Lemma drop_duplicates_from_unseen seen l r :
  In r (drop_duplicates_from seen l) -> key_seen r seen = false.
Proof.
  revert seen. induction l as [|a l IH]; intros seen; cbn [drop_duplicates_from].
  - intros [].
  - destruct (existsb (key_eqb (dedup_key a)) seen) eqn:E.
    + apply IH.
    + intros [<-|Hr]; [exact E|].
      apply IH in Hr. unfold key_seen in *. cbn [existsb] in Hr.
      apply orb_false_iff in Hr. apply Hr.
Qed.

Lemma drop_duplicates_from_pairs seen l :
  ForallOrdPairs (fun r1 r2 => same_tuple r1 r2 = false)
    (drop_duplicates_from seen l).
Proof.
  revert seen. induction l as [|a l IH]; intros seen; cbn [drop_duplicates_from].
  - constructor.
  - destruct (existsb (key_eqb (dedup_key a)) seen); [apply IH|].
    constructor; [|apply IH].
    apply Forall_forall. intros e He.
    apply drop_duplicates_from_unseen in He. unfold key_seen in He.
    cbn [existsb] in He. apply orb_false_iff in He as [He _].
    rewrite same_tuple_sym, <- key_eqb_same_tuple. exact He.
Qed.

Lemma drop_duplicates_from_covers seen l r :
  In r l ->
  key_seen r seen = true
  \/ exists e, In e (drop_duplicates_from seen l) /\ same_tuple r e = true.
Proof.
  revert seen. induction l as [|a l IH]; intros seen; [intros []|].
  cbn [drop_duplicates_from In].
  destruct (existsb (key_eqb (dedup_key a)) seen) eqn:E.
  - intros [<-|Hr]; [left; exact E|apply IH, Hr].
  - intros [<-|Hr].
    + right. exists a. split; [left; reflexivity|apply same_tuple_refl].
    + destruct (IH (dedup_key a :: seen) Hr) as [H|(e & He & Hre)].
      * unfold key_seen in H. cbn [existsb] in H.
        apply orb_true_iff in H as [H|H]; [|left; exact H].
        right. exists a. split; [left; reflexivity|].
        rewrite <- key_eqb_same_tuple. exact H.
      * right. exists e. split; [right; exact He|exact Hre].
Qed.

(** X3: the rows [clean_data] returns are one for each (timestamp,
    latitude, longitude, description) among the valid rows of the input: no
    two of them agree on these four values, and every input row that is
    normalized has the four values of a row that is returned. *)
Theorem clean_data_one_row_per_key lib raw_df df out :
  clean_data lib raw_df df = Return out ->
  exists recs,
    out = to_frame recs /\
    ForallOrdPairs (fun r1 r2 => same_tuple r1 r2 = false) recs /\
    forall src r0,
      In src (input_rows df) -> normalize_in lib df src = Some r0 ->
      exists r, In r recs /\ same_tuple r0 r = true.
Proof.
  intros H. apply clean_data_returns in H as (_ & _ & ->).
  exists (cleaned lib df). split; [reflexivity|]. unfold cleaned, drop_duplicates.
  split; [apply drop_duplicates_from_pairs|].
  intros src r0 Hsrc Hr0.
  assert (Hin : In r0 (normalize_rows lib
                         (has_column (clean_labels (columns df)) "date_posted_str")
                         (input_rows df))).
  { apply normalize_rows_In. exists src. split; assumption. }
  destruct (drop_duplicates_from_covers [] _ r0 Hin) as [Hs|Hs];
    [discriminate|exact Hs].
Qed.

Lemma clean_data_one_row_per_key_witness :
  clean_data Plain.lib (Some twice_frame) twice_frame
  = Return (to_frame [twice_first]) /\
  exists recs,
    to_frame [twice_first] = to_frame recs /\
    ForallOrdPairs (fun r1 r2 => same_tuple r1 r2 = false) recs /\
    forall src r0,
      In src (input_rows twice_frame) ->
      normalize_in Plain.lib twice_frame src = Some r0 ->
      exists r, In r recs /\ same_tuple r0 r = true.
Proof.
  assert (H : clean_data Plain.lib (Some twice_frame) twice_frame
              = Return (to_frame [twice_first])) by (vm_compute; reflexivity).
  split; [exact H|].
  exact (clean_data_one_row_per_key Plain.lib (Some twice_frame) twice_frame
           (to_frame [twice_first]) H).
Defined.

(** X4: [clean_data] keeps the order of the input and adds no row: the rows
    it returns are, one by one and in order, the normalized forms of some of
    the input rows, so that the count of cleaned rows that line 60 reports
    never exceeds the count of rows of the frame given. *)
Theorem clean_data_keeps_order lib raw_df df out :
  clean_data lib raw_df df = Return out ->
  exists srcs recs,
    out = to_frame recs /\
    subseq srcs (rows df) /\
    Forall2 (fun cells r =>
               normalize_in lib df (row_of (clean_labels (columns df)) cells)
               = Some r)
      srcs recs /\
    (List.length (rows out) <= List.length (rows df))%nat.
Proof.
  intros H. apply clean_data_returns in H as (_ & _ & ->).
  destruct (keep_some_sources
              (fun cells =>
                 normalize_in lib df (row_of (clean_labels (columns df)) cells))
              (rows df)) as (srcs & Hs & Hf).
  destruct (drop_duplicates_from_sources _ [] _ _ Hf) as (srcs' & Hs' & Hf').
  assert (E : keep_some
                (map (fun cells =>
                        normalize_in lib df
                          (row_of (clean_labels (columns df)) cells))
                   (rows df))
              = normalize_rows lib
                  (has_column (clean_labels (columns df)) "date_posted_str")
                  (input_rows df)).
  { rewrite normalize_rows_in. unfold input_rows. rewrite map_map. reflexivity. }
  rewrite E in Hf'.
  exists srcs', (cleaned lib df). split; [reflexivity|].
  split; [eapply subseq_trans; eassumption|].
  split; [exact Hf'|].
  unfold to_frame. cbn [rows]. rewrite length_map.
  apply Forall2_length in Hf'. unfold cleaned, drop_duplicates.
  rewrite <- Hf'. apply subseq_length. eapply subseq_trans; eassumption.
Qed.

Lemma clean_data_keeps_order_witness :
  clean_data Plain.lib (Some mixed_frame) mixed_frame = Return mixed_cleaned /\
  exists srcs recs,
    mixed_cleaned = to_frame recs /\
    subseq srcs (rows mixed_frame) /\
    Forall2 (fun cells r =>
               normalize_in Plain.lib mixed_frame
                 (row_of (clean_labels (columns mixed_frame)) cells)
               = Some r)
      srcs recs /\
    (List.length (rows mixed_cleaned) <= List.length (rows mixed_frame))%nat.
Proof.
  assert (H : clean_data Plain.lib (Some mixed_frame) mixed_frame
              = Return mixed_cleaned) by (vm_compute; reflexivity).
  split; [exact H|].
  exact (clean_data_keeps_order Plain.lib (Some mixed_frame) mixed_frame
           mixed_cleaned H).
Defined.

(** ** Lines 24 and 25: the day of a sighting *)

Lemma normalize_midnight t :
  (normalize t mod ns_per_day = 0)%Z /\
  (normalize t <= t < normalize t + ns_per_day)%Z.
Proof.
  unfold normalize.
  assert (Hpos : (0 < ns_per_day)%Z) by reflexivity.
  pose proof (Z.mod_pos_bound t ns_per_day Hpos) as Hb.
  pose proof (Z.div_mod t ns_per_day) as Hd.
  split; [|lia].
  replace (t - t mod ns_per_day)%Z with ((t / ns_per_day) * ns_per_day)%Z by lia.
  apply Z.mod_mul. lia.
Qed.

(** X5: in every row [clean_data] returns, [date] is midnight of the day of
    [datetime]: a whole number of days since the epoch, not later than the
    timestamp and less than a day before it. *)
Theorem clean_data_date_is_midnight lib raw_df df out :
  clean_data lib raw_df df = Return out ->
  forall cells, In cells (rows out) ->
    exists t d,
      at_label (columns out) "datetime" cells = CTime t /\
      at_label (columns out) "date" cells = CTime d /\
      (d mod ns_per_day = 0)%Z /\ (d <= t < d + ns_per_day)%Z.
Proof.
  intros H cells Hc. apply clean_data_returns in H as (_ & _ & ->).
  cbn [rows to_frame] in Hc. apply in_map_iff in Hc as (r & <- & Hr).
  apply cleaned_source in Hr as (src & _ & Hn).
  apply normalize_row_parsed in Hn as (t & la & lo & _ & Ht & Hd & _).
  exists t, (normalize t). split; [exact Ht|]. split; [exact Hd|].
  apply normalize_midnight.
Qed.

Lemma clean_data_date_is_midnight_witness :
  clean_data Plain.lib (Some mixed_frame) mixed_frame = Return mixed_cleaned /\
  forall cells, In cells (rows mixed_cleaned) ->
    exists t d,
      at_label (columns mixed_cleaned) "datetime" cells = CTime t /\
      at_label (columns mixed_cleaned) "date" cells = CTime d /\
      (d mod ns_per_day = 0)%Z /\ (d <= t < d + ns_per_day)%Z.
Proof.
  assert (H : clean_data Plain.lib (Some mixed_frame) mixed_frame
              = Return mixed_cleaned) by (vm_compute; reflexivity).
  split; [exact H|].
  exact (clean_data_date_is_midnight Plain.lib (Some mixed_frame) mixed_frame
           mixed_cleaned H).
Defined.

(** ** Lines 41 and 42: what a description is made of *)

(** X6: every description [clean_data] returns is a string, also where the
    input had none or had a number, and it holds nothing but word
    characters, whitespace and the marks kept by line 41 (full stop, comma,
    exclamation and question mark). *)
Theorem clean_data_description_chars lib raw_df df out :
  clean_data lib raw_df df = Return out ->
  forall cells, In cells (rows out) ->
    exists s,
      at_label (columns out) "description" cells = CStr s /\
      Py.all_chars kept_char s.
Proof.
  intros H cells Hc. apply clean_data_returns in H as (_ & _ & ->).
  cbn [rows to_frame] in Hc. apply in_map_iff in Hc as (r & <- & Hr).
  apply cleaned_source in Hr as (src & _ & Hn).
  apply normalize_row_fields in Hn as (_ & Hd & _).
  rewrite clean_description_scrub in Hd. unfold scrub in Hd.
  eexists. split; [exact Hd|]. apply all_chars_filter.
Qed.

Lemma clean_data_description_chars_witness :
  clean_data Plain.lib (Some entity_frame) entity_frame = Return entity_cleaned /\
  forall cells, In cells (rows entity_cleaned) ->
    exists s,
      at_label (columns entity_cleaned) "description" cells = CStr s /\
      Py.all_chars kept_char s.
Proof.
  assert (H : clean_data Plain.lib (Some entity_frame) entity_frame
              = Return entity_cleaned) by (vm_compute; reflexivity).
  split; [exact H|].
  exact (clean_data_description_chars Plain.lib (Some entity_frame) entity_frame
           entity_cleaned H).
Defined.

(** ** Lines 48 to 51: the posted date *)

(** X7: the posted date is optional in the input.  A frame without that
    column is cleaned all the same; the result has the column
    [date_posted], and it is missing in every row. *)
Theorem clean_data_without_posted_dates lib raw_df df out :
  has_column (clean_labels (columns df)) "date_posted_str" = false ->
  clean_data lib raw_df df = Return out ->
  has_column (columns out) "date_posted" = true /\
  forall cells, In cells (rows out) ->
    at_label (columns out) "date_posted" cells = CNull.
Proof.
  intros Hno H. apply clean_data_returns in H as (_ & _ & ->).
  split; [reflexivity|]. intros cells Hc.
  cbn [rows to_frame] in Hc. apply in_map_iff in Hc as (r & <- & Hr).
  apply cleaned_source in Hr as (src & _ & Hn).
  unfold normalize_in in Hn. rewrite Hno in Hn.
  apply normalize_row_fields in Hn as (_ & _ & _ & Hp & _).
  exact Hp.
Qed.

Lemma clean_data_without_posted_dates_witness :
  has_column (clean_labels (columns no_posted_frame)) "date_posted_str" = false /\
  (exists out,
     clean_data Plain.lib (Some no_posted_frame) no_posted_frame = Return out /\
     rows out <> [] /\
     has_column (columns out) "date_posted" = true /\
     forall cells, In cells (rows out) ->
       at_label (columns out) "date_posted" cells = CNull).
Proof.
  assert (Hno : has_column (clean_labels (columns no_posted_frame))
                  "date_posted_str" = false) by (vm_compute; reflexivity).
  split; [exact Hno|].
  exists (to_frame (cleaned Plain.lib no_posted_frame)).
  assert (H : clean_data Plain.lib (Some no_posted_frame) no_posted_frame
              = Return (to_frame (cleaned Plain.lib no_posted_frame)))
    by (vm_compute; reflexivity).
  split; [exact H|]. split; [vm_compute; discriminate|].
  exact (clean_data_without_posted_dates Plain.lib (Some no_posted_frame)
           no_posted_frame _ Hno H).
Defined.

(** ** What [clean_data] raises *)

Lemma require_cases labels wanted :
  (require labels wanted = Return tt /\
   forall l, In l wanted -> has_column labels l = true) \/
  (exists missing,
     require labels wanted = Raise (KeyError missing) /\ missing <> [] /\
     forall l, In l missing -> In l wanted /\ has_column labels l = false).
Proof.
  unfold require.
  destruct (filter (fun l => negb (has_column labels l)) wanted) as [|m ms] eqn:E.
  - left. split; [reflexivity|]. intros l Hl.
    destruct (has_column labels l) eqn:Hc; [reflexivity|].
    assert (Hin : In l (filter (fun l => negb (has_column labels l)) wanted)).
    { apply filter_In. split; [exact Hl|]. rewrite Hc. reflexivity. }
    rewrite E in Hin. destruct Hin.
  - right. exists (m :: ms). split; [reflexivity|]. split; [discriminate|].
    intros l Hl. rewrite <- E in Hl. apply filter_In in Hl as [Hw Hc].
    split; [exact Hw|]. apply negb_true_iff, Hc.
Qed.

Lemma repeated_present labels l :
  has_column labels l = false -> repeated labels l = false.
Proof.
  unfold repeated, has_column.
  induction labels as [|l0 labels IH]; [reflexivity|].
  cbn [position filter]. rewrite (String.eqb_sym l l0).
  destruct (String.eqb l0 l); [discriminate|].
  destruct (position l labels); [discriminate|].
  intros _. apply IH. reflexivity.
Qed.

(** X8: what [clean_data] raises, and nothing else: a [KeyError] that names
    columns it needs and the frame does not have; for a label it reads and
    the frame has twice, and for timestamps that do not make one datetime
    column, what pandas raises at the line that reads the column; an
    [AttributeError] when the accessor of line 38 refuses the shape column
    or that of line 42 the description column; and the [NameError] for
    [raw_df], on a frame that got through every line before the report. *)
Theorem clean_data_raises lib raw_df df e :
  clean_data lib raw_df df = Raise e ->
  (exists missing,
     e = KeyError missing /\ missing <> [] /\
     forall l, In l missing ->
       In l required_columns /\ has_column (clean_labels (columns df)) l = false)
  \/ (exists l,
        In l read_columns /\ repeated (clean_labels (columns df)) l = true /\
        e = repeated_label lib l)
  \/ (mixed_offsets lib (map datetime (input_rows df)) = Some e /\
      datetimes_usable lib (input_rows df) = false)
  \/ (e = AttributeError /\
      (shapes_usable lib (input_rows df) = false \/
       descriptions_usable lib (input_rows df) = false))
  \/ (e = NameError "raw_df" /\ raw_df = None /\ passes lib df = true).
Proof.
  unfold clean_data. set (labels := clean_labels (columns df)).
  assert (Hkey : forall l, In l required_columns -> has_column labels l = false ->
            exists missing,
              KeyError [l] = KeyError missing /\ missing <> [] /\
              forall l', In l' missing ->
                In l' required_columns /\ has_column labels l' = false).
  { intros l Hl Hc. exists [l]. split; [reflexivity|]. split; [discriminate|].
    intros l' [<-|[]]. split; assumption. }
  assert (Hrep : forall l, In l read_columns -> repeated labels l = true ->
            exists l', In l' read_columns /\ repeated labels l' = true /\
                       repeated_label lib l = repeated_label lib l').
  { intros l Hl Hr. exists l. repeat split; assumption. }
  destruct (column_cases lib labels "datetime")
    as [(H1 & R1 & i1 & ->)|[(H1 & ->)|(H1 & R1 & ->)]];
    [|intros E; injection E as <-; left; apply Hkey; [cbn; tauto|exact H1]
     |intros E; injection E as <-; right; left; apply Hrep; [cbn; tauto|exact R1]].
  cbn [bind]. rewrite dt_accessor_usable.
  destruct (datetimes_usable lib (input_rows df)) eqn:Hd.
  2:{ destruct (mixed_offsets lib (map datetime (input_rows df))) as [e0|] eqn:Hm.
      - intros E; injection E as <-. right. right. left. split; reflexivity.
      - unfold datetimes_usable, dt_accessor in Hd. rewrite Hm in Hd.
        destruct (forallb (fun c => is_time c || isna c)
                    (map datetime (input_rows df))); discriminate. }
  cbn [bind].
  destruct (column_cases lib labels "latitude")
    as [(H2 & R2 & i2 & ->)|[(H2 & ->)|(H2 & R2 & ->)]];
    [|intros E; injection E as <-; left; apply Hkey; [cbn; tauto|exact H2]
     |intros E; injection E as <-; right; left; apply Hrep; [cbn; tauto|exact R2]].
  destruct (column_cases lib labels "longitude")
    as [(H3 & R3 & i3 & ->)|[(H3 & ->)|(H3 & R3 & ->)]];
    [|intros E; injection E as <-; left; apply Hkey; [cbn; tauto|exact H3]
     |intros E; injection E as <-; right; left; apply Hrep; [cbn; tauto|exact R3]].
  destruct (column_cases lib labels "shape")
    as [(H4 & R4 & i4 & ->)|[(H4 & ->)|(H4 & R4 & ->)]];
    [|intros E; injection E as <-; left; apply Hkey; [cbn; tauto|exact H4]
     |intros E; injection E as <-; right; left; apply Hrep; [cbn; tauto|exact R4]].
  cbn [bind]. rewrite lines_24_38_usable.
  destruct (shapes_usable lib (input_rows df)) eqn:Hu;
    [|intros E; injection E as <-; do 3 right; left;
      split; [reflexivity|left; reflexivity]].
  cbn [bind].
  destruct (column_cases lib labels "description")
    as [(H5 & R5 & i5 & ->)|[(H5 & ->)|(H5 & R5 & ->)]];
    [|intros E; injection E as <-; left; apply Hkey; [cbn; tauto|exact H5]
     |intros E; injection E as <-; right; left; apply Hrep; [cbn; tauto|exact R5]].
  cbn [bind]. rewrite line42_usable.
  destruct (descriptions_usable lib (input_rows df)) eqn:Hw;
    [|intros E; injection E as <-; do 3 right; left;
      split; [reflexivity|right; reflexivity]].
  cbn [bind].
  destruct (column_cases lib labels "duration_s")
    as [(H6 & R6 & i6 & ->)|[(H6 & ->)|(H6 & R6 & ->)]];
    [|intros E; injection E as <-; left; apply Hkey; [cbn; tauto|exact H6]
     |intros E; injection E as <-; right; left; apply Hrep; [cbn; tauto|exact R6]].
  cbn [bind]. rewrite column_if_present_cases.
  destruct (has_column labels "date_posted_str") eqn:H0;
    destruct (repeated labels "date_posted_str") eqn:R7; cbn [andb bind];
    try (intros E; injection E as <-; right; left; apply Hrep;
         [cbn; tauto|exact R7]).
  all: try (rewrite (repeated_present _ _ H0) in R7; discriminate).
  all: destruct (require_cases labels ["city"; "state"; "country"])
         as [[-> H7]|(missing & -> & Hne & Hm)]; cbn [bind].
  all: try (intros E; injection E as <-; left;
            exists missing; split; [reflexivity|]; split; [exact Hne|];
            intros l Hl; destruct (Hm l Hl) as [Hin Hc]; split; [|exact Hc];
            cbn in Hin |- *; tauto).
  all: destruct raw_df; [discriminate|];
       intros E; injection E as <-; do 4 right;
       split; [reflexivity|]; split; [reflexivity|];
       unfold passes; rewrite Hd, Hu, Hw, !andb_true_r;
       unfold schema_ok, required_columns, read_columns; fold labels;
       cbn [forallb];
       rewrite H1, H2, H3, H4, H5, H6, R1, R2, R3, R4, R5, R6, R7;
       rewrite !H7 by (cbn; tauto); reflexivity.
Qed.

Lemma clean_data_raises_witness :
  clean_data Plain.lib (Some twice_labelled) twice_labelled
  = Raise (repeated_label Plain.lib "latitude") /\
  ((exists missing,
      repeated_label Plain.lib "latitude" = KeyError missing /\ missing <> [] /\
      forall l, In l missing ->
        In l required_columns /\
        has_column (clean_labels (columns twice_labelled)) l = false)
   \/ (exists l,
         In l read_columns /\
         repeated (clean_labels (columns twice_labelled)) l = true /\
         repeated_label Plain.lib "latitude" = repeated_label Plain.lib l)
   \/ (mixed_offsets Plain.lib (map datetime (input_rows twice_labelled))
       = Some (repeated_label Plain.lib "latitude") /\
       datetimes_usable Plain.lib (input_rows twice_labelled) = false)
   \/ (repeated_label Plain.lib "latitude" = AttributeError /\
       (shapes_usable Plain.lib (input_rows twice_labelled) = false \/
        descriptions_usable Plain.lib (input_rows twice_labelled) = false))
   \/ (repeated_label Plain.lib "latitude" = NameError "raw_df" /\
       Some twice_labelled = None /\
       passes Plain.lib twice_labelled = true)).
Proof.
  assert (H : clean_data Plain.lib (Some twice_labelled) twice_labelled
              = Raise (repeated_label Plain.lib "latitude"))
    by (vm_compute; reflexivity).
  split; [exact H|].
  exact (clean_data_raises Plain.lib (Some twice_labelled) twice_labelled _ H).
Defined.

(** Each of the ways is taken. *)
Example clean_data_raises_each :
  clean_data Plain.lib (Some places_missing) places_missing
  = Raise (KeyError ["state"; "country"]) /\
  clean_data Plain.lib (Some numbers_for_shapes) numbers_for_shapes
  = Raise AttributeError /\
  clean_data Plain.lib (Some no_text_no_row) no_text_no_row
  = Raise AttributeError /\
  shapes_usable Plain.lib (input_rows no_text_no_row) = true /\
  clean_data Plain.lib None mixed_frame = Raise (NameError "raw_df").
Proof. repeat split; vm_compute; reflexivity. Qed.

(** ** Further passes *)

Lemma clean_shape_twice c : is_str (clean_shape (clean_shape c)) = true.
Proof. destruct c; reflexivity. Qed.

(** X9: a frame that [clean_data] returned is never refused by [clean_data],
    and from the second pass on nothing changes: the second pass may still
    trim descriptions, fill shapes and merge rows, the third returns what
    the second returned. *)
Theorem clean_data_settles lib raw_df df once :
  clean_data lib raw_df df = Return once ->
  exists twice,
    clean_data lib raw_df once = Return twice /\
    clean_data lib raw_df twice = Return twice.
Proof.
  intros H. apply clean_data_returns in H as (_ & Hraw & ->).
  destruct raw_df as [raw|]; [clear Hraw|congruence].
  set (once := to_frame (cleaned lib df)).
  exists (to_frame (cleaned lib once)). split.
  - rewrite clean_data_accepted; [reflexivity|apply cleaned_accepted].
  - rewrite clean_data_accepted by apply cleaned_accepted.
    f_equal. rewrite cleaned_fixed; [apply to_frame_restamp|].
    intros r2 Hr2.
    apply cleaned_source in Hr2 as (src2 & Hsrc2 & Hn2).
    unfold once in Hsrc2. rewrite input_rows_to_frame in Hsrc2.
    apply in_map_iff in Hsrc2 as (r & <- & Hr).
    apply cleaned_source in Hr as (src & _ & Hn).
    apply normalize_row_fields in Hn as (Hshape & Hdesc & _).
    apply normalize_row_fields in Hn2 as (Hshape2 & Hdesc2 & _).
    change (shape (refeed r)) with (shape r) in Hshape2.
    change (description (refeed r)) with (description r) in Hdesc2.
    split.
    + rewrite clean_description_scrub in Hdesc. unfold scrub in Hdesc.
      rewrite Hdesc in Hdesc2.
      rewrite (clean_description_again lib (description src)) in Hdesc2
        by (rewrite clean_description_scrub; reflexivity).
      eexists. split; [exact Hdesc2|]. apply strip_idem.
    + rewrite Hshape2, Hshape. intros E.
      pose proof (clean_shape_twice (shape src)) as Hs. rewrite E in Hs.
      discriminate.
Qed.

Lemma clean_data_settles_witness :
  clean_data Plain.lib (Some hash_frame) hash_frame = Return hash_once /\
  exists twice,
    clean_data Plain.lib (Some hash_frame) hash_once = Return twice /\
    clean_data Plain.lib (Some hash_frame) twice = Return twice.
Proof.
  assert (H : clean_data Plain.lib (Some hash_frame) hash_frame = Return hash_once)
    by (vm_compute; reflexivity).
  split; [exact H|].
  exact (clean_data_settles Plain.lib (Some hash_frame) hash_frame hash_once H).
Defined.

(** ** The batch run, when it completes *)

Lemma report_not_completed e : report e <> Completed.
Proof. destruct e; discriminate. Qed.

(** X10: the run completes exactly when the input was read and cleaned and
    both writes went through; the export file and the table [sightings] then
    hold the same cleaned frame, whatever the disk held before. *)
Theorem main_completed lib env d :
  fst (main lib env d) = Completed <->
  exists raw_df out,
    read_csv env = Return raw_df /\
    clean_data lib (Some raw_df) raw_df = Return out /\
    to_csv_outcome env = Written /\ to_sql_outcome env = Written /\
    snd (main lib env d) = mkDisk (Some out) (Some out).
Proof.
  split.
  - unfold main.
    destruct (read_csv env) as [raw_df|e] eqn:Hread.
    + destruct (clean_data lib (Some raw_df) raw_df) as [out|e] eqn:Hclean.
      * rewrite (preprocess_writes lib env d raw_df out Hread Hclean).
        destruct (to_csv_outcome env) as [|e1 r1];
          [|cbn [fst]; intros H; destruct (report_not_completed _ H)].
        destruct (to_sql_outcome env) as [|e2 r2];
          [|cbn [fst]; intros H; destruct (report_not_completed _ H)].
        intros _. exists raw_df, out.
        split; [reflexivity|]. split; [exact Hclean|]. repeat split.
      * rewrite (preprocess_clean_fails lib env d raw_df e Hread Hclean).
        cbn [fst]. intros H. destruct (report_not_completed _ H).
    + rewrite (preprocess_read_fails lib env d e Hread).
      cbn [fst]. intros H. destruct (report_not_completed _ H).
  - intros (raw_df & out & Hread & Hclean & Hcsv & Hsql & _).
    unfold main. rewrite (preprocess_writes lib env d raw_df out Hread Hclean).
    rewrite Hcsv, Hsql. reflexivity.
Qed.

(** A second run over the same input leaves what the first left. *)
Example main_again :
  snd (main Plain.lib fair_weather (snd (main Plain.lib fair_weather earlier_disk)))
  = snd (main Plain.lib fair_weather earlier_disk)
  /\ snd (main Plain.lib fair_weather earlier_disk)
     = mkDisk (Some mixed_cleaned) (Some mixed_cleaned).
Proof. split; vm_compute; reflexivity. Qed.

(** ** Places *)

(** X11: [clean_data] leaves the place of a sighting as it finds it: city,
    state and country of every returned row are those of a valid input row,
    cell for cell, neither trimmed nor lower-cased nor filled in. *)
Theorem clean_data_places_untouched lib raw_df df out :
  clean_data lib raw_df df = Return out ->
  forall cells, In cells (rows out) ->
    exists src,
      In src (input_rows df) /\ valid_in lib df src = true /\
      at_label (columns out) "city" cells = city src /\
      at_label (columns out) "state" cells = state src /\
      at_label (columns out) "country" cells = country src.
Proof.
  intros H cells Hc. apply clean_data_returns in H as (_ & _ & ->).
  cbn [rows to_frame] in Hc. apply in_map_iff in Hc as (r & <- & Hr).
  apply cleaned_source in Hr as (src & Hsrc & Hn).
  exists src. split; [exact Hsrc|]. split.
  - apply (normalize_row_some_valid _ _ _ _ _ _ Hn).
  - apply normalize_row_fields in Hn as (_ & _ & _ & _ & H1 & H2 & H3).
    repeat split; assumption.
Qed.

Lemma clean_data_places_untouched_witness :
  clean_data Plain.lib (Some mixed_frame) mixed_frame = Return mixed_cleaned /\
  forall cells, In cells (rows mixed_cleaned) ->
    exists src,
      In src (input_rows mixed_frame) /\
      valid_in Plain.lib mixed_frame src = true /\
      at_label (columns mixed_cleaned) "city" cells = city src /\
      at_label (columns mixed_cleaned) "state" cells = state src /\
      at_label (columns mixed_cleaned) "country" cells = country src.
Proof.
  assert (H : clean_data Plain.lib (Some mixed_frame) mixed_frame
              = Return mixed_cleaned) by (vm_compute; reflexivity).
  split; [exact H|].
  exact (clean_data_places_untouched Plain.lib (Some mixed_frame) mixed_frame
           mixed_cleaned H).
Defined.

(** * Properties of [app.py] *)

(** ** The year slider *)

Lemma fold_min_spec y ys :
  In (fold_right Z.min y ys) (y :: ys) /\
  forall x, In x (y :: ys) -> (fold_right Z.min y ys <= x)%Z.
Proof.
  induction ys as [|z ys [Hin Hle]]; cbn [fold_right].
  - split; [left; reflexivity|]. intros x [<-|[]]. lia.
  - split.
    + destruct (Z.min_spec z (fold_right Z.min y ys)) as [[_ ->]|[_ ->]].
      * right; left; reflexivity.
      * destruct Hin as [H|H]; [left; exact H|right; right; exact H].
    + intros x [<-|[<-|Hx]].
      * specialize (Hle y (or_introl eq_refl)). lia.
      * lia.
      * specialize (Hle x (or_intror Hx)). lia.
Qed.

Lemma fold_max_spec y ys :
  In (fold_right Z.max y ys) (y :: ys) /\
  forall x, In x (y :: ys) -> (x <= fold_right Z.max y ys)%Z.
Proof.
  induction ys as [|z ys [Hin Hle]]; cbn [fold_right].
  - split; [left; reflexivity|]. intros x [<-|[]]. lia.
  - split.
    + destruct (Z.max_spec z (fold_right Z.max y ys)) as [[_ ->]|[_ ->]].
      * destruct Hin as [H|H]; [left; exact H|right; right; exact H].
      * right; left; reflexivity.
    + intros x [<-|[<-|Hx]].
      * specialize (Hle y (or_introl eq_refl)). lia.
      * lia.
      * specialize (Hle x (or_intror Hx)). lia.
Qed.

Lemma year_bounds_within df bounds :
  year_bounds df = Return bounds ->
  forall r, In r df -> (fst bounds <= s_year r <= snd bounds)%Z.
Proof.
  unfold year_bounds. destruct df as [|r0 df]; [discriminate|]. cbn [map].
  intros H. injection H as <-. cbn [fst snd]. intros r Hr.
  destruct (fold_min_spec (s_year r0) (map s_year df)) as [_ Hle].
  destruct (fold_max_spec (s_year r0) (map s_year df)) as [_ Hge].
  change (s_year r0 :: map s_year df) with (map s_year (r0 :: df)) in *.
  split; [apply Hle|apply Hge]; apply in_map, Hr.
Qed.

(** X12: on a table without rows the script stops at line 52 with a
    [ValueError]; on any other table the bounds of the slider are years of
    the table, and the year of every sighting lies between them. *)
Theorem year_bounds_span df :
  (df = [] ->
   year_bounds df = Raise (OtherError "cannot convert float NaN to integer")) /\
  (df <> [] ->
   exists lo hi,
     year_bounds df = Return (lo, hi) /\
     (forall r, In r df -> (lo <= s_year r <= hi)%Z) /\
     (exists r, In r df /\ s_year r = lo) /\
     (exists r, In r df /\ s_year r = hi)).
Proof.
  split; [intros ->; reflexivity|].
  destruct df as [|r0 df]; [congruence|]. intros _.
  unfold year_bounds. cbn [map].
  destruct (fold_min_spec (s_year r0) (map s_year df)) as [Hmin Hle].
  destruct (fold_max_spec (s_year r0) (map s_year df)) as [Hmax Hge].
  eexists _, _. split; [reflexivity|].
  change (s_year r0 :: map s_year df) with (map s_year (r0 :: df)) in *.
  split; [|split].
  - intros r Hr. split; [apply Hle|apply Hge]; apply in_map, Hr.
  - apply in_map_iff in Hmin as (r & E & Hr). exists r. split; assumption.
  - apply in_map_iff in Hmax as (r & E & Hr). exists r. split; assumption.
Qed.

(** ** The selections *)

Lemma filter_all {A : Type} (p : A -> bool) (l : list A) :
  (forall a, In a l -> p a = true) -> filter p l = l.
Proof.
  induction l as [|a l IH]; intros H; [reflexivity|]. cbn [filter].
  rewrite (H a (or_introl eq_refl)), IH; [reflexivity|].
  intros b Hb. apply H. right. exact Hb.
Qed.

Lemma filter_both {A : Type} (p q : A -> bool) (l : list A) :
  filter q (filter p l) = filter (fun a => p a && q a) l.
Proof.
  induction l as [|a l IH]; [reflexivity|]. cbn [filter].
  destruct (p a); cbn [filter andb]; rewrite IH; reflexivity.
Qed.

Lemma year_filter_filter year_range df :
  year_filter year_range df = filter (in_years year_range) df.
Proof. apply select_mask_map. Qed.

Lemma multiselect_filter_chosen col selected df :
  multiselect_filter col selected df = filter (fun r => chosen selected (col r)) df.
Proof.
  unfold multiselect_filter, chosen. destruct (is_nil selected); cbn [orb].
  - symmetry. apply filter_all. reflexivity.
  - apply select_mask_map.
Qed.

(** Lines 68 to 87 as filters. *)
Lemma filtered_df_steps beyond ch df :
  filtered_df beyond ch df =
  let by_country :=
    filter (fun r => in_years (year_range ch) r
                     && chosen (selected_countries ch) (s_country r)) df in
  keyword_filter beyond (keyword ch)
    (filter (fun r => chosen (selected_shapes ch) (s_shape r))
       (if state_filter_offered (selected_countries ch) by_country
        then filter (fun r => chosen (selected_states ch) (s_state r)) by_country
        else by_country)).
Proof.
  unfold filtered_df.
  rewrite year_filter_filter, !multiselect_filter_chosen, !filter_both.
  reflexivity.
Qed.

(** X13: the steps of lines 68 to 87 amount to one pass over the table that
    keeps, in the order of the table, the sightings that meet every
    criterion set; the keyword is then looked for in these.  The states
    count only where their selection was offered. *)
Theorem filtered_df_meets beyond ch df :
  filtered_df beyond ch df =
  keyword_filter beyond (keyword ch)
    (filter
       (meets ch
          (state_filter_offered (selected_countries ch)
             (filter (fun r => in_years (year_range ch) r
                               && chosen (selected_countries ch) (s_country r))
                df)))
       df).
Proof.
  rewrite filtered_df_steps. cbv zeta. f_equal.
  destruct (state_filter_offered (selected_countries ch)
              (filter (fun r => in_years (year_range ch) r
                                && chosen (selected_countries ch) (s_country r))
                 df)).
  - rewrite !filter_both. apply filter_ext. intros r. unfold meets.
    cbn [negb orb]. rewrite !andb_assoc. reflexivity.
  - rewrite filter_both. apply filter_ext. intros r. unfold meets.
    cbn [negb orb]. rewrite andb_true_r. reflexivity.
Qed.

(** X14: with the controls as the page first shows them (the slider on the
    bounds of the table, nothing selected, no keyword) every sighting of the
    table is shown. *)
Theorem filtered_df_default beyond df bounds :
  year_bounds df = Return bounds ->
  filtered_df beyond (mkChoices bounds [] [] [] EmptyString) df = Return df.
Proof.
  intros Hb. rewrite filtered_df_steps. cbv zeta.
  cbn [year_range selected_countries selected_states selected_shapes keyword].
  unfold keyword_filter. cbn [Py.is_empty]. f_equal.
  assert (Hy : filter (fun r => in_years bounds r && chosen [] (s_country r)) df = df).
  { apply filter_all. intros r Hr. unfold chosen. cbn [is_nil orb].
    rewrite andb_true_r.
    destruct (year_bounds_within df bounds Hb r Hr) as [Hlo Hhi].
    unfold in_years. apply andb_true_iff. split; apply Z.leb_le; assumption. }
  rewrite Hy.
  assert (Ha : forall col : Sighting -> option string,
            filter (fun r => chosen [] (col r)) df = df).
  { intros col. apply filter_all. reflexivity. }
  destruct (state_filter_offered [] df); rewrite !Ha; reflexivity.
Qed.

Lemma filtered_df_default_witness :
  year_bounds table = Return (1999, 2004)%Z /\
  filtered_df Plain.beyond (mkChoices (1999, 2004)%Z [] [] [] EmptyString) table
  = Return table.
Proof.
  assert (H : year_bounds table = Return (1999, 2004)%Z) by reflexivity.
  split; [exact H|].
  exact (filtered_df_default Plain.beyond table (1999, 2004)%Z H).
Defined.

(** Two selections and a keyword at once. *)
Example filtered_df_narrowed :
  filtered_df Plain.beyond
    (mkChoices (2000, 2004)%Z ["us"; "CA"] [] ["light"] "bright") table
  = Return [mkSighting 2004 (Some "austin") (Some "tx") (Some "us") (Some "light")
              (Some "A bright LIGHT")].
Proof. vm_compute. reflexivity. Qed.

(** ** What a selection offers *)

Lemma keep_some_In {A : Type} (l : list (option A)) (a : A) :
  In a (keep_some l) <-> In (Some a) l.
Proof.
  induction l as [|[b|] l IH]; cbn [keep_some In].
  - reflexivity.
  - rewrite IH. split; intros [H|H]; auto; left; congruence.
  - rewrite IH. split; [auto|]. intros [H|H]; [discriminate|exact H].
Qed.

Section Unique.

Context {A : Type} (eqb : A -> A -> bool).
Hypothesis eqb_eq : forall a b, eqb a b = true <-> a = b.

Lemma seen_In (a : A) (seen : list A) : existsb (eqb a) seen = true <-> In a seen.
Proof.
  rewrite existsb_exists. split.
  - intros (b & Hb & E). apply eqb_eq in E. subst. exact Hb.
  - intros H. exists a. split; [exact H|]. apply eqb_eq. reflexivity.
Qed.

Lemma unique_from_In (seen l : list A) (a : A) :
  In a (unique_from eqb seen l) <-> In a l /\ ~ In a seen.
Proof.
  revert seen. induction l as [|b l IH]; intros seen; cbn [unique_from In].
  - tauto.
  - destruct (existsb (eqb b) seen) eqn:E.
    + apply seen_In in E. rewrite IH. split.
      * intros [H1 H2]. auto.
      * intros [[<-|H1] H2]; [contradiction|auto].
    + assert (Hb : ~ In b seen).
      { intros H. apply seen_In in H. congruence. }
      cbn [In]. rewrite IH. cbn [In]. split.
      * intros [<-|[H1 H2]]; [auto|]. split; [auto|]. intros H. apply H2. auto.
      * intros [[<-|H1] H2]; [auto|].
        destruct (eqb b a) eqn:Eba.
        -- apply eqb_eq in Eba. auto.
        -- right. split; [exact H1|]. intros [<-|H]; [|contradiction].
           assert (eqb b b = true) by (apply eqb_eq; reflexivity). congruence.
Qed.

Lemma unique_from_NoDup (seen l : list A) : NoDup (unique_from eqb seen l).
Proof.
  revert seen. induction l as [|b l IH]; intros seen; cbn [unique_from].
  - constructor.
  - destruct (existsb (eqb b) seen); [apply IH|].
    constructor; [|apply IH].
    intros H. apply unique_from_In in H as [_ H]. apply H. left. reflexivity.
Qed.

Lemma unique_In (l : list A) (a : A) : In a (unique eqb l) <-> In a l.
Proof. unfold unique. rewrite unique_from_In. cbn [In]. tauto. Qed.

Lemma unique_NoDup (l : list A) : NoDup (unique eqb l).
Proof. apply unique_from_NoDup. Qed.

End Unique.

Section InsertionSort.

Context {A : Type} (leb : A -> A -> bool).

Lemma insort_perm (a : A) (l : list A) : Permutation (insort leb a l) (a :: l).
Proof.
  induction l as [|b l IH]; cbn [insort]; [reflexivity|].
  destruct (leb a b); [reflexivity|].
  rewrite IH. apply perm_swap.
Qed.

Lemma sorted_perm (l : list A) : Permutation (sorted leb l) l.
Proof.
  induction l as [|a l IH]; cbn [sorted fold_right]; [reflexivity|].
  fold (sorted leb l). rewrite insort_perm, IH. reflexivity.
Qed.

Lemma sorted_In (l : list A) (a : A) : In a (sorted leb l) <-> In a l.
Proof.
  split; apply Permutation_in; [|symmetry]; apply sorted_perm.
Qed.

Hypothesis leb_total : forall a b, leb a b = false -> leb b a = true.

Lemma insort_Sorted (a : A) (l : list A) :
  Sorted (fun x y => leb x y = true) l ->
  Sorted (fun x y => leb x y = true) (insort leb a l).
Proof.
  induction l as [|b l IH]; intros Hs; cbn [insort].
  - repeat constructor.
  - destruct (leb a b) eqn:E.
    + constructor; [exact Hs|]. constructor. exact E.
    + apply Sorted_inv in Hs as [Hs Hhd]. constructor; [apply IH, Hs|].
      destruct l as [|c l]; cbn [insort].
      * constructor. apply leb_total, E.
      * destruct (leb a c); constructor.
        -- apply leb_total, E.
        -- apply HdRel_inv in Hhd. exact Hhd.
Qed.

Lemma sorted_Sorted (l : list A) :
  Sorted (fun x y => leb x y = true) (sorted leb l).
Proof.
  induction l as [|a l IH]; cbn [sorted fold_right]; [constructor|].
  apply insort_Sorted, IH.
Qed.

End InsertionSort.

Lemma string_eqb_eq (a b : string) : String.eqb a b = true <-> a = b.
Proof. apply String.eqb_eq. Qed.

Lemma string_leb_total (a b : string) :
  String.leb a b = false -> String.leb b a = true.
Proof.
  intros H. destruct (String.leb_total a b) as [E|E]; [congruence|exact E].
Qed.

Lemma string_leb_ltb (a b : string) :
  String.leb a b = true -> a <> b -> String.ltb a b = true.
Proof.
  unfold String.leb, String.ltb. intros H Hne.
  destruct (String.compare a b) eqn:E; [|reflexivity|discriminate].
  apply String.compare_eq_iff in E. contradiction.
Qed.

Lemma Sorted_strict (l : list string) :
  NoDup l -> Sorted (fun a b => String.leb a b = true) l ->
  Sorted (fun a b => String.ltb a b = true) l.
Proof.
  induction l as [|a l IH]; intros Hn Hs; [constructor|].
  apply NoDup_cons_iff in Hn as [Ha Hn].
  apply Sorted_inv in Hs as [Hs Hhd].
  constructor; [apply IH; assumption|].
  destruct l as [|b l]; constructor.
  apply HdRel_inv in Hhd. apply string_leb_ltb; [exact Hhd|].
  intros ->. apply Ha. left. reflexivity.
Qed.

Lemma options_In col df c :
  In c (options col df) <-> exists r, In r df /\ col r = Some c.
Proof.
  unfold options.
  rewrite sorted_In, (unique_In String.eqb string_eqb_eq), keep_some_In, in_map_iff.
  split; intros (r & H1 & H2); exists r; auto.
Qed.

(** X15: what a selection offers are the values of its column in the table
    at hand, the missing ones left out: each value once, in strictly
    ascending order. *)
Theorem options_sorted_values col df :
  Sorted (fun a b => String.ltb a b = true) (options col df) /\
  NoDup (options col df) /\
  forall c, In c (options col df) <-> exists r, In r df /\ col r = Some c.
Proof.
  assert (Hn : NoDup (options col df)).
  { unfold options. eapply Permutation_NoDup.
    - symmetry. apply sorted_perm.
    - apply (unique_NoDup String.eqb string_eqb_eq). }
  split; [|split; [exact Hn|apply options_In]].
  apply Sorted_strict; [exact Hn|].
  apply sorted_Sorted, string_leb_total.
Qed.

Lemma isin_In selected c :
  isin selected c = true <-> exists s, c = Some s /\ In s selected.
Proof.
  unfold isin. destruct c as [s|].
  - rewrite (seen_In String.eqb string_eqb_eq). split.
    + intros H. exists s. auto.
    + intros (s' & E & H). injection E as ->. exact H.
  - split; [discriminate|]. intros (s & E & _). discriminate.
Qed.

(** X16: selecting every value offered is not selecting none: as soon as
    the column has a value at all, the sightings that lack one are left
    out, while with nothing selected they are shown. *)
Theorem multiselect_all_offered col df :
  options col df <> [] ->
  multiselect_filter col (options col df) df
  = filter (fun r => match col r with Some _ => true | None => false end) df
  /\ multiselect_filter col [] df = df.
Proof.
  intros Hne. split; [|reflexivity].
  unfold multiselect_filter.
  destruct (options col df) as [|o os] eqn:E; [congruence|]. cbn [is_nil].
  rewrite select_mask_map. apply filter_ext_in. intros r Hr.
  destruct (col r) as [c|] eqn:Ec; [|reflexivity].
  apply isin_In. exists c. split; [reflexivity|].
  rewrite <- E. apply options_In. exists r. auto.
Qed.

Lemma multiselect_all_offered_witness :
  options s_country table <> [] /\
  multiselect_filter s_country (options s_country table) table
  = filter (fun r => match s_country r with Some _ => true | None => false end)
      table /\
  multiselect_filter s_country [] table = table.
Proof.
  assert (H : options s_country table <> []) by (vm_compute; discriminate).
  split; [exact H|].
  exact (multiselect_all_offered s_country table H).
Defined.

Example options_of_table :
  options s_country table = ["CA"; "us"] /\
  List.length (multiselect_filter s_country (options s_country table) table) = 2%nat.
Proof. split; vm_compute; reflexivity. Qed.

(** ** A selection made from what is offered *)

(** X17: a selection made from the values offered never empties the table:
    every selected value has a sighting among those kept. *)
Theorem multiselect_offered_kept col selected df s :
  (forall v, In v selected -> In v (options col df)) ->
  In s selected ->
  exists r, In r (multiselect_filter col selected df) /\ col r = Some s.
Proof.
  intros Hsub Hs.
  destruct (proj1 (options_In col df s) (Hsub s Hs)) as (r & Hr & Hc).
  exists r. split; [|exact Hc].
  rewrite multiselect_filter_chosen. apply filter_In. split; [exact Hr|].
  unfold chosen. rewrite Hc. apply orb_true_iff. right.
  apply isin_In. exists s. auto.
Qed.

Lemma multiselect_offered_kept_witness :
  (forall v, In v ["us"] -> In v (options s_country table)) /\
  In "us" ["us"] /\
  exists r, In r (multiselect_filter s_country ["us"] table)
            /\ s_country r = Some "us".
Proof.
  assert (H : forall v, In v ["us"] -> In v (options s_country table)).
  { intros v [<-|[]]. vm_compute. right. left. reflexivity. }
  split; [exact H|]. split; [left; reflexivity|].
  exact (multiselect_offered_kept s_country ["us"] table "us" H
           (or_introl eq_refl)).
Defined.

(** ** The statistics *)

Section Counts.

Context {A : Type} (eqb : A -> A -> bool).
Hypothesis eqb_eq : forall a b, eqb a b = true <-> a = b.

Lemma count_of_pos (v : A) (l : list A) : In v l <-> (0 < count_of eqb v l)%nat.
Proof.
  unfold count_of. induction l as [|a l IH]; cbn [filter In List.length].
  - split; [intros []|lia].
  - destruct (eqb v a) eqn:E; cbn [List.length].
    + apply eqb_eq in E. split; [lia|auto].
    + rewrite <- IH. split; [|auto]. intros [<-|H]; [|exact H].
      assert (eqb a a = true) by (apply eqb_eq; reflexivity). congruence.
Qed.

Lemma tally_In (l : list A) (v : A) (n : nat) :
  In (v, n) (tally eqb l) <-> (0 < n)%nat /\ n = count_of eqb v l.
Proof.
  unfold tally. rewrite in_map_iff. split.
  - intros (w & E & Hw). injection E as -> <-.
    split; [|reflexivity].
    apply count_of_pos, (proj1 (unique_In eqb eqb_eq l v) Hw).
  - intros [Hpos ->]. exists v. split; [reflexivity|].
    apply (proj2 (unique_In eqb eqb_eq l v)), count_of_pos, Hpos.
Qed.

Lemma tally_keys (l : list A) : map fst (tally eqb l) = unique eqb l.
Proof. unfold tally. rewrite map_map. apply map_id. Qed.

Lemma tally_NoDup (l : list A) : NoDup (map fst (tally eqb l)).
Proof. rewrite tally_keys. apply (unique_NoDup eqb eqb_eq). Qed.

Variable by_count : list (A * nat) -> list (A * nat).
Hypothesis by_count_perm : forall l, Permutation (by_count l) l.

Lemma value_counts_In (series : list (option A)) (v : A) (n : nat) :
  In (v, n) (value_counts eqb by_count series)
  <-> (0 < n)%nat /\ n = count_of eqb v (keep_some series).
Proof.
  unfold value_counts. rewrite <- tally_In. split; apply Permutation_in.
  - apply by_count_perm.
  - symmetry. apply by_count_perm.
Qed.

Lemma value_counts_NoDup (series : list (option A)) :
  NoDup (map fst (value_counts eqb by_count series)).
Proof.
  unfold value_counts. eapply Permutation_NoDup; [|apply tally_NoDup].
  apply Permutation_map. symmetry. apply by_count_perm.
Qed.

End Counts.

Lemma keep_some_all {A B : Type} (f : A -> B) (l : list A) :
  keep_some (map (fun a => Some (f a)) l) = map f l.
Proof.
  induction l as [|a l IH]; cbn [map keep_some]; [reflexivity|].
  rewrite IH. reflexivity.
Qed.

Lemma StronglySorted_strict (l : list (Z * nat)) :
  NoDup (map fst l) ->
  Sorted (fun a b => (fst a <=? fst b)%Z = true) l ->
  StronglySorted (fun a b => (fst a < fst b)%Z) l.
Proof.
  intros Hn Hs. apply Sorted_StronglySorted in Hs.
  - induction Hs as [|a l Hs IH Ha]; [constructor|].
    cbn [map] in Hn. apply NoDup_cons_iff in Hn as [Hnot Hn].
    constructor; [apply IH, Hn|].
    apply Forall_forall. intros b Hb.
    rewrite Forall_forall in Ha. specialize (Ha b Hb). apply Z.leb_le in Ha.
    assert (fst a <> fst b).
    { intros E. apply Hnot. rewrite E. apply in_map, Hb. }
    lia.
  - intros x y z Hxy Hyz. apply Z.leb_le in Hxy, Hyz. apply Z.leb_le. lia.
Qed.

Lemma Z_eqb_eq (a b : Z) : Z.eqb a b = true <-> a = b.
Proof. apply Z.eqb_eq. Qed.

(** X18: the rows of the timeline are the years of the sightings shown,
    each once and in strictly ascending order, each with the number of
    sightings of that year, whatever order [value_counts] gave them. *)
Theorem yearly_counts_by_year by_count df :
  (forall l, Permutation (by_count l) l) ->
  StronglySorted (fun a b => (fst a < fst b)%Z) (yearly_counts by_count df) /\
  forall y n,
    In (y, n) (yearly_counts by_count df)
    <-> (0 < n)%nat /\ n = count_of Z.eqb y (map s_year df).
Proof.
  intros Hperm. unfold yearly_counts. split.
  - apply StronglySorted_strict.
    + eapply Permutation_NoDup;
        [|apply (value_counts_NoDup Z.eqb Z_eqb_eq by_count Hperm)].
      apply Permutation_map. symmetry. apply sorted_perm.
    + apply sorted_Sorted. intros a b H.
      apply Z.leb_gt in H. apply Z.leb_le. lia.
  - intros y n. rewrite sorted_In.
    rewrite (value_counts_In Z.eqb Z_eqb_eq by_count Hperm).
    rewrite keep_some_all. reflexivity.
Qed.

Lemma by_count_stable_perm {A : Type} (l : list (A * nat)) :
  Permutation (by_count_stable l) l.
Proof. apply sorted_perm. Qed.

Lemma by_count_stable_sorted {A : Type} (l : list (A * nat)) :
  StronglySorted (fun a b => (snd b <=? snd a)%nat = true) (by_count_stable l).
Proof.
  apply Sorted_StronglySorted.
  - intros x y z Hxy Hyz. apply Nat.leb_le in Hxy, Hyz. apply Nat.leb_le. lia.
  - apply sorted_Sorted. intros a b H.
    apply Nat.leb_gt in H. apply Nat.leb_le. lia.
Qed.

Lemma StronglySorted_app_inv {A : Type} (R : A -> A -> Prop) (l1 l2 : list A) :
  StronglySorted R (l1 ++ l2) ->
  forall x y, In x l1 -> In y l2 -> R x y.
Proof.
  induction l1 as [|a l1 IH]; intros Hs x y Hx Hy; [destruct Hx|].
  cbn [app] in Hs. apply StronglySorted_inv in Hs as [Hs Ha].
  destruct Hx as [<-|Hx].
  - rewrite Forall_forall in Ha. apply Ha, in_or_app. right. exact Hy.
  - apply IH; assumption.
Qed.

(** X19: a chart of the ten most frequent values shows what it says.  It
    has ten bars, or as many as the column has values when these are fewer;
    no value has two bars; each bar has the number of sightings with that
    value; and no value left out occurs more often than a value shown.
    Sightings that lack the value are not counted. *)
Theorem top_counts_top by_count col df :
  (forall l, Permutation (by_count l) l) ->
  (forall l, StronglySorted (fun a b => (snd b <=? snd a)%nat = true) (by_count l)) ->
  List.length (top_counts by_count col df)
  = Nat.min 10 (List.length (options col df)) /\
  NoDup (map fst (top_counts by_count col df)) /\
  (forall c n,
     In (c, n) (top_counts by_count col df) ->
     (0 < n)%nat /\ n = count_of String.eqb c (keep_some (map col df))) /\
  (forall c c' n',
     In (Some c) (map col df) ->
     ~ In c (map fst (top_counts by_count col df)) ->
     In (c', n') (top_counts by_count col df) ->
     (count_of String.eqb c (keep_some (map col df)) <= n')%nat).
Proof.
  intros Hperm Hsorted. unfold top_counts.
  set (all := value_counts String.eqb by_count (map col df)).
  assert (Hall : all = firstn 10 all ++ skipn 10 all)
    by (symmetry; apply firstn_skipn).
  split; [|split; [|split]].
  - rewrite length_firstn. f_equal. unfold all, value_counts, options.
    rewrite (Permutation_length (Hperm _)).
    rewrite (Permutation_length (sorted_perm _ _)).
    unfold tally. apply length_map.
  - pose proof (value_counts_NoDup String.eqb string_eqb_eq by_count Hperm
                  (map col df)) as Hn.
    fold all in Hn. rewrite Hall, map_app in Hn.
    apply NoDup_app_remove_r in Hn. exact Hn.
  - intros c n Hin.
    apply (value_counts_In String.eqb string_eqb_eq by_count Hperm).
    fold all. rewrite Hall. apply in_or_app. left. exact Hin.
  - intros c c' n' Hc Hout Hin.
    set (n := count_of String.eqb c (keep_some (map col df))).
    assert (Hcn : In (c, n) all).
    { apply (value_counts_In String.eqb string_eqb_eq by_count Hperm).
      split; [|reflexivity].
      apply (count_of_pos String.eqb string_eqb_eq), keep_some_In, Hc. }
    rewrite Hall in Hcn. apply in_app_or in Hcn as [Hcn|Hcn].
    + exfalso. apply Hout. apply (in_map fst) in Hcn. exact Hcn.
    + pose proof (Hsorted (tally String.eqb (keep_some (map col df)))) as Hs.
      change (by_count (tally String.eqb (keep_some (map col df)))) with all in Hs.
      rewrite Hall in Hs.
      pose proof (StronglySorted_app_inv _ _ _ Hs _ _ Hin Hcn) as Hle.
      cbn [snd] in Hle. apply Nat.leb_le in Hle. exact Hle.
Qed.

Lemma yearly_counts_by_year_witness :
  (forall l : list (Z * nat), Permutation (by_count_stable l) l) /\
  yearly_counts by_count_stable table = [(1999%Z, 1%nat); (2004%Z, 2%nat)] /\
  StronglySorted (fun a b => (fst a < fst b)%Z) (yearly_counts by_count_stable table) /\
  forall y n,
    In (y, n) (yearly_counts by_count_stable table)
    <-> (0 < n)%nat /\ n = count_of Z.eqb y (map s_year table).
Proof.
  split; [exact by_count_stable_perm|]. split; [vm_compute; reflexivity|].
  exact (yearly_counts_by_year by_count_stable table by_count_stable_perm).
Defined.

Lemma top_counts_top_witness :
  (forall l : list (string * nat), Permutation (by_count_stable l) l) /\
  (forall l : list (string * nat),
     StronglySorted (fun a b => (snd b <=? snd a)%nat = true) (by_count_stable l)) /\
  top_counts by_count_stable s_shape table = [("light", 2%nat); ("disk", 1%nat)] /\
  List.length (top_counts by_count_stable s_shape table)
  = Nat.min 10 (List.length (options s_shape table)) /\
  NoDup (map fst (top_counts by_count_stable s_shape table)) /\
  (forall c n,
     In (c, n) (top_counts by_count_stable s_shape table) ->
     (0 < n)%nat /\ n = count_of String.eqb c (keep_some (map s_shape table))) /\
  (forall c c' n',
     In (Some c) (map s_shape table) ->
     ~ In c (map fst (top_counts by_count_stable s_shape table)) ->
     In (c', n') (top_counts by_count_stable s_shape table) ->
     (count_of String.eqb c (keep_some (map s_shape table)) <= n')%nat).
Proof.
  split; [exact by_count_stable_perm|]. split; [exact by_count_stable_sorted|].
  split; [vm_compute; reflexivity|].
  exact (top_counts_top by_count_stable s_shape table
           by_count_stable_perm by_count_stable_sorted).
Defined.

(** ** The map *)

Section MapProperties.

Variables (title upper : string -> string) (strftime : timestamp -> string).

Lemma marker_of_unlocated row :
  coordinates row = None -> marker_of title upper strftime row = Return None.
Proof.
  unfold coordinates, marker_of.
  destruct (l_latitude row), (l_longitude row); try discriminate; reflexivity.
Qed.

Lemma marker_of_located row xy :
  coordinates row = Some xy ->
  (labelled row = true /\
   exists mk, marker_of title upper strftime row = Return (Some mk)
              /\ location mk = xy)
  \/ (labelled row = false /\
      exists e, marker_of title upper strftime row = Raise e /\ none_error e).
Proof.
  unfold coordinates, marker_of, labelled, popup_html, tooltip_text, none_error.
  destruct (l_latitude row) as [la|]; [|discriminate].
  destruct (l_longitude row) as [lo|]; [|discriminate].
  intros E. injection E as <-.
  destruct (s_city (l_sighting row)), (s_shape (l_sighting row)),
    (s_description (l_sighting row)); cbn [call slice_200 bind];
    solve [ left; split; [reflexivity|]; eexists; split; reflexivity
          | right; split; [reflexivity|]; eexists; split; [reflexivity|]; auto ].
Qed.

Lemma add_markers_returns df ms :
  add_markers title upper strftime df = Return ms ->
  (forall row, In row df -> has_coordinates row = true -> labelled row = true) /\
  map location ms = keep_some (map coordinates df).
Proof.
  revert ms. induction df as [|row df IH]; intros ms; cbn [add_markers].
  - intros H. injection H as <-. split; [intros row []|reflexivity].
  - destruct (coordinates row) as [xy|] eqn:Ec.
    + destruct (marker_of_located row xy Ec)
        as [(Hl & mk & -> & Hloc)|(_ & e & -> & _)]; [|discriminate].
      cbn [bind].
      destruct (add_markers title upper strftime df) as [ms'|] eqn:E;
        [|discriminate].
      cbn [bind]. intros H. injection H as <-.
      destruct (IH ms' eq_refl) as [Hall Hms]. split.
      * intros r [<-|Hr] Hc; [exact Hl|apply Hall; assumption].
      * cbn [map keep_some]. rewrite Ec, Hloc, Hms. reflexivity.
    + rewrite (marker_of_unlocated row Ec). cbn [bind].
      destruct (add_markers title upper strftime df) as [ms'|] eqn:E;
        [|discriminate].
      cbn [bind]. intros H. injection H as <-.
      destruct (IH ms' eq_refl) as [Hall Hms]. split.
      * intros r [<-|Hr] Hc; [|apply Hall; assumption].
        unfold has_coordinates in Hc. unfold coordinates in Ec.
        destruct (l_latitude row), (l_longitude row); discriminate.
      * cbn [map keep_some]. rewrite Ec. exact Hms.
Qed.

Lemma add_markers_raised df e :
  add_markers title upper strftime df = Raise e -> none_error e.
Proof.
  induction df as [|row df IH]; cbn [add_markers]; [discriminate|].
  destruct (coordinates row) as [xy|] eqn:Ec.
  - destruct (marker_of_located row xy Ec)
      as [(_ & mk & -> & _)|(_ & e' & -> & He')].
    + cbn [bind]. destruct (add_markers title upper strftime df);
        cbn [bind]; [discriminate|].
      intros H. injection H as <-. apply IH. reflexivity.
    + cbn [bind]. intros H. injection H as <-. exact He'.
  - rewrite (marker_of_unlocated row Ec). cbn [bind].
    destruct (add_markers title upper strftime df); cbn [bind]; [discriminate|].
    intros H. injection H as <-. apply IH. reflexivity.
Qed.

Lemma add_markers_unlabelled df row :
  In row df -> has_coordinates row = true -> labelled row = false ->
  exists e, add_markers title upper strftime df = Raise e.
Proof.
  intros Hin Hc Hl.
  destruct (add_markers title upper strftime df) as [ms|e] eqn:E;
    [|exists e; reflexivity].
  apply add_markers_returns in E as [Hall _].
  rewrite (Hall row Hin Hc) in Hl. discriminate.
Qed.

End MapProperties.

(** X20: when [create_map] returns, the map has one marker for each row
    that has both coordinates, at these coordinates and in the order of the
    rows; the rows that lack a coordinate are passed over; and each row with
    a marker has a city, a shape and a description.  Only a table without
    rows gives a map without a cluster. *)
Theorem create_map_markers title upper strftime df m :
  create_map title upper strftime df = Return m ->
  (forall row, In row df -> has_coordinates row = true -> labelled row = true) /\
  match marker_cluster m with
  | None => df = []
  | Some ms => df <> [] /\ map location ms = keep_some (map coordinates df)
  end.
Proof.
  unfold create_map. destruct df as [|row df].
  - intros H. injection H as <-. split; [intros row []|reflexivity].
  - destruct (add_markers title upper strftime (row :: df)) as [ms|] eqn:E;
      [|discriminate].
    cbn [bind]. intros H. injection H as <-. cbn [marker_cluster].
    apply add_markers_returns in E as [Hall Hms].
    split; [exact Hall|]. split; [discriminate|exact Hms].
Qed.

Lemma create_map_markers_witness :
  exists m,
    create_map plain_text plain_text (fun _ => "2004-04-27") located_rows = Return m /\
    marker_cluster m <> Some [] /\
    (forall row, In row located_rows ->
       has_coordinates row = true -> labelled row = true) /\
    match marker_cluster m with
    | None => located_rows = []
    | Some ms =>
        located_rows <> [] /\
        map location ms = keep_some (map coordinates located_rows)
    end.
Proof.
  eexists.
  assert (H : create_map plain_text plain_text (fun _ => "2004-04-27") located_rows
              = Return _) by (vm_compute; reflexivity).
  split; [exact H|]. split; [vm_compute; discriminate|].
  exact (create_map_markers _ _ _ _ _ H).
Defined.

(** X21: one row with coordinates and without a city is enough for
    [create_map] to raise instead of returning a map, although the popup
    has a fallback text for a missing city: the tooltip of line 44 calls
    [title] on it all the same.  What is raised is the [AttributeError] or
    the [TypeError] of a missing value. *)
Theorem create_map_needs_city title upper strftime df row :
  In row df -> has_coordinates row = true ->
  s_city (l_sighting row) = None ->
  or_na title (s_city (l_sighting row)) = "N/A" /\
  exists e, create_map title upper strftime df = Raise e /\ none_error e.
Proof.
  intros Hin Hc Hcity. split; [rewrite Hcity; reflexivity|].
  assert (Hl : labelled row = false) by (unfold labelled; rewrite Hcity; reflexivity).
  destruct (add_markers_unlabelled title upper strftime df row Hin Hc Hl)
    as [e He].
  exists e. split.
  - unfold create_map. destruct df as [|r0 df]; [destruct Hin|].
    rewrite He. reflexivity.
  - eapply add_markers_raised. exact He.
Qed.

Lemma create_map_needs_city_witness :
  In unnamed_place (located_rows ++ [unnamed_place]) /\
  has_coordinates unnamed_place = true /\
  s_city (l_sighting unnamed_place) = None /\
  create_map plain_text plain_text (fun _ => "2004-04-27")
    (located_rows ++ [unnamed_place]) = Raise AttributeError /\
  or_na plain_text (s_city (l_sighting unnamed_place)) = "N/A" /\
  exists e,
    create_map plain_text plain_text (fun _ => "2004-04-27")
      (located_rows ++ [unnamed_place]) = Raise e /\ none_error e.
Proof.
  assert (H1 : In unnamed_place (located_rows ++ [unnamed_place]))
    by (apply in_or_app; right; left; reflexivity).
  split; [exact H1|]. split; [reflexivity|]. split; [reflexivity|].
  split; [vm_compute; reflexivity|].
  exact (create_map_needs_city plain_text plain_text (fun _ => "2004-04-27")
           (located_rows ++ [unnamed_place]) unnamed_place H1 eq_refl eq_refl).
Defined.

(** ** The keyword, when it is plain text *)



Example keyword_filter_bright_light :
  keyword_filter Plain.beyond "Bright Light" table
  = Return [mkSighting 2004 (Some "austin") (Some "tx") (Some "us") (Some "light")
              (Some "A bright LIGHT")].
Proof. vm_compute. reflexivity. Qed.

(** ** The keyword, with alternatives *)








Example keyword_filter_bright_or_dark :
  option_map (@List.length Sighting)
    (match keyword_filter Plain.beyond "bright|DARK" table with
     | Return out => Some out
     | Raise _ => None
     end) = Some 2%nat.
Proof. vm_compute. reflexivity. Qed.
